(** * The local profile store, the merge of an analysis and the report exporter

    A shallow embedding of the [App] component (the component that owns
    the [profiles] dictionary and the [activeProfileId] pointer), of the
    record types it works on, and of the three report generators.

    Conventions of the embedding:
    - a JavaScript string is a [string]; one character stands for one code
      unit;
    - a JavaScript number that the component stores (a score, a timestamp)
      is an integer, a [Z], small enough to be printed without an exponent;
    - [undefined]/absent is [None];
    - an object used as a dictionary is the list of its own properties in
      the order in which [Object.keys] enumerates them;
    - the browser ([crypto.randomUUID], [Date.now], [JSON.parse],
      [Date.prototype.toLocaleString]) is an interface, [Platform];
    - the flags of the user interface ([isAnalyzing], [error], the two
      menus), the download of an export and the two effects that write the
      state back to the storage are left out: no property below reads
      them. *)

From Stdlib Require Import String Ascii List ZArith NArith Lia Bool Arith.
From Stdlib Require Import DecimalString.
Import ListNotations.
Set Warnings "-register-all".
Open Scope string_scope.
Open Scope list_scope.

(** ** Strings and truthiness *)

(** The double quote, the line feed, the backslash. *)
Definition dq : string := String (ascii_of_nat 34) EmptyString.
Definition nl : string := String (ascii_of_nat 10) EmptyString.
Definition bslash : string := String (ascii_of_nat 92) EmptyString.

(** [ToBoolean] of a value of type [string | undefined]: only a non-empty
    string is truthy. *)
Definition truthy (v : option string) : bool :=
  match v with
  | Some s => negb (s =? EmptyString)%string
  | None => false
  end.

(** The string behind a truthy [string | undefined]. *)
Definition string_value (v : option string) : string :=
  match v with
  | Some s => s
  | None => EmptyString
  end.

(** [String(n)] and the template conversion of a non-negative integer and of
    an integer. *)
Definition string_of_nat (n : nat) : string :=
  NilZero.string_of_uint (Nat.to_uint n).

Definition string_of_Z (z : Z) : string :=
  NilZero.string_of_int (Z.to_int z).

(** [s.split(' ')]: the pieces between the spaces; never the empty list. *)
Fixpoint split_space (s : string) : list string :=
  match s with
  | EmptyString => [EmptyString]
  | String c rest =>
      if Ascii.eqb c " "%char then EmptyString :: split_space rest
      else match split_space rest with
           | piece :: pieces => String c piece :: pieces
           | [] => [String c EmptyString]
           end
  end.

(** [a.join(sep)] is [String.concat sep a]; [a.slice(1)] is [tl a]. *)
Definition join (sep : string) (a : list string) : string := String.concat sep a.

(** ** Objects used as dictionaries *)

Module Js.

(** The own enumerable string-keyed properties, in [Object.keys] order. *)
Definition Obj (A : Type) : Type := list (string * A).

(** The property names every ordinary object inherits from
    [Object.prototype]; each of them holds a truthy value (a function, or
    the prototype itself for [__proto__]). *)
Definition Object_prototype_names : list string :=
  [ "constructor"; "hasOwnProperty"; "isPrototypeOf"; "propertyIsEnumerable";
    "toLocaleString"; "toString"; "valueOf"; "__proto__";
    "__defineGetter__"; "__defineSetter__"; "__lookupGetter__";
    "__lookupSetter__" ].

Definition inherited (k : string) : bool :=
  existsb (String.eqb k) Object_prototype_names.

(** The result of the property read [o[k]]. *)
Inductive Read (A : Type) : Type :=
| Own (a : A)      (* an own property: a value of the dictionary *)
| Proto            (* found on Object.prototype: truthy, not an [A] *)
| Undefined.
Arguments Own {A} a.
Arguments Proto {A}.
Arguments Undefined {A}.

Fixpoint own {A} (k : string) (o : Obj A) : option A :=
  match o with
  | [] => None
  | (k', v) :: o' => if String.eqb k k' then Some v else own k o'
  end.

Definition get {A} (k : string) (o : Obj A) : Read A :=
  match own k o with
  | Some v => Own v
  | None => if inherited k then Proto else Undefined
  end.

(** [Object.keys(o)]. *)
Definition keys {A} (o : Obj A) : list string := map fst o.

(** [delete o[k]] (on the copy the caller made). *)
Definition delete {A} (k : string) (o : Obj A) : Obj A :=
  filter (fun kv => negb (String.eqb k (fst kv))) o.

(** An array index is the canonical decimal form of an integer below
    [2^32 - 1]; such keys are enumerated first, in numeric order. *)
Definition digit (c : ascii) : option N :=
  let n := N_of_ascii c in
  if (48 <=? n)%N && (n <=? 57)%N then Some (n - 48)%N else None.

Fixpoint digits_value (s : string) (acc : N) : option N :=
  match s with
  | EmptyString => Some acc
  | String c rest =>
      match digit c with
      | Some d => digits_value rest (10 * acc + d)%N
      | None => None
      end
  end.

Definition array_index (k : string) : option N :=
  match k with
  | EmptyString => None
  | String c rest =>
      if Ascii.eqb c "0"%char && negb (rest =? EmptyString)%string then None
      else match digits_value k 0%N with
           | Some n => if (n <? 4294967295)%N then Some n else None
           | None => None
           end
  end.

(** Overwriting the value of an own property keeps its place. *)
Fixpoint replace {A} (k : string) (v : A) (o : Obj A) : Obj A :=
  match o with
  | [] => []
  | (k', v') :: o' =>
      if String.eqb k k' then (k', v) :: o' else (k', v') :: replace k v o'
  end.

(** A new array-index key goes before the first key that is not an array
    index or is a larger one. *)
Fixpoint insert_index {A} (n : N) (k : string) (v : A) (o : Obj A) : Obj A :=
  match o with
  | [] => [(k, v)]
  | (k', v') :: o' =>
      match array_index k' with
      | Some n' => if (n' <? n)%N then (k', v') :: insert_index n k v o'
                   else (k, v) :: o
      | None => (k, v) :: o
      end
  end.

(** The dictionary [{...o, [k]: v}]. *)
Definition set {A} (k : string) (v : A) (o : Obj A) : Obj A :=
  match own k o with
  | Some _ => replace k v o
  | None =>
      match array_index k with
      | Some n => insert_index n k v o
      | None => o ++ [(k, v)]
      end
  end.

(** [ToPropertyKey] of a value of type [string | null]. *)
Definition key_of (k : option string) : string :=
  match k with
  | Some s => s
  | None => "null"
  end.

End Js.

(** ** White space, [trim], and [JSON.stringify] *)

(** The white space and line terminators among the first 256 code units. *)
Definition is_ws (c : ascii) : bool :=
  let n := nat_of_ascii c in
  ((9 <=? n) && (n <=? 13) || (n =? 32) || (n =? 160))%nat.

Fixpoint trim_left (s : string) : string :=
  match s with
  | EmptyString => EmptyString
  | String c rest => if is_ws c then trim_left rest else s
  end.

Fixpoint trim_right (s : string) : string :=
  match s with
  | EmptyString => EmptyString
  | String c rest =>
      match trim_right rest with
      | EmptyString => if is_ws c then EmptyString else String c EmptyString
      | kept => String c kept
      end
  end.

(** [s.trim()]. *)
Definition trim (s : string) : string := trim_right (trim_left s).

(** [s.replace(/\s+/g, '')]: the text without its white space. *)
Fixpoint remove_ws (s : string) : string :=
  match s with
  | EmptyString => EmptyString
  | String c rest => if is_ws c then remove_ws rest else String c (remove_ws rest)
  end.

Module Json.

(** The values the component serialises: strings, integers, arrays and
    objects (a property whose value is [undefined] is left out by the
    caller). *)
Inductive t : Type :=
| Str (s : string)
| Num (z : Z)
| Arr (items : list t)
| Obj (props : list (string * t)).

Definition hex (n : nat) : string :=
  String.substring n 1 "0123456789abcdef".

(** One code unit inside a quoted JSON string. *)
Definition escape (c : ascii) : string :=
  let n := nat_of_ascii c in
  if (n =? 8)%nat then (bslash ++ "b")%string
  else if (n =? 9)%nat then (bslash ++ "t")%string
  else if (n =? 10)%nat then (bslash ++ "n")%string
  else if (n =? 12)%nat then (bslash ++ "f")%string
  else if (n =? 13)%nat then (bslash ++ "r")%string
  else if (n =? 34)%nat then (bslash ++ dq)%string
  else if (n =? 92)%nat then (bslash ++ bslash)%string
  else if (n <? 32)%nat
  then (bslash ++ "u00" ++ hex (n / 16) ++ hex (n mod 16))%string
  else String c EmptyString.

Fixpoint escape_all (s : string) : string :=
  match s with
  | EmptyString => EmptyString
  | String c rest => (escape c ++ escape_all rest)%string
  end.

Definition quote (s : string) : string := (dq ++ escape_all s ++ dq)%string.

(** The brackets around the serialised members, on one line without a
    gap and one member per line with it. *)
Definition wrap (gap indent opening closing : string) (members : list string)
  : string :=
  match members with
  | [] => (opening ++ closing)%string
  | _ =>
      if (gap =? EmptyString)%string
      then (opening ++ String.concat "," members ++ closing)%string
      else (opening ++ nl ++ indent ++ gap
              ++ String.concat ("," ++ nl ++ indent ++ gap) members
              ++ nl ++ indent ++ closing)%string
  end.

Definition colon (gap : string) : string :=
  if (gap =? EmptyString)%string then ":" else ": ".

(** [JSON.stringify(v, null, gap)] at the nesting [indent]. *)
Fixpoint serialize (gap indent : string) (v : t) {struct v} : string :=
  match v with
  | Str s => quote s
  | Num z => string_of_Z z
  | Arr items =>
      wrap gap indent "[" "]"
        (map (serialize gap (indent ++ gap)%string) items)
  | Obj props =>
      wrap gap indent "{" "}"
        (map (fun kv : string * t =>
                let (k, x) := kv in
                (quote k ++ colon gap ++ serialize gap (indent ++ gap) x)%string)
             props)
  end.

Definition stringify (gap : string) (v : t) : string :=
  serialize gap EmptyString v.

End Json.

(** ** The record types ([types.ts]) *)

Inductive MediaType : Type := IMAGE | PDF | AUDIO | VIDEO | TEXT_FILE | HTML.

Definition MediaType_to_string (t : MediaType) : string :=
  match t with
  | IMAGE => "IMAGE"
  | PDF => "PDF"
  | AUDIO => "AUDIO"
  | VIDEO => "VIDEO"
  | TEXT_FILE => "TEXT_FILE"
  | HTML => "HTML"
  end.

Module AnalysisHistoryItem.
Record t : Type := mk {
  id : string;
  timestamp : Z;
  type : MediaType;
  summary : string;
  fileName : option string
}.
End AnalysisHistoryItem.

Module BigFiveScores.
Record t : Type := mk {
  openness : Z;
  conscientiousness : Z;
  extraversion : Z;
  agreeableness : Z;
  neuroticism : Z
}.
End BigFiveScores.

Module PsychologicalProfile.
Record t : Type := mk {
  id : string;
  firstName : string;
  lastName : string;
  dateOfBirth : string;
  lastUpdated : Z;
  bigFive : BigFiveScores.t;
  mbti : string;
  enneagram : string;
  attachmentStyle : string;
  summary : string;
  keyTraits : list string;
  bodyLanguageNotes : list string;
  toneVoiceNotes : list string;
  history : list AnalysisHistoryItem.t
}.
End PsychologicalProfile.

Module CandidateProfile.
Record t : Type := mk {
  firstName : option string;
  lastName : option string;
  dateOfBirth : option string
}.
End CandidateProfile.

Module AnalysisResponse.
Record t : Type := mk {
  candidateProfile : option CandidateProfile.t;
  bigFive : BigFiveScores.t;
  mbti : string;
  enneagram : string;
  attachmentStyle : string;
  summary : string;
  keyTraits : list string;
  newObservations : string;
  bodyLanguageAnalysis : option string;
  toneAnalysis : option string
}.
End AnalysisResponse.

(** What the component reads of a [File]. *)
Module File.
Record t : Type := mk {
  name : string;
  type : string
}.
End File.

(** The record under the legacy key: any subset of the profile's fields and
    a combined [name]. *)
Module LegacyProfile.
Record t : Type := mk {
  name : option string;
  firstName : option string;
  lastName : option string;
  dateOfBirth : option string;
  lastUpdated : option Z;
  bigFive : option BigFiveScores.t;
  mbti : option string;
  enneagram : option string;
  attachmentStyle : option string;
  summary : option string;
  keyTraits : option (list string);
  bodyLanguageNotes : option (list string);
  toneVoiceNotes : option (list string);
  history : option (list AnalysisHistoryItem.t)
}.
End LegacyProfile.

Definition Profile : Type := PsychologicalProfile.t.
Definition Profiles : Type := Js.Obj Profile.

(** ** The merge of an analysis into a profile (the updater of
    [handleAnalysis]) *)

Section Merge.

Variable files : list File.t.
Variable type : MediaType.
Variable result : AnalysisResponse.t.
Variable current : Profile.

(** The file label; [files[0].name] is a [TypeError] on an empty batch. *)
Definition fileName : option string :=
  if (1 <? length files)%nat
  then Some (string_of_nat (length files) ++ " files uploaded")%string
  else match files with
       | f :: _ => Some (File.name f)
       | [] => None
       end.

Definition newHistoryItem (uuid : string) (now : Z) (label : string)
  : AnalysisHistoryItem.t :=
  {| AnalysisHistoryItem.id := uuid;
     AnalysisHistoryItem.timestamp := now;
     AnalysisHistoryItem.type := type;
     AnalysisHistoryItem.summary := AnalysisResponse.newObservations result;
     AnalysisHistoryItem.fileName := Some label |}.

Definition newBodyLanguage : list string :=
  if truthy (AnalysisResponse.bodyLanguageAnalysis result)
  then PsychologicalProfile.bodyLanguageNotes current
         ++ [string_value (AnalysisResponse.bodyLanguageAnalysis result)]
  else PsychologicalProfile.bodyLanguageNotes current.

Definition newToneNotes : list string :=
  if truthy (AnalysisResponse.toneAnalysis result)
  then PsychologicalProfile.toneVoiceNotes current
         ++ [string_value (AnalysisResponse.toneAnalysis result)]
  else PsychologicalProfile.toneVoiceNotes current.

(** [if (cand && guard) field = cand], for the three identity fields. *)
Definition override (cand : option string) (guard : bool) (old : string)
  : string :=
  if truthy cand && guard then string_value cand else old.

Definition newFirstName : string :=
  let cur := PsychologicalProfile.firstName current in
  match AnalysisResponse.candidateProfile result with
  | Some cp =>
      override (CandidateProfile.firstName cp)
        ((cur =? "New") || (cur =? "Subject") || negb (truthy (Some cur)))%string
        cur
  | None => cur
  end.

Definition newLastName : string :=
  let cur := PsychologicalProfile.lastName current in
  match AnalysisResponse.candidateProfile result with
  | Some cp =>
      override (CandidateProfile.lastName cp)
        ((cur =? "Subject") || (cur =? "001") || negb (truthy (Some cur)))%string
        cur
  | None => cur
  end.

Definition newDOB : string :=
  let cur := PsychologicalProfile.dateOfBirth current in
  match AnalysisResponse.candidateProfile result with
  | Some cp =>
      override (CandidateProfile.dateOfBirth cp) (negb (truthy (Some cur))) cur
  | None => cur
  end.

(** [uuid] and [t1] are the values drawn for the history entry, [t2] the
    later reading of the clock for [lastUpdated]. *)
Definition updatedProfile (uuid : string) (t1 t2 : Z) (label : string)
  : Profile :=
  {| PsychologicalProfile.id := PsychologicalProfile.id current;
     PsychologicalProfile.firstName := newFirstName;
     PsychologicalProfile.lastName := newLastName;
     PsychologicalProfile.dateOfBirth := newDOB;
     PsychologicalProfile.lastUpdated := t2;
     PsychologicalProfile.bigFive := AnalysisResponse.bigFive result;
     PsychologicalProfile.mbti := AnalysisResponse.mbti result;
     PsychologicalProfile.enneagram := AnalysisResponse.enneagram result;
     PsychologicalProfile.attachmentStyle :=
       AnalysisResponse.attachmentStyle result;
     PsychologicalProfile.summary := AnalysisResponse.summary result;
     PsychologicalProfile.keyTraits := AnalysisResponse.keyTraits result;
     PsychologicalProfile.bodyLanguageNotes := newBodyLanguage;
     PsychologicalProfile.toneVoiceNotes := newToneNotes;
     PsychologicalProfile.history :=
       PsychologicalProfile.history current ++ [newHistoryItem uuid t1 label] |}.

End Merge.

(** ** The browser *)

(** The services of the browser the component calls.  The two sources of
    fresh values answer by call number; an identifier has the 36
    characters of a UUID.  [JSON.parse] is given at the two types the
    component ascribes to its result ([None]: it throws a [SyntaxError]);
    it rejects the empty text.  The last three format a time given in
    milliseconds. *)
Class Platform : Type := {
  randomUUID_nth : nat -> string;
  randomUUID_length : forall n, String.length (randomUUID_nth n) = 36;
  Date_now_nth : nat -> Z;
  JSON_parse_profiles : string -> option Profiles;
  JSON_parse_legacy : string -> option LegacyProfile.t;
  JSON_parse_profiles_empty : JSON_parse_profiles EmptyString = None;
  JSON_parse_legacy_empty : JSON_parse_legacy EmptyString = None;
  toLocaleString : Z -> string;
  toLocaleDateString : Z -> string;
  toISOString : Z -> string
}.

(** ** The state of the component and of the browser around it *)

Record Machine : Type := mkMachine {
  localStorage : list (string * string);
  profiles : Profiles;
  activeProfileId : option string;
  uuids_drawn : nat;
  clock_reads : nat
}.

Inductive Exn : Type := SyntaxError | TypeError.

Inductive Outcome (A : Type) : Type :=
| Returned (a : A)
| Thrown (e : Exn).
Arguments Returned {A} a.
Arguments Thrown {A} e.

(** A computation that reads and writes the machine and may throw. *)
Definition Eff (A : Type) : Type := Machine -> Outcome A * Machine.

Definition ret {A} (a : A) : Eff A := fun m => (Returned a, m).

Definition bind {A B} (c : Eff A) (k : A -> Eff B) : Eff B :=
  fun m =>
    match c m with
    | (Returned a, m') => k a m'
    | (Thrown e, m') => (Thrown e, m')
    end.

Definition throw {A} (e : Exn) : Eff A := fun m => (Thrown e, m).

(** [try { body } catch (e) { handler }]: what [body] wrote before it threw
    stays written. *)
Definition try_catch {A} (body : Eff A) (handler : Exn -> Eff A) : Eff A :=
  fun m =>
    match body m with
    | (Returned a, m') => (Returned a, m')
    | (Thrown e, m') => handler e m'
    end.

Declare Scope eff_scope.
Delimit Scope eff_scope with eff.
Notation "x <- c ;; k" := (bind c (fun x => k))
  (at level 61, c at next level, right associativity) : eff_scope.
Notation "c ;; k" := (bind c (fun _ => k))
  (at level 61, right associativity) : eff_scope.
Open Scope eff_scope.

Definition getItem (k : string) : Eff (option string) :=
  fun m => (Returned (Js.own k (localStorage m)), m).

Definition removeItem (k : string) : Eff unit :=
  fun m =>
    (Returned tt,
     mkMachine (Js.delete k (localStorage m)) (profiles m) (activeProfileId m)
       (uuids_drawn m) (clock_reads m)).

Definition readProfiles : Eff Profiles :=
  fun m => (Returned (profiles m), m).

Definition readActiveProfileId : Eff (option string) :=
  fun m => (Returned (activeProfileId m), m).

Definition setProfiles (p : Profiles) : Eff unit :=
  fun m =>
    (Returned tt,
     mkMachine (localStorage m) p (activeProfileId m) (uuids_drawn m)
       (clock_reads m)).

Definition setActiveProfileId (k : string) : Eff unit :=
  fun m =>
    (Returned tt,
     mkMachine (localStorage m) (profiles m) (Some k) (uuids_drawn m)
       (clock_reads m)).

(** The state of a component that has just been mounted. *)
Definition mounted (storage : list (string * string)) (uuids clock : nat)
  : Machine :=
  mkMachine storage [] None uuids clock.

Section App.

Context {platform : Platform}.

Definition randomUUID : Eff string :=
  fun m =>
    (Returned (randomUUID_nth (uuids_drawn m)),
     mkMachine (localStorage m) (profiles m) (activeProfileId m)
       (S (uuids_drawn m)) (clock_reads m)).

Definition Date_now : Eff Z :=
  fun m =>
    (Returned (Date_now_nth (clock_reads m)),
     mkMachine (localStorage m) (profiles m) (activeProfileId m)
       (uuids_drawn m) (S (clock_reads m))).

Definition JSON_parse {A} (parse : string -> option A) (text : string)
  : Eff A :=
  match parse text with
  | Some v => ret v
  | None => throw SyntaxError
  end.

(** The profile of a subject nothing is known about. *)
Definition defaultProfile (uuid : string) (now : Z) : Profile :=
  {| PsychologicalProfile.id := uuid;
     PsychologicalProfile.firstName := "New";
     PsychologicalProfile.lastName := "Subject";
     PsychologicalProfile.dateOfBirth := EmptyString;
     PsychologicalProfile.lastUpdated := now;
     PsychologicalProfile.bigFive :=
       {| BigFiveScores.openness := 50;
          BigFiveScores.conscientiousness := 50;
          BigFiveScores.extraversion := 50;
          BigFiveScores.agreeableness := 50;
          BigFiveScores.neuroticism := 50 |};
     PsychologicalProfile.mbti := "Unknown";
     PsychologicalProfile.enneagram := "Unknown";
     PsychologicalProfile.attachmentStyle := "Unknown";
     PsychologicalProfile.summary :=
       "Profile pending. Upload evidence (text screenshots, photos, videos, audio) to begin the psychological profiling process.";
     PsychologicalProfile.keyTraits := [];
     PsychologicalProfile.bodyLanguageNotes := [];
     PsychologicalProfile.toneVoiceNotes := [];
     PsychologicalProfile.history := [] |}.

Definition generateNewProfile : Eff Profile :=
  uuid <- randomUUID ;;
  now <- Date_now ;;
  ret (defaultProfile uuid now).

(** [a || b || fallback] on strings that may be absent. *)
Definition first_truthy (a b : option string) (fallback : string) : string :=
  if truthy a then string_value a
  else if truthy b then string_value b
  else fallback.

Definition from_legacy {A} (legacy : option A) (default : A) : A :=
  match legacy with
  | Some v => v
  | None => default
  end.

(** [{...defaults, ...parsedLegacy, id: newId, firstName: ..., lastName: ...}]. *)
Definition migratedProfile (defaults : Profile) (parsedLegacy : LegacyProfile.t)
    (newId : string) : Profile :=
  {| PsychologicalProfile.id := newId;
     PsychologicalProfile.firstName :=
       first_truthy (LegacyProfile.firstName parsedLegacy)
         (match LegacyProfile.name parsedLegacy with
          | Some n => hd_error (split_space n)
          | None => None
          end)
         "Subject";
     PsychologicalProfile.lastName :=
       first_truthy (LegacyProfile.lastName parsedLegacy)
         (match LegacyProfile.name parsedLegacy with
          | Some n => Some (join " " (tl (split_space n)))
          | None => None
          end)
         "001";
     PsychologicalProfile.dateOfBirth :=
       from_legacy (LegacyProfile.dateOfBirth parsedLegacy)
         (PsychologicalProfile.dateOfBirth defaults);
     PsychologicalProfile.lastUpdated :=
       from_legacy (LegacyProfile.lastUpdated parsedLegacy)
         (PsychologicalProfile.lastUpdated defaults);
     PsychologicalProfile.bigFive :=
       from_legacy (LegacyProfile.bigFive parsedLegacy)
         (PsychologicalProfile.bigFive defaults);
     PsychologicalProfile.mbti :=
       from_legacy (LegacyProfile.mbti parsedLegacy)
         (PsychologicalProfile.mbti defaults);
     PsychologicalProfile.enneagram :=
       from_legacy (LegacyProfile.enneagram parsedLegacy)
         (PsychologicalProfile.enneagram defaults);
     PsychologicalProfile.attachmentStyle :=
       from_legacy (LegacyProfile.attachmentStyle parsedLegacy)
         (PsychologicalProfile.attachmentStyle defaults);
     PsychologicalProfile.summary :=
       from_legacy (LegacyProfile.summary parsedLegacy)
         (PsychologicalProfile.summary defaults);
     PsychologicalProfile.keyTraits :=
       from_legacy (LegacyProfile.keyTraits parsedLegacy)
         (PsychologicalProfile.keyTraits defaults);
     PsychologicalProfile.bodyLanguageNotes :=
       from_legacy (LegacyProfile.bodyLanguageNotes parsedLegacy)
         (PsychologicalProfile.bodyLanguageNotes defaults);
     PsychologicalProfile.toneVoiceNotes :=
       from_legacy (LegacyProfile.toneVoiceNotes parsedLegacy)
         (PsychologicalProfile.toneVoiceNotes defaults);
     PsychologicalProfile.history :=
       from_legacy (LegacyProfile.history parsedLegacy)
         (PsychologicalProfile.history defaults) |}.

(** [const newP = generateNewProfile(); setProfiles({ [newP.id]: newP });
    setActiveProfileId(newP.id)], which [loadData] does in three places. *)
Definition startFresh : Eff unit :=
  newP <- generateNewProfile ;;
  setProfiles (Js.set (PsychologicalProfile.id newP) newP []) ;;
  setActiveProfileId (PsychologicalProfile.id newP).

(** Is [parsedProfiles[savedActiveId]] truthy?  A profile is an object. *)
Definition read_truthy {A} (r : Js.Read A) : bool :=
  match r with
  | Js.Own _ => true
  | Js.Proto => true
  | Js.Undefined => false
  end.

(** "Restore active session or default to first available". *)
Definition restoreActive (savedActiveId : option string)
    (parsedProfiles : Profiles) : Eff unit :=
  if truthy savedActiveId
     && read_truthy (Js.get (string_value savedActiveId) parsedProfiles)
  then setActiveProfileId (string_value savedActiveId)
  else match hd_error (Js.keys parsedProfiles) with
       | Some firstId =>
           if truthy (Some firstId) then setActiveProfileId firstId
           else ret tt
       | None => ret tt
       end.

(** "Happy path: load existing multi-profile DB". *)
Definition happyPath (savedProfiles : string) (savedActiveId : option string)
  : Eff unit :=
  try_catch
    (parsedProfiles <- JSON_parse JSON_parse_profiles savedProfiles ;;
     setProfiles parsedProfiles ;;
     restoreActive savedActiveId parsedProfiles)
    (fun _ => startFresh).

(** "Migration path: check for legacy single profile". *)
Definition migrationPath : Eff unit :=
  legacyProfile <- getItem "psycho_profile_v3" ;;
  if truthy legacyProfile then
    try_catch
      (parsedLegacy <- JSON_parse JSON_parse_legacy (string_value legacyProfile) ;;
       newId <- randomUUID ;;
       defaults <- generateNewProfile ;;
       setProfiles
         (Js.set newId (migratedProfile defaults parsedLegacy newId) []) ;;
       setActiveProfileId newId ;;
       removeItem "psycho_profile_v3")
      (fun _ => startFresh)
  else startFresh.

Definition loadData : Eff unit :=
  savedProfiles <- getItem "psycho_profiles_db" ;;
  savedActiveId <- getItem "psycho_active_id" ;;
  if truthy savedProfiles
  then happyPath (string_value savedProfiles) savedActiveId
  else migrationPath.

(** *** Profile management actions *)

Definition handleCreateProfile : Eff unit :=
  newProfile <- generateNewProfile ;;
  prev <- readProfiles ;;
  setProfiles (Js.set (PsychologicalProfile.id newProfile) newProfile prev) ;;
  setActiveProfileId (PsychologicalProfile.id newProfile).

Definition handleSwitchProfile (id : string) : Eff unit :=
  setActiveProfileId id.

(** [confirmed] is the answer the user gives to [confirm(...)], which is
    asked only when there is an active id. *)
Definition handleDeleteProfile (confirmed : bool) : Eff unit :=
  activeId <- readActiveProfileId ;;
  if negb (truthy activeId) then ret tt
  else if confirmed then
    prev <- readProfiles ;;
    let newProfiles := Js.delete (string_value activeId) prev in
    let remainingIds := Js.keys newProfiles in
    match remainingIds with
    | [] =>
        fresh <- generateNewProfile ;;
        setProfiles (Js.set (PsychologicalProfile.id fresh) fresh []) ;;
        setActiveProfileId (PsychologicalProfile.id fresh)
    | firstRemaining :: _ =>
        setProfiles newProfiles ;;
        setActiveProfileId firstRemaining
    end
  else ret tt.

(** *** Analysis *)

(** The updater [prev => ...] that [handleAnalysis] hands to [setProfiles];
    [activeId] is the [activeProfileId] the handler closed over.  A read
    that lands on [Object.prototype] gives an object without [history],
    whose spread is a [TypeError]. *)
Definition handleAnalysis_update (files : list File.t) (type : MediaType)
    (result : AnalysisResponse.t) (activeId : option string) : Eff unit :=
  prev <- readProfiles ;;
  match Js.get (Js.key_of activeId) prev with
  | Js.Undefined => ret tt
  | Js.Own current =>
      uuid <- randomUUID ;;
      t1 <- Date_now ;;
      match fileName files with
      | None => throw TypeError
      | Some label =>
          t2 <- Date_now ;;
          setProfiles
            (Js.set (Js.key_of activeId)
               (updatedProfile type result current uuid t1 t2 label) prev)
      end
  | Js.Proto =>
      uuid <- randomUUID ;;
      t1 <- Date_now ;;
      match fileName files with
      | None => throw TypeError
      | Some label =>
          if truthy (AnalysisResponse.bodyLanguageAnalysis result)
             || truthy (AnalysisResponse.toneAnalysis result)
          then throw TypeError
          else (t2 <- Date_now ;; throw TypeError)
      end
  end.

(** [reply] is what the two awaited steps give: the analysis, or [None]
    when one of them rejects (the handler then only records an error
    message). *)
Definition handleAnalysis (files : list File.t) (type : MediaType)
    (reply : option AnalysisResponse.t) : Eff unit :=
  if (length files =? 0)%nat then ret tt
  else match reply with
       | None => ret tt
       | Some result =>
           activeId <- readActiveProfileId ;;
           handleAnalysis_update files type result activeId
       end.

End App.

(** ** Export *)

(** The objects behind the records, with the properties in the order of
    [generateNewProfile]. *)
Definition bigFive_to_json (b : BigFiveScores.t) : Json.t :=
  Json.Obj
    [ ("openness", Json.Num (BigFiveScores.openness b));
      ("conscientiousness", Json.Num (BigFiveScores.conscientiousness b));
      ("extraversion", Json.Num (BigFiveScores.extraversion b));
      ("agreeableness", Json.Num (BigFiveScores.agreeableness b));
      ("neuroticism", Json.Num (BigFiveScores.neuroticism b)) ].

Definition historyItem_to_json (h : AnalysisHistoryItem.t) : Json.t :=
  Json.Obj
    ([ ("id", Json.Str (AnalysisHistoryItem.id h));
       ("timestamp", Json.Num (AnalysisHistoryItem.timestamp h));
       ("type", Json.Str (MediaType_to_string (AnalysisHistoryItem.type h)));
       ("summary", Json.Str (AnalysisHistoryItem.summary h)) ]
     ++ match AnalysisHistoryItem.fileName h with
        | Some f => [("fileName", Json.Str f)]
        | None => []
        end).

Definition strings_to_json (l : list string) : Json.t :=
  Json.Arr (map Json.Str l).

Definition profile_properties (p : Profile) : list (string * Json.t) :=
  [ ("id", Json.Str (PsychologicalProfile.id p));
    ("firstName", Json.Str (PsychologicalProfile.firstName p));
    ("lastName", Json.Str (PsychologicalProfile.lastName p));
    ("dateOfBirth", Json.Str (PsychologicalProfile.dateOfBirth p));
    ("lastUpdated", Json.Num (PsychologicalProfile.lastUpdated p));
    ("bigFive", bigFive_to_json (PsychologicalProfile.bigFive p));
    ("mbti", Json.Str (PsychologicalProfile.mbti p));
    ("enneagram", Json.Str (PsychologicalProfile.enneagram p));
    ("attachmentStyle", Json.Str (PsychologicalProfile.attachmentStyle p));
    ("summary", Json.Str (PsychologicalProfile.summary p));
    ("keyTraits", strings_to_json (PsychologicalProfile.keyTraits p));
    ("bodyLanguageNotes",
     strings_to_json (PsychologicalProfile.bodyLanguageNotes p));
    ("toneVoiceNotes", strings_to_json (PsychologicalProfile.toneVoiceNotes p));
    ("history",
     Json.Arr (map historyItem_to_json (PsychologicalProfile.history p))) ].

Definition profile_to_json (p : Profile) : Json.t :=
  Json.Obj (profile_properties p).

Definition profiles_to_json (ps : Profiles) : Json.t :=
  Json.Obj (map (fun kv => (fst kv, profile_to_json (snd kv))) ps).

Inductive ExportFormat : Type := json | txt | doc.

Record Download : Type := mkDownload {
  download : string;
  content : string;
  mimeType : string
}.

Section Exporter.

Context {platform : Platform}.

(** [dob || "Unknown"]. *)
Definition or_unknown (dob : string) : string :=
  if truthy (Some dob) then dob else "Unknown".

Definition bullet (t : string) : string := ("- " ++ t)%string.

Definition textHistoryLine (h : AnalysisHistoryItem.t) : string :=
  ("[" ++ toLocaleDateString (AnalysisHistoryItem.timestamp h) ++ "] "
   ++ MediaType_to_string (AnalysisHistoryItem.type h) ++ ": "
   ++ substring 0 100 (AnalysisHistoryItem.summary h) ++ "...")%string.

Definition tag (t : string) : string :=
  ("<span class=" ++ dq ++ "tag" ++ dq ++ ">" ++ t ++ "</span>")%string.

Definition li (n : string) : string := ("<li>" ++ n ++ "</li>")%string.

Definition htmlHistoryItem (h : AnalysisHistoryItem.t) : string :=
  ("<li><strong>" ++ toLocaleDateString (AnalysisHistoryItem.timestamp h)
   ++ ":</strong> (" ++ MediaType_to_string (AnalysisHistoryItem.type h)
   ++ ") " ++ AnalysisHistoryItem.summary h ++ "</li>")%string.

(** The lines of the template of [generateTextReport], from the opening
    back quote to the closing one. *)
Definition textReportLines (p : Profile) : list string :=
  [ EmptyString;
    "PSYCHOLOGICAL PROFILE REPORT";
    "============================";
    ("SUBJECT: " ++ (PsychologicalProfile.firstName p) ++ " " ++ (PsychologicalProfile.lastName p))%string;
    ("DOB: " ++ (or_unknown (PsychologicalProfile.dateOfBirth p)))%string;
    ("LAST UPDATED: " ++ (toLocaleString (PsychologicalProfile.lastUpdated p)))%string;
    EmptyString;
    "EXECUTIVE SUMMARY";
    "-----------------";
    (PsychologicalProfile.summary p);
    EmptyString;
    "PERSONALITY ARCHETYPE";
    "---------------------";
    ("MBTI: " ++ (PsychologicalProfile.mbti p))%string;
    ("Enneagram: " ++ (PsychologicalProfile.enneagram p))%string;
    ("Attachment Style: " ++ (PsychologicalProfile.attachmentStyle p))%string;
    EmptyString;
    "BIG FIVE METRICS (0-100)";
    "------------------------";
    ("Openness: " ++ (string_of_Z (BigFiveScores.openness (PsychologicalProfile.bigFive p))))%string;
    ("Conscientiousness: " ++ (string_of_Z (BigFiveScores.conscientiousness (PsychologicalProfile.bigFive p))))%string;
    ("Extraversion: " ++ (string_of_Z (BigFiveScores.extraversion (PsychologicalProfile.bigFive p))))%string;
    ("Agreeableness: " ++ (string_of_Z (BigFiveScores.agreeableness (PsychologicalProfile.bigFive p))))%string;
    ("Neuroticism: " ++ (string_of_Z (BigFiveScores.neuroticism (PsychologicalProfile.bigFive p))))%string;
    EmptyString;
    "KEY OBSERVED TRAITS";
    "-------------------";
    (join nl (map bullet (PsychologicalProfile.keyTraits p)));
    EmptyString;
    "DETAILED ANALYSIS";
    "-----------------";
    "[Body Language & Kinesics]";
    (match PsychologicalProfile.bodyLanguageNotes p with [] => "No specific body language data." | notes => join nl (map bullet notes) end);
    EmptyString;
    "[Voice & Tone]";
    (match PsychologicalProfile.toneVoiceNotes p with [] => "No specific voice data." | notes => join nl (map bullet notes) end);
    EmptyString;
    "ANALYSIS HISTORY";
    "----------------";
    (join nl (map textHistoryLine (rev (PsychologicalProfile.history p))));
    "    " ].

Definition generateTextReport (p : Profile) : string :=
  trim (join nl (textReportLines p)).

(** The lines of the template of [generateHTMLReport]; [now] is the time
    [new Date()] reads. *)
Definition htmlReportLines (now : Z) (p : Profile) : list string :=
  [ EmptyString;
    "    <!DOCTYPE html>";
    "    <html xmlns:o='urn:schemas-microsoft-com:office:office' xmlns:w='urn:schemas-microsoft-com:office:word' xmlns='http://www.w3.org/TR/REC-html40'>";
    "    <head>";
    ("    <meta charset=" ++ dq ++ "utf-8" ++ dq ++ ">")%string;
    ("    <title>Psychological Profile - " ++ (PsychologicalProfile.firstName p) ++ " " ++ (PsychologicalProfile.lastName p) ++ "</title>")%string;
    "    <style>";
    "      body { font-family: 'Calibri', 'Arial', sans-serif; line-height: 1.5; color: #1a1a1a; max-width: 800px; margin: 0 auto; padding: 20px; }";
    "      h1 { color: #2563eb; border-bottom: 2px solid #2563eb; padding-bottom: 10px; font-size: 24px; margin-bottom: 20px; }";
    "      h2 { color: #0f172a; background: #f1f5f9; padding: 8px; margin-top: 25px; font-size: 18px; border-left: 4px solid #2563eb; }";
    "      h3 { color: #475569; margin-top: 15px; font-size: 16px; text-transform: uppercase; letter-spacing: 0.05em; }";
    "      .meta { background: #f8fafc; padding: 15px; border-radius: 8px; border: 1px solid #e2e8f0; margin-bottom: 30px; }";
    "      .metric-row { display: flex; justify-content: space-between; margin-bottom: 5px; border-bottom: 1px dotted #cbd5e1; padding-bottom: 2px; }";
    "      .tag { background: #e0f2fe; color: #0369a1; padding: 2px 8px; border-radius: 12px; font-size: 0.9em; margin-right: 5px; display: inline-block; border: 1px solid #bae6fd; }";
    "      ul { margin-top: 5px; padding-left: 20px; }";
    "      li { margin-bottom: 4px; }";
    "      p { text-align: justify; }";
    "    </style>";
    "    </head>";
    "    <body>";
    "      <h1>CONFIDENTIAL PSYCHOLOGICAL PROFILE</h1>";
    "      ";
    ("      <div class=" ++ dq ++ "meta" ++ dq ++ ">")%string;
    ("        <p><strong>Subject:</strong> " ++ (PsychologicalProfile.firstName p) ++ " " ++ (PsychologicalProfile.lastName p) ++ "</p>")%string;
    ("        <p><strong>Date of Birth:</strong> " ++ (or_unknown (PsychologicalProfile.dateOfBirth p)) ++ "</p>")%string;
    ("        <p><strong>Report Generated:</strong> " ++ (toLocaleString now) ++ "</p>")%string;
    "      </div>";
    EmptyString;
    "      <h2>EXECUTIVE SUMMARY</h2>";
    ("      <p>" ++ (PsychologicalProfile.summary p) ++ "</p>")%string;
    EmptyString;
    "      <h2>PERSONALITY ARCHETYPE</h2>";
    "      <p>";
    ("        <strong>MBTI:</strong> " ++ (PsychologicalProfile.mbti p) ++ "<br/>")%string;
    ("        <strong>Enneagram:</strong> " ++ (PsychologicalProfile.enneagram p) ++ "<br/>")%string;
    ("        <strong>Attachment Style:</strong> " ++ (PsychologicalProfile.attachmentStyle p))%string;
    "      </p>";
    EmptyString;
    "      <h2>BIG FIVE METRICS</h2>";
    ("      <div class=" ++ dq ++ "metric-row" ++ dq ++ "><span>Openness</span> <strong>" ++ (string_of_Z (BigFiveScores.openness (PsychologicalProfile.bigFive p))) ++ "/100</strong></div>")%string;
    ("      <div class=" ++ dq ++ "metric-row" ++ dq ++ "><span>Conscientiousness</span> <strong>" ++ (string_of_Z (BigFiveScores.conscientiousness (PsychologicalProfile.bigFive p))) ++ "/100</strong></div>")%string;
    ("      <div class=" ++ dq ++ "metric-row" ++ dq ++ "><span>Extraversion</span> <strong>" ++ (string_of_Z (BigFiveScores.extraversion (PsychologicalProfile.bigFive p))) ++ "/100</strong></div>")%string;
    ("      <div class=" ++ dq ++ "metric-row" ++ dq ++ "><span>Agreeableness</span> <strong>" ++ (string_of_Z (BigFiveScores.agreeableness (PsychologicalProfile.bigFive p))) ++ "/100</strong></div>")%string;
    ("      <div class=" ++ dq ++ "metric-row" ++ dq ++ "><span>Neuroticism</span> <strong>" ++ (string_of_Z (BigFiveScores.neuroticism (PsychologicalProfile.bigFive p))) ++ "/100</strong></div>")%string;
    EmptyString;
    "      <h2>OBSERVED TRAITS</h2>";
    ("      <p>" ++ (join " " (map tag (PsychologicalProfile.keyTraits p))) ++ "</p>")%string;
    EmptyString;
    "      <h2>DETAILED ANALYSIS</h2>";
    "      ";
    "      <h3>Body Language & Kinesics</h3>";
    ("      <ul>" ++ (match PsychologicalProfile.bodyLanguageNotes p with [] => "<li>No specific body language data analyzed yet.</li>" | notes => join EmptyString (map li notes) end) ++ "</ul>")%string;
    EmptyString;
    "      <h3>Tone & Voice</h3>";
    ("      <ul>" ++ (match PsychologicalProfile.toneVoiceNotes p with [] => "<li>No specific vocal data analyzed yet.</li>" | notes => join EmptyString (map li notes) end) ++ "</ul>")%string;
    EmptyString;
    "      <h2>EVIDENCE LOG</h2>";
    "      <ul>";
    ("        " ++ (join EmptyString (map htmlHistoryItem (rev (PsychologicalProfile.history p)))))%string;
    "      </ul>";
    "    </body>";
    "    </html>";
    "  " ].

Definition generateHTMLReport (now : Z) (p : Profile) : string :=
  join nl (htmlReportLines now p).

(** The name, the content and the type of the file [handleExport] offers
    for download. *)
Definition handleExport (format : ExportFormat) (activeProfile : Profile)
  : Eff Download :=
  today <- Date_now ;;
  let fileNameBase :=
    ("PsychProfile_"
     ++ remove_ws (PsychologicalProfile.firstName activeProfile) ++ "_"
     ++ remove_ws (PsychologicalProfile.lastName activeProfile) ++ "_"
     ++ substring 0 10 (toISOString today))%string in
  match format with
  | json =>
      ret (mkDownload (fileNameBase ++ ".json")
             (Json.stringify "  " (profile_to_json activeProfile))
             "application/json")
  | txt =>
      ret (mkDownload (fileNameBase ++ ".txt")
             (generateTextReport activeProfile) "text/plain")
  | doc =>
      now <- Date_now ;;
      ret (mkDownload (fileNameBase ++ ".doc")
             (generateHTMLReport now activeProfile) "application/msword")
  end.

End Exporter.


(** ** Vocabulary of the properties *)

(** [x] occurs in [s]. *)
Definition appears_in (x s : string) : Prop :=
  exists a b, s = (a ++ x ++ b)%string.

Fixpoint infixb (x s : string) : bool :=
  prefix x s
  || match s with
     | EmptyString => false
     | String _ rest => infixb x rest
     end.

(** [s] has a character that [trim] keeps. *)
Fixpoint has_nonws (s : string) : bool :=
  match s with
  | EmptyString => false
  | String c rest => negb (is_ws c) || has_nonws rest
  end.

(** [x] occurs in [s] before a character that [trim] keeps, and between
    two such characters. *)
Definition followed (x s : string) : Prop :=
  exists a b, s = (a ++ x ++ b)%string /\ has_nonws b = true.

Definition inside (x s : string) : Prop :=
  exists a b,
    s = (a ++ x ++ b)%string /\ has_nonws a = true /\ has_nonws b = true.

(** [s] has no space in it. *)
Fixpoint no_space (s : string) : bool :=
  match s with
  | EmptyString => true
  | String c rest => negb (Ascii.eqb c " "%char) && no_space rest
  end.

(** The fields of a profile. *)
Module Field.
Inductive t : Type :=
| id | firstName | lastName | dateOfBirth | lastUpdated | bigFive | mbti
| enneagram | attachmentStyle | summary | keyTraits | bodyLanguageNotes
| toneVoiceNotes | history.

Definition all : list t :=
  [ id; firstName; lastName; dateOfBirth; lastUpdated; bigFive; mbti;
    enneagram; attachmentStyle; summary; keyTraits; bodyLanguageNotes;
    toneVoiceNotes; history ].

Definition name (f : t) : string :=
  match f with
  | id => "id"
  | firstName => "firstName"
  | lastName => "lastName"
  | dateOfBirth => "dateOfBirth"
  | lastUpdated => "lastUpdated"
  | bigFive => "bigFive"
  | mbti => "mbti"
  | enneagram => "enneagram"
  | attachmentStyle => "attachmentStyle"
  | summary => "summary"
  | keyTraits => "keyTraits"
  | bodyLanguageNotes => "bodyLanguageNotes"
  | toneVoiceNotes => "toneVoiceNotes"
  | history => "history"
  end.

Definition value (f : t) (p : Profile) : Json.t :=
  match f with
  | id => Json.Str (PsychologicalProfile.id p)
  | firstName => Json.Str (PsychologicalProfile.firstName p)
  | lastName => Json.Str (PsychologicalProfile.lastName p)
  | dateOfBirth => Json.Str (PsychologicalProfile.dateOfBirth p)
  | lastUpdated => Json.Num (PsychologicalProfile.lastUpdated p)
  | bigFive => bigFive_to_json (PsychologicalProfile.bigFive p)
  | mbti => Json.Str (PsychologicalProfile.mbti p)
  | enneagram => Json.Str (PsychologicalProfile.enneagram p)
  | attachmentStyle => Json.Str (PsychologicalProfile.attachmentStyle p)
  | summary => Json.Str (PsychologicalProfile.summary p)
  | keyTraits => strings_to_json (PsychologicalProfile.keyTraits p)
  | bodyLanguageNotes =>
      strings_to_json (PsychologicalProfile.bodyLanguageNotes p)
  | toneVoiceNotes => strings_to_json (PsychologicalProfile.toneVoiceNotes p)
  | history =>
      Json.Arr (map historyItem_to_json (PsychologicalProfile.history p))
  end.
End Field.

Section Shown.

Context {platform : Platform}.

(** The scores of a profile, as a report prints them. *)
Definition scores (b : BigFiveScores.t) : list string :=
  map string_of_Z
    [ BigFiveScores.openness b; BigFiveScores.conscientiousness b;
      BigFiveScores.extraversion b; BigFiveScores.agreeableness b;
      BigFiveScores.neuroticism b ].

(** What a report for a reader has to contain of one history entry: its
    day, its media type and its summary, whole or cut to [cut] code units. *)
Definition entry_shown (cut : option nat) (h : AnalysisHistoryItem.t)
  : list string :=
  [ toLocaleDateString (AnalysisHistoryItem.timestamp h);
    MediaType_to_string (AnalysisHistoryItem.type h);
    match cut with
    | Some n => substring 0 n (AnalysisHistoryItem.summary h)
    | None => AnalysisHistoryItem.summary h
    end ].

(** The texts that stand for a field in a report for a reader. *)
Definition shown_to_reader (cut : option nat) (f : Field.t) (p : Profile)
  : list string :=
  match f with
  | Field.id => [PsychologicalProfile.id p]
  | Field.firstName => [PsychologicalProfile.firstName p]
  | Field.lastName => [PsychologicalProfile.lastName p]
  | Field.dateOfBirth => [PsychologicalProfile.dateOfBirth p]
  | Field.lastUpdated => [toLocaleString (PsychologicalProfile.lastUpdated p)]
  | Field.bigFive => scores (PsychologicalProfile.bigFive p)
  | Field.mbti => [PsychologicalProfile.mbti p]
  | Field.enneagram => [PsychologicalProfile.enneagram p]
  | Field.attachmentStyle => [PsychologicalProfile.attachmentStyle p]
  | Field.summary => [PsychologicalProfile.summary p]
  | Field.keyTraits => PsychologicalProfile.keyTraits p
  | Field.bodyLanguageNotes => PsychologicalProfile.bodyLanguageNotes p
  | Field.toneVoiceNotes => PsychologicalProfile.toneVoiceNotes p
  | Field.history =>
      flat_map (entry_shown cut) (PsychologicalProfile.history p)
  end.

(** The texts that stand for a field in an export of the given format: in
    JSON the member [key: value] of the top-level object, in the two
    reports the values themselves. *)
Definition shown (format : ExportFormat) (f : Field.t) (p : Profile)
  : list string :=
  match format with
  | json =>
      [ (Json.quote (Field.name f) ++ ": "
         ++ Json.serialize "  " "  " (Field.value f p))%string ]
  | txt => shown_to_reader None f p
  | doc => shown_to_reader None f p
  end.

(** The field appears in the export. *)
Definition appears (texts : list string) (report : string) : Prop :=
  Forall (fun x => appears_in x report) texts.

Definition appearsb (texts : list string) (report : string) : bool :=
  forallb (fun x => infixb x report) texts.

(** A merge reached the profile under the active id: the handler returned
    and left [updated] there. *)
Definition merged_into (m : Machine) (files : list File.t) (type : MediaType)
    (result : AnalysisResponse.t) (m' : Machine) (updated : Profile) : Prop :=
  handleAnalysis files type (Some result) m = (Returned tt, m')
  /\ Js.get (Js.key_of (activeProfileId m)) (profiles m') = Js.Own updated.

(** What the merge of [result] makes of [current] when it runs on [m]: the
    identifier and the two clock readings are the next ones of [m]. *)
Definition merge_on (m : Machine) (type : MediaType)
    (result : AnalysisResponse.t) (current : Profile) (label : string)
  : Profile :=
  updatedProfile type result current
    (randomUUID_nth (uuids_drawn m))
    (Date_now_nth (clock_reads m))
    (Date_now_nth (S (clock_reads m)))
    label.

(** The candidate value of an identity field in an analysis, if any. *)
Definition candidate (field : CandidateProfile.t -> option string)
    (result : AnalysisResponse.t) : option string :=
  match AnalysisResponse.candidateProfile result with
  | Some cp => field cp
  | None => None
  end.

(** A run of analyses, one after the other. *)
Fixpoint handleAnalyses
    (batches : list (list File.t * MediaType * option AnalysisResponse.t))
  : Eff unit :=
  match batches with
  | [] => ret tt
  | (files, type, reply) :: rest =>
      handleAnalysis files type reply ;; handleAnalyses rest
  end.

End Shown.

(** ** A browser and stored data for the examples *)

Module Demo.

Definition bit (n k : nat) : ascii :=
  if Nat.testbit n k then "1"%char else "0"%char.

(** A version-4 identifier whose last group writes the call number in
    binary. *)
Definition uuid (n : nat) : string :=
  ("00000000-0000-4000-8000-"
   ++ String (bit n 11) (String (bit n 10) (String (bit n 9) (String (bit n 8)
     (String (bit n 7) (String (bit n 6) (String (bit n 5) (String (bit n 4)
     (String (bit n 3) (String (bit n 2) (String (bit n 1) (String (bit n 0)
      EmptyString))))))))))))%string.

(** A clock that starts on 14 November 2023 and advances by a second at
    each reading. *)
Definition clock (n : nat) : Z := 1700000000000 + 1000 * Z.of_nat n.

Definition optional {A} (k : string) (to_json : A -> Json.t) (v : option A)
  : list (string * Json.t) :=
  match v with
  | Some x => [(k, to_json x)]
  | None => []
  end.

Definition legacy_to_json (l : LegacyProfile.t) : Json.t :=
  Json.Obj
    (optional "name" Json.Str (LegacyProfile.name l)
     ++ optional "firstName" Json.Str (LegacyProfile.firstName l)
     ++ optional "lastName" Json.Str (LegacyProfile.lastName l)
     ++ optional "dateOfBirth" Json.Str (LegacyProfile.dateOfBirth l)
     ++ optional "lastUpdated" Json.Num (LegacyProfile.lastUpdated l)
     ++ optional "bigFive" bigFive_to_json (LegacyProfile.bigFive l)
     ++ optional "mbti" Json.Str (LegacyProfile.mbti l)
     ++ optional "enneagram" Json.Str (LegacyProfile.enneagram l)
     ++ optional "attachmentStyle" Json.Str (LegacyProfile.attachmentStyle l)
     ++ optional "summary" Json.Str (LegacyProfile.summary l)
     ++ optional "keyTraits" strings_to_json (LegacyProfile.keyTraits l)
     ++ optional "bodyLanguageNotes" strings_to_json
          (LegacyProfile.bodyLanguageNotes l)
     ++ optional "toneVoiceNotes" strings_to_json
          (LegacyProfile.toneVoiceNotes l)
     ++ optional "history"
          (fun h => Json.Arr (map historyItem_to_json h))
          (LegacyProfile.history l)).

(** The legacy record [{ name: "Jane Doe", mbti: "INFJ" }]. *)
Definition jane : LegacyProfile.t :=
  {| LegacyProfile.name := Some "Jane Doe";
     LegacyProfile.firstName := None;
     LegacyProfile.lastName := None;
     LegacyProfile.dateOfBirth := None;
     LegacyProfile.lastUpdated := None;
     LegacyProfile.bigFive := None;
     LegacyProfile.mbti := Some "INFJ";
     LegacyProfile.enneagram := None;
     LegacyProfile.attachmentStyle := None;
     LegacyProfile.summary := None;
     LegacyProfile.keyTraits := None;
     LegacyProfile.bodyLanguageNotes := None;
     LegacyProfile.toneVoiceNotes := None;
     LegacyProfile.history := None |}.

Definition long_summary : string :=
  "Speaks in long, carefully qualified sentences and returns to the same two worries; the closing remark about the move abroad is new.".

Definition visit : AnalysisHistoryItem.t :=
  {| AnalysisHistoryItem.id := "h-1";
     AnalysisHistoryItem.timestamp := 1690000000000;
     AnalysisHistoryItem.type := AUDIO;
     AnalysisHistoryItem.summary := long_summary;
     AnalysisHistoryItem.fileName := Some "call.mp3" |}.

(** A profile an analysis has already filled. *)
Definition alex (key : string) : Profile :=
  {| PsychologicalProfile.id := key;
     PsychologicalProfile.firstName := "Alex";
     PsychologicalProfile.lastName := "Moreau";
     PsychologicalProfile.dateOfBirth := "1990-04-12";
     PsychologicalProfile.lastUpdated := 1690000000500;
     PsychologicalProfile.bigFive :=
       {| BigFiveScores.openness := 71;
          BigFiveScores.conscientiousness := 64;
          BigFiveScores.extraversion := 38;
          BigFiveScores.agreeableness := 55;
          BigFiveScores.neuroticism := 47 |};
     PsychologicalProfile.mbti := "INTP";
     PsychologicalProfile.enneagram := "5w4";
     PsychologicalProfile.attachmentStyle := "Dismissive-Avoidant";
     PsychologicalProfile.summary := "Reserved and analytical.";
     PsychologicalProfile.keyTraits := ["curious"; "guarded"];
     PsychologicalProfile.bodyLanguageNotes := ["Arms crossed."];
     PsychologicalProfile.toneVoiceNotes := [];
     PsychologicalProfile.history := [visit] |}.

(** A profile that still carries the defaults of a migrated record. *)
Definition migrated_blank (key : string) : Profile :=
  {| PsychologicalProfile.id := key;
     PsychologicalProfile.firstName := "Subject";
     PsychologicalProfile.lastName := "001";
     PsychologicalProfile.dateOfBirth := EmptyString;
     PsychologicalProfile.lastUpdated := 1690000000000;
     PsychologicalProfile.bigFive :=
       {| BigFiveScores.openness := 50;
          BigFiveScores.conscientiousness := 50;
          BigFiveScores.extraversion := 50;
          BigFiveScores.agreeableness := 50;
          BigFiveScores.neuroticism := 50 |};
     PsychologicalProfile.mbti := "Unknown";
     PsychologicalProfile.enneagram := "Unknown";
     PsychologicalProfile.attachmentStyle := "Unknown";
     PsychologicalProfile.summary := "Profile pending.";
     PsychologicalProfile.keyTraits := [];
     PsychologicalProfile.bodyLanguageNotes := [];
     PsychologicalProfile.toneVoiceNotes := [];
     PsychologicalProfile.history := [] |}.

(** Two stores: one with ordinary keys, one whose first key is the empty
    string. *)
Definition two_subjects : Profiles :=
  [ ("subject-a", alex "subject-a"); ("subject-b", migrated_blank "subject-b") ].

Definition blank_key_first : Profiles :=
  [ (EmptyString, alex EmptyString); ("subject-b", migrated_blank "subject-b") ].

(** What the component would have written under its keys for them. *)
Definition persisted (ps : Profiles) : string :=
  Json.stringify EmptyString (profiles_to_json ps).

Definition persisted_legacy (l : LegacyProfile.t) : string :=
  Json.stringify EmptyString (legacy_to_json l).

(** [JSON.parse] on the stored texts of the examples; any other text is
    taken as malformed. *)
Definition parse_profiles (text : string) : option Profiles :=
  find (fun ps => (persisted ps =? text)%string)
    [two_subjects; blank_key_first].

Definition parse_legacy (text : string) : option LegacyProfile.t :=
  find (fun l => (persisted_legacy l =? text)%string) [jane].

Definition browser : Platform :=
  {| randomUUID_nth := uuid;
     randomUUID_length := fun n => eq_refl;
     Date_now_nth := clock;
     JSON_parse_profiles := parse_profiles;
     JSON_parse_legacy := parse_legacy;
     JSON_parse_profiles_empty := eq_refl;
     JSON_parse_legacy_empty := eq_refl;
     toLocaleString := fun t => (string_of_Z t ++ " ms")%string;
     toLocaleDateString := fun t => ("day " ++ string_of_Z (t / 86400000))%string;
     toISOString := fun t => ("2023-11-14T" ++ string_of_Z t)%string |}.

(** An analysis that names the subject. *)
Definition names_jordan : AnalysisResponse.t :=
  {| AnalysisResponse.candidateProfile :=
       Some {| CandidateProfile.firstName := Some "Jordan";
               CandidateProfile.lastName := Some "Reyes";
               CandidateProfile.dateOfBirth := Some "1985-01-30" |};
     AnalysisResponse.bigFive :=
       {| BigFiveScores.openness := 60;
          BigFiveScores.conscientiousness := 70;
          BigFiveScores.extraversion := 45;
          BigFiveScores.agreeableness := 52;
          BigFiveScores.neuroticism := 33 |};
     AnalysisResponse.mbti := "ISTJ";
     AnalysisResponse.enneagram := "1w9";
     AnalysisResponse.attachmentStyle := "Secure";
     AnalysisResponse.summary := "Methodical; plans ahead.";
     AnalysisResponse.keyTraits := ["orderly"];
     AnalysisResponse.newObservations := "Signs every message with a full name.";
     AnalysisResponse.bodyLanguageAnalysis := Some "Upright posture.";
     AnalysisResponse.toneAnalysis := None |}.

Definition photo (n : string) : File.t :=
  {| File.name := n; File.type := "image/png" |}.

Definition machine (ps : Profiles) (active : option string) : Machine :=
  mkMachine [] ps active 0 0.

(** A session on the second subject, whose names are still the defaults
    of a migration, and one on the first, whose identity is known. *)
Definition on_blank : Machine := machine two_subjects (Some "subject-b").
Definition on_alex : Machine := machine two_subjects (Some "subject-a").

(** The first subject, filed under an identifier of the browser. *)
Definition filed : Profile := alex (uuid 7).

(** Storages a component may find when it mounts. *)
Definition malformed_storage : list (string * string) :=
  [ ("psycho_profiles_db", "{not json"); ("psycho_active_id", "subject-a") ].

Definition blank_db_storage : list (string * string) :=
  [ ("psycho_profiles_db", EmptyString);
    ("psycho_profile_v3", persisted_legacy jane) ].

Definition legacy_storage : list (string * string) :=
  [ ("psycho_profile_v3", persisted_legacy jane) ].

Definition blank_key_storage : list (string * string) :=
  [ ("psycho_profiles_db", persisted blank_key_first) ].

Definition stale_id_storage : list (string * string) :=
  [ ("psycho_profiles_db", persisted two_subjects);
    ("psycho_active_id", "subject-z") ].

Definition inherited_name_storage : list (string * string) :=
  [ ("psycho_profiles_db", persisted two_subjects);
    ("psycho_active_id", "constructor") ].

(** A session on a store with a single subject. *)
Definition on_only : Machine :=
  machine [("subject-a", alex "subject-a")] (Some "subject-a").

End Demo.

(** * The rest of the component, and the two components around it *)

(** ** Saving the state *)

(** [localStorage.setItem(k, v)], on a storage with room for the value.
    Only [getItem] reads the storage, so the place of a new key in the
    list is of no consequence. *)
Definition setItem (k v : string) : Eff unit :=
  fun m =>
    (Returned tt,
     mkMachine (Js.set k v (localStorage m)) (profiles m) (activeProfileId m)
       (uuids_drawn m) (clock_reads m)).

(** The effect on [profiles]: a store with no id is not written. *)
Definition persistProfiles : Eff unit :=
  ps <- readProfiles ;;
  if (0 <? length (Js.keys ps))%nat
  then setItem "psycho_profiles_db"
         (Json.stringify EmptyString (profiles_to_json ps))
  else ret tt.

(** The effect on [activeProfileId]. *)
Definition persistActiveId : Eff unit :=
  activeId <- readActiveProfileId ;;
  if truthy activeId
  then setItem "psycho_active_id" (string_value activeId)
  else ret tt.

(** The two effects, in the order of their declaration, as they run after
    a render that changed both parts of the state. *)
Definition persist : Eff unit := persistProfiles ;; persistActiveId.

(** The component mounted again on the storage a machine leaves behind. *)
Definition remounted (m : Machine) : Machine :=
  mounted (localStorage m) (uuids_drawn m) (clock_reads m).

(** ** Edits of the user *)

(** A [Partial<PsychologicalProfile>]. *)
Module ProfileUpdates.
Record t : Type := mk {
  id : option string;
  firstName : option string;
  lastName : option string;
  dateOfBirth : option string;
  lastUpdated : option Z;
  bigFive : option BigFiveScores.t;
  mbti : option string;
  enneagram : option string;
  attachmentStyle : option string;
  summary : option string;
  keyTraits : option (list string);
  bodyLanguageNotes : option (list string);
  toneVoiceNotes : option (list string);
  history : option (list AnalysisHistoryItem.t)
}.

(** [{}]. *)
Definition none : t :=
  mk None None None None None None None None None None None None None None.
End ProfileUpdates.

(** A property of the spread [{...base, ...updates}]. *)
Definition spread {A} (update : option A) (base : A) : A :=
  match update with
  | Some v => v
  | None => base
  end.

(** [{...current, ...updates, lastUpdated: now}]. *)
Definition editedProfile (current : Profile) (updates : ProfileUpdates.t)
    (now : Z) : Profile :=
  {| PsychologicalProfile.id :=
       spread (ProfileUpdates.id updates) (PsychologicalProfile.id current);
     PsychologicalProfile.firstName :=
       spread (ProfileUpdates.firstName updates)
         (PsychologicalProfile.firstName current);
     PsychologicalProfile.lastName :=
       spread (ProfileUpdates.lastName updates)
         (PsychologicalProfile.lastName current);
     PsychologicalProfile.dateOfBirth :=
       spread (ProfileUpdates.dateOfBirth updates)
         (PsychologicalProfile.dateOfBirth current);
     PsychologicalProfile.lastUpdated := now;
     PsychologicalProfile.bigFive :=
       spread (ProfileUpdates.bigFive updates)
         (PsychologicalProfile.bigFive current);
     PsychologicalProfile.mbti :=
       spread (ProfileUpdates.mbti updates) (PsychologicalProfile.mbti current);
     PsychologicalProfile.enneagram :=
       spread (ProfileUpdates.enneagram updates)
         (PsychologicalProfile.enneagram current);
     PsychologicalProfile.attachmentStyle :=
       spread (ProfileUpdates.attachmentStyle updates)
         (PsychologicalProfile.attachmentStyle current);
     PsychologicalProfile.summary :=
       spread (ProfileUpdates.summary updates)
         (PsychologicalProfile.summary current);
     PsychologicalProfile.keyTraits :=
       spread (ProfileUpdates.keyTraits updates)
         (PsychologicalProfile.keyTraits current);
     PsychologicalProfile.bodyLanguageNotes :=
       spread (ProfileUpdates.bodyLanguageNotes updates)
         (PsychologicalProfile.bodyLanguageNotes current);
     PsychologicalProfile.toneVoiceNotes :=
       spread (ProfileUpdates.toneVoiceNotes updates)
         (PsychologicalProfile.toneVoiceNotes current);
     PsychologicalProfile.history :=
       spread (ProfileUpdates.history updates)
         (PsychologicalProfile.history current) |}.

(** [{...updates, lastUpdated: now}], which is what the spread gives when
    [prev[activeProfileId]] has no property to copy: a profile only if the
    updates bring every other field. *)
Definition editedAlone (updates : ProfileUpdates.t) (now : Z) : option Profile :=
  match ProfileUpdates.id updates, ProfileUpdates.firstName updates,
        ProfileUpdates.lastName updates, ProfileUpdates.dateOfBirth updates,
        ProfileUpdates.bigFive updates, ProfileUpdates.mbti updates,
        ProfileUpdates.enneagram updates,
        ProfileUpdates.attachmentStyle updates, ProfileUpdates.summary updates,
        ProfileUpdates.keyTraits updates,
        ProfileUpdates.bodyLanguageNotes updates,
        ProfileUpdates.toneVoiceNotes updates, ProfileUpdates.history updates
  with
  | Some i, Some f, Some l, Some d, Some b, Some mb, Some e, Some a, Some s,
    Some k, Some bl, Some tv, Some h =>
      Some (PsychologicalProfile.mk i f l d now b mb e a s k bl tv h)
  | _, _, _, _, _, _, _, _, _, _, _, _, _ => None
  end.

(** The three edits the dashboard makes. *)
Definition editFirstName (v : string) : ProfileUpdates.t :=
  ProfileUpdates.mk None (Some v) None None None None None None None None None
    None None None.

Definition editLastName (v : string) : ProfileUpdates.t :=
  ProfileUpdates.mk None None (Some v) None None None None None None None None
    None None None.

Definition editDateOfBirth (v : string) : ProfileUpdates.t :=
  ProfileUpdates.mk None None None (Some v) None None None None None None None
    None None None.

(** ** What the user picks and records ([InputConsole]) *)

(** [s.includes(needle)]. *)
Definition includes (needle s : string) : bool := infixb needle s.

(** The media type [handleFileChange] logs for the MIME type of the first
    file. *)
Definition dominantType (firstType : string) : MediaType :=
  if includes "image" firstType then IMAGE
  else if includes "pdf" firstType then PDF
  else if includes "audio" firstType then AUDIO
  else if includes "video" firstType then VIDEO
  else if includes "html" firstType || includes "text" firstType then HTML
  else TEXT_FILE.

(** The arguments with which [handleFileChange] calls [onAnalyze], if it
    calls it. *)
Definition handleFileChange (files : list File.t) (description : string)
  : option (list File.t * MediaType * string) :=
  match files with
  | [] => None
  | first :: _ => Some (files, dominantType (File.type first), description)
  end.

Inductive Recording : Type := audio | screen.

(** The arguments with which [recorder.onstop] calls [onAnalyze]. *)
Definition recorder_onstop (type : Recording) (description : string)
  : list File.t * MediaType * string :=
  match type with
  | screen =>
      ([File.mk "screen-capture.webm" "video/webm"], VIDEO, description)
  | audio => ([File.mk "voice-note.webm" "audio/webm"], AUDIO, description)
  end.

(** ** The data the analysis is sent *)

(** [s.split(',')]. *)
Fixpoint split_comma (s : string) : list string :=
  match s with
  | EmptyString => [EmptyString]
  | String c rest =>
      if Ascii.eqb c ","%char then EmptyString :: split_comma rest
      else match split_comma rest with
           | piece :: pieces => String c piece :: pieces
           | [] => [String c EmptyString]
           end
  end.

(** What [convertFileToBase64] resolves with when the reader loaded the
    data URL [result]: [result.split(',')[1]]. *)
Definition convertFileToBase64 (result : string) : option string :=
  nth_error (split_comma result) 1.

(** ** What the dashboard shows ([AnalysisDashboard]) *)

(** [notes.slice().reverse().slice(0, 6)], shown when there are notes. *)
Definition shownNotes (notes : list string) : list string :=
  firstn 6 (rev notes).

(** [history.slice().reverse()], the order of the analysis log. *)
Definition shownHistory (history : list AnalysisHistoryItem.t)
  : list AnalysisHistoryItem.t :=
  rev history.

Section Session.

Context {platform : Platform}.

(** The memoised [activeProfile]: the value under the active id, or a new
    default profile that is not put in the store. *)
Definition activeProfile : Eff (Js.Read Profile) :=
  activeId <- readActiveProfileId ;;
  ps <- readProfiles ;;
  if truthy activeId && read_truthy (Js.get (string_value activeId) ps)
  then ret (Js.get (string_value activeId) ps)
  else (fallback <- generateNewProfile ;; ret (Js.Own fallback)).

(** [handleUpdateProfile].  [None]: the object written under the active id
    is not a [PsychologicalProfile] (the id names no profile and the
    updates leave fields out), a store this development has no value
    for. *)
Definition handleUpdateProfile (updates : ProfileUpdates.t) (m : Machine)
  : option (Outcome unit * Machine) :=
  if negb (truthy (activeProfileId m)) then Some (Returned tt, m)
  else
    let k := string_value (activeProfileId m) in
    let now := Date_now_nth (clock_reads m) in
    let written (p : Profile) :=
      (Returned tt,
       mkMachine (localStorage m) (Js.set k p (profiles m))
         (activeProfileId m) (uuids_drawn m) (S (clock_reads m))) in
    match Js.get k (profiles m) with
    | Js.Own current => Some (written (editedProfile current updates now))
    | Js.Proto => option_map written (editedAlone updates now)
    | Js.Undefined => option_map written (editedAlone updates now)
    end.

(** The ids on the buttons of the profile menu, in the order of
    [Object.values(profiles)], and a click on the [i]-th of them. *)
Definition menuIds (ps : Profiles) : list string :=
  map (fun kv => PsychologicalProfile.id (snd kv)) ps.

Definition clickProfile (i : nat) : Eff unit :=
  ps <- readProfiles ;;
  match nth_error (menuIds ps) i with
  | Some id => handleSwitchProfile id
  | None => ret tt
  end.

(** A file selection or a recording, handed to [handleAnalysis]. *)
Definition upload (files : list File.t) (description : string)
    (reply : option AnalysisResponse.t) : Eff unit :=
  match handleFileChange files description with
  | Some (picked, type, _) => handleAnalysis picked type reply
  | None => ret tt
  end.

Definition record (type : Recording) (description : string)
    (reply : option AnalysisResponse.t) : Eff unit :=
  let '(files, mediaType, _) := recorder_onstop type description in
  handleAnalysis files mediaType reply.

(** What the user can do in a session: the buttons of the header, the
    input console, and the three fields of the dashboard. *)
Inductive Action : Type :=
| Create
| Click (i : nat)
| Delete (confirmed : bool)
| Upload (files : list File.t) (description : string)
    (reply : option AnalysisResponse.t)
| Capture (type : Recording) (description : string)
    (reply : option AnalysisResponse.t)
| TypeFirstName (v : string)
| TypeLastName (v : string)
| TypeDateOfBirth (v : string)
| ExportAs (format : ExportFormat).

Definition lift (c : Eff unit) (m : Machine) : option (Outcome unit * Machine) :=
  Some (c m).

(** [None]: the action leaves the states this development has values for
    (an edit that writes a partial profile, an export of a value that is
    not a profile). *)
Definition perform (a : Action) (m : Machine)
  : option (Outcome unit * Machine) :=
  match a with
  | Create => lift handleCreateProfile m
  | Click i => lift (clickProfile i) m
  | Delete confirmed => lift (handleDeleteProfile confirmed) m
  | Upload files description reply => lift (upload files description reply) m
  | Capture type description reply => lift (record type description reply) m
  | TypeFirstName v => handleUpdateProfile (editFirstName v) m
  | TypeLastName v => handleUpdateProfile (editLastName v) m
  | TypeDateOfBirth v => handleUpdateProfile (editDateOfBirth v) m
  | ExportAs format =>
      match activeProfile m with
      | (Returned (Js.Own p), m1) =>
          match handleExport format p m1 with
          | (Returned _, m2) => Some (Returned tt, m2)
          | (Thrown e, m2) => Some (Thrown e, m2)
          end
      | (Returned _, m1) => None
      | (Thrown e, m1) => Some (Thrown e, m1)
      end
  end.

(** The actions one after the other, each followed by the two effects that
    save the state; a throw ends the session. *)
Fixpoint session (actions : list Action) (m : Machine)
  : option (Outcome unit * Machine) :=
  match actions with
  | [] => Some (Returned tt, m)
  | a :: rest =>
      match perform a m with
      | Some (Returned _, m1) =>
          match persist m1 with
          | (Returned _, m2) => session rest m2
          | (Thrown e, m2) => Some (Thrown e, m2)
          end
      | Some (Thrown e, m1) => Some (Thrown e, m1)
      | None => None
      end
  end.

End Session.

(** ** The state a session keeps *)

(** Every id of the store is a non-empty string and is the [id] of its
    profile, and the active id is one of them. *)
Definition keyed (ps : Profiles) : Prop :=
  forall k p, In (k, p) ps -> k <> EmptyString /\ PsychologicalProfile.id p = k.

Definition active_in (m : Machine) : Prop :=
  exists k p,
    activeProfileId m = Some k /\ k <> EmptyString
    /\ Js.own k (profiles m) = Some p.

Definition consistent (m : Machine) : Prop :=
  keyed (profiles m) /\ active_in m.

(** The analyses of a run that reach the merge: a batch with a file and a
    reply. *)
Fixpoint merged_replies
    (batches : list (list File.t * MediaType * option AnalysisResponse.t))
  : list (MediaType * AnalysisResponse.t) :=
  match batches with
  | [] => []
  | (files, type, reply) :: rest =>
      match files, reply with
      | _ :: _, Some result => (type, result) :: merged_replies rest
      | _, _ => merged_replies rest
      end
  end.

(** [s] has no white space in it. *)
Fixpoint no_ws (s : string) : bool :=
  match s with
  | EmptyString => true
  | String c rest => negb (is_ws c) && no_ws rest
  end.

(** [s] has no comma in it. *)
Fixpoint no_comma (s : string) : bool :=
  match s with
  | EmptyString => true
  | String c rest => negb (Ascii.eqb c ","%char) && no_comma rest
  end.

(** The storage holds what the two effects write for the state. *)
Definition saved (m : Machine) : Prop :=
  Js.own "psycho_profiles_db" (localStorage m)
  = Some (Json.stringify EmptyString (profiles_to_json (profiles m)))
  /\ Js.own "psycho_active_id" (localStorage m) = activeProfileId m.

(** ** More sample states *)

Module Sample.

(** A component in the middle of a session on the first of two subjects,
    with its state saved. *)
Definition storage_on_alex : list (string * string) :=
  [ ("psycho_profiles_db", Demo.persisted Demo.two_subjects);
    ("psycho_active_id", "subject-a") ].

Definition saved_on_alex : Machine :=
  mkMachine storage_on_alex Demo.two_subjects (Some "subject-a") 0 0.

(** A storage with a legacy record that does not parse. *)
Definition broken_legacy_storage : list (string * string) :=
  [ ("psycho_profile_v3", "{name: Jane") ].

(** An analysis that names nobody. *)
Definition anonymous : AnalysisResponse.t :=
  {| AnalysisResponse.candidateProfile := None;
     AnalysisResponse.bigFive :=
       {| BigFiveScores.openness := 42;
          BigFiveScores.conscientiousness := 58;
          BigFiveScores.extraversion := 66;
          BigFiveScores.agreeableness := 61;
          BigFiveScores.neuroticism := 29 |};
     AnalysisResponse.mbti := "ESFJ";
     AnalysisResponse.enneagram := "2w3";
     AnalysisResponse.attachmentStyle := "Anxious";
     AnalysisResponse.summary := "Warm; seeks approval.";
     AnalysisResponse.keyTraits := ["sociable"; "attentive"];
     AnalysisResponse.newObservations := "Laughs before answering.";
     AnalysisResponse.bodyLanguageAnalysis := None;
     AnalysisResponse.toneAnalysis := Some "Rising intonation." |}.

Definition memo : File.t :=
  {| File.name := "memo.pdf"; File.type := "application/pdf" |}.

(** A run of three uploads: one that names the subject, one the service
    did not answer, one that names nobody. *)
Definition run : list (list File.t * MediaType * option AnalysisResponse.t) :=
  [ ([Demo.photo "a.png"], IMAGE, Some Demo.names_jordan);
    ([memo], PDF, None);
    ([memo; Demo.photo "b.png"], PDF, Some anonymous) ].

(** What a user may do in a session. *)
Definition actions : list (Action) :=
  [ Create;
    TypeFirstName "Robin";
    Upload [Demo.photo "a.png"] "portrait" (Some Demo.names_jordan);
    ExportAs doc;
    Click 0;
    Delete true;
    Capture audio "call" (Some anonymous);
    Delete false;
    TypeDateOfBirth "1970-01-01";
    ExportAs json ].

(** A browser that also knows the text of a map without profiles. *)
Definition parse_profiles (text : string) : option Profiles :=
  find (fun ps => (Demo.persisted ps =? text)%string) [[]; Demo.two_subjects].

Definition browser : Platform :=
  {| randomUUID_nth := Demo.uuid;
     randomUUID_length := fun n => eq_refl;
     Date_now_nth := Demo.clock;
     JSON_parse_profiles := parse_profiles;
     JSON_parse_legacy := Demo.parse_legacy;
     JSON_parse_profiles_empty := eq_refl;
     JSON_parse_legacy_empty := eq_refl;
     toLocaleString := fun t => (string_of_Z t ++ " ms")%string;
     toLocaleDateString := fun t => ("day " ++ string_of_Z (t / 86400000))%string;
     toISOString := fun t => ("2023-11-14T" ++ string_of_Z t)%string |}.

Definition empty_map_storage : list (string * string) :=
  [ ("psycho_profiles_db", "{}"); ("psycho_active_id", "subject-a") ].

(** A session in which no profile is created. *)
Definition quiet_actions : list Action :=
  [ TypeFirstName "Robin";
    Upload [Demo.photo "a.png"] "portrait" (Some Demo.names_jordan);
    Delete true;
    Click 0;
    ExportAs txt;
    Capture screen "chat" (Some anonymous) ].

End Sample.
(** * Properties *)

(** ** Dictionaries *)

Lemma truthy_Some (s : string) : truthy (Some s) = true <-> s <> EmptyString.
Proof.
  unfold truthy. destruct (String.eqb_spec s EmptyString); simpl; split;
    congruence.
Qed.

Lemma truthy_string_value (v : option string) :
  truthy v = true -> v = Some (string_value v) /\ string_value v <> EmptyString.
Proof.
  destruct v as [s|]; simpl; [|discriminate].
  intros H. split; [reflexivity|]. now apply truthy_Some.
Qed.

Module JsFacts.

Section Facts.

Context {A : Type}.
Implicit Types (o : Js.Obj A) (k : string) (v : A).

Lemma own_replace_same k v o :
  Js.own k o <> None -> Js.own k (Js.replace k v o) = Some v.
Proof.
  induction o as [|[k' v'] o IH]; simpl; [congruence|].
  destruct (String.eqb_spec k k') as [->|Hne]; simpl.
  - now rewrite String.eqb_refl.
  - intros H. apply String.eqb_neq in Hne. rewrite Hne. auto.
Qed.

Lemma own_replace_other k k' v o :
  k' <> k -> Js.own k' (Js.replace k v o) = Js.own k' o.
Proof.
  intros Hne. induction o as [|[k0 v0] o IH]; simpl; [reflexivity|].
  destruct (String.eqb_spec k k0) as [->|H0]; simpl.
  - apply String.eqb_neq in Hne. now rewrite Hne.
  - now rewrite IH.
Qed.

Lemma keys_replace k v o : Js.keys (Js.replace k v o) = Js.keys o.
Proof.
  induction o as [|[k0 v0] o IH]; simpl; [reflexivity|].
  destruct (String.eqb k k0); simpl; [reflexivity|].
  f_equal. exact IH.
Qed.

Lemma own_app k o o' :
  Js.own k (o ++ o') =
  match Js.own k o with Some v => Some v | None => Js.own k o' end.
Proof.
  induction o as [|[k0 v0] o IH]; simpl; [reflexivity|].
  now destruct (String.eqb k k0).
Qed.

Lemma own_insert_index_same n k v o :
  Js.own k o = None -> Js.own k (Js.insert_index n k v o) = Some v.
Proof.
  induction o as [|[k0 v0] o IH]; simpl.
  - now rewrite String.eqb_refl.
  - destruct (String.eqb_spec k k0) as [->|Hne]; [discriminate|].
    intros Ho. destruct (Js.array_index k0) as [n0|].
    + destruct (n0 <? n)%N; simpl.
      * apply String.eqb_neq in Hne. rewrite Hne. auto.
      * now rewrite String.eqb_refl.
    + simpl. now rewrite String.eqb_refl.
Qed.

Lemma own_insert_index_other n k k' v o :
  k' <> k -> Js.own k' (Js.insert_index n k v o) = Js.own k' o.
Proof.
  intros Hne. apply String.eqb_neq in Hne.
  induction o as [|[k0 v0] o IH]; simpl.
  - now rewrite Hne.
  - destruct (Js.array_index k0) as [n0|].
    + destruct (n0 <? n)%N; simpl.
      * now rewrite IH.
      * now rewrite Hne.
    + simpl. now rewrite Hne.
Qed.

(** Reading back what [{...o, [k]: v}] wrote, and what it left alone. *)
Lemma own_set_same k v o : Js.own k (Js.set k v o) = Some v.
Proof.
  unfold Js.set. destruct (Js.own k o) eqn:Ho.
  - apply own_replace_same. congruence.
  - destruct (Js.array_index k).
    + now apply own_insert_index_same.
    + rewrite own_app, Ho. simpl. now rewrite String.eqb_refl.
Qed.

Lemma own_set_other k k' v o :
  k' <> k -> Js.own k' (Js.set k v o) = Js.own k' o.
Proof.
  intros Hne. unfold Js.set. destruct (Js.own k o) eqn:Ho.
  - now apply own_replace_other.
  - destruct (Js.array_index k).
    + now apply own_insert_index_other.
    + rewrite own_app. simpl. apply String.eqb_neq in Hne. rewrite Hne.
      now destruct (Js.own k' o).
Qed.

Lemma get_set_same k v o : Js.get k (Js.set k v o) = Js.Own v.
Proof. unfold Js.get. now rewrite own_set_same. Qed.

Lemma get_set_other k k' v o :
  k' <> k -> Js.get k' (Js.set k v o) = Js.get k' o.
Proof. intros Hne. unfold Js.get. now rewrite own_set_other. Qed.

Lemma get_Own k o v : Js.get k o = Js.Own v <-> Js.own k o = Some v.
Proof.
  unfold Js.get. destruct (Js.own k o); [|destruct (Js.inherited k)];
    split; congruence.
Qed.

(** Overwriting an own property keeps the enumeration order. *)
Lemma keys_set_own k v v' o :
  Js.own k o = Some v' -> Js.keys (Js.set k v o) = Js.keys o.
Proof. intros Ho. unfold Js.set. rewrite Ho. apply keys_replace. Qed.

Lemma set_empty k v : Js.set k v [] = [(k, v)].
Proof. unfold Js.set. simpl. now destruct (Js.array_index k). Qed.

Lemma own_delete_same k o : Js.own k (Js.delete k o) = None.
Proof.
  induction o as [|[k0 v0] o IH]; simpl; [reflexivity|].
  destruct (String.eqb_spec k k0) as [->|Hne]; simpl; [exact IH|].
  apply String.eqb_neq in Hne. now rewrite Hne.
Qed.

Lemma own_delete_other k k' o :
  k' <> k -> Js.own k' (Js.delete k o) = Js.own k' o.
Proof.
  intros Hne. induction o as [|[k0 v0] o IH]; simpl; [reflexivity|].
  destruct (String.eqb_spec k k0) as [->|H0]; simpl.
  - apply String.eqb_neq in Hne. now rewrite Hne.
  - now rewrite IH.
Qed.

Lemma own_head k v o : Js.own k ((k, v) :: o) = Some v.
Proof. simpl. now rewrite String.eqb_refl. Qed.

End Facts.

End JsFacts.

(** ** The definitions on small inputs *)

Example truthy_examples :
  truthy None = false /\ truthy (Some EmptyString) = false
  /\ truthy (Some "0") = true.
Proof. repeat split. Qed.

Example split_space_examples :
  split_space "Jane Doe" = ["Jane"; "Doe"]
  /\ split_space EmptyString = [EmptyString]
  /\ split_space " a  b " = [EmptyString; "a"; EmptyString; "b"; EmptyString]
  /\ join " " (tl (split_space "Jane van Doe")) = "van Doe"
  /\ join " " (tl (split_space "Jane")) = EmptyString.
Proof. repeat split. Qed.

(** Array indices are enumerated first and in numeric order, other keys in
    the order of their creation. *)
Example set_examples :
  Js.keys (Js.set "2" tt [("10", tt); ("b", tt)]) = ["2"; "10"; "b"]
  /\ Js.keys (Js.set "11" tt [("10", tt); ("b", tt)]) = ["10"; "11"; "b"]
  /\ Js.keys (Js.set "01" tt [("10", tt); ("b", tt)]) = ["10"; "b"; "01"]
  /\ Js.keys (Js.set "b" tt [("10", tt); ("b", tt)]) = ["10"; "b"]
  /\ Js.array_index "4294967294" = Some 4294967294%N
  /\ Js.array_index "4294967295" = None
  /\ Js.array_index "0" = Some 0%N
  /\ Js.array_index "-1" = None.
Proof. repeat split. Qed.

Example get_examples :
  Js.get "subject-b" Demo.two_subjects
  = Js.Own (Demo.migrated_blank "subject-b")
  /\ Js.get "subject-z" Demo.two_subjects = Js.Undefined
  /\ Js.get "toString" Demo.two_subjects = Js.Proto
  /\ Js.get "null" Demo.two_subjects = Js.Undefined.
Proof. repeat split. Qed.

Example trim_examples :
  trim ("  " ++ nl ++ "ab  c " ++ nl ++ "  ") = "ab  c"
  /\ trim "   " = EmptyString
  /\ remove_ws " Mary  Ann " = "MaryAnn".
Proof. repeat split. Qed.

Example stringify_examples :
  Json.stringify EmptyString
    (Json.Obj [("a", Json.Num (-4)); ("b", Json.Arr []);
               ("c", Json.Arr [Json.Str "x"; Json.Obj []])])
  = ("{" ++ dq ++ "a" ++ dq ++ ":-4," ++ dq ++ "b" ++ dq ++ ":[],"
     ++ dq ++ "c" ++ dq ++ ":[" ++ dq ++ "x" ++ dq ++ ",{}]}")%string
  /\ Json.stringify "  " (Json.Obj [("a", Json.Arr [Json.Num 1; Json.Num 2])])
     = ("{" ++ nl ++ "  " ++ dq ++ "a" ++ dq ++ ": [" ++ nl ++ "    1,"
        ++ nl ++ "    2" ++ nl ++ "  ]" ++ nl ++ "}")%string
  /\ Json.quote ("a" ++ dq ++ "b" ++ bslash ++ nl)
     = (dq ++ "a" ++ bslash ++ dq ++ "b" ++ bslash ++ bslash ++ bslash ++ "n"
        ++ dq)%string.
Proof. repeat split. Qed.

(** The two cases of the first name the specification gives: over the
    default "New" the candidate "Alex" is taken, over "Alex" the candidate
    "Jordan" is not. *)
Example newFirstName_examples :
  newFirstName
    (AnalysisResponse.mk
       (Some (CandidateProfile.mk (Some "Alex") None None))
       (BigFiveScores.mk 50 50 50 50 50) "INTP" "5w4" "Secure" "s" [] "o"
       None None)
    (defaultProfile (Demo.uuid 0) (Demo.clock 0))
  = "Alex"
  /\ newFirstName Demo.names_jordan (Demo.alex "subject-a") = "Alex".
Proof. repeat split. Qed.

Example fileName_examples :
  fileName [] = None
  /\ fileName [Demo.photo "a.png"] = Some "a.png"
  /\ fileName [Demo.photo "a.png"; Demo.photo "b.png"] = Some "2 files uploaded"
  /\ fileName (repeat (Demo.photo "a.png") 12) = Some "12 files uploaded".
Proof. repeat split. Qed.

(** ** Strings: occurrences, [join] and [trim] *)

Module StringFacts.

Lemma append_assoc (a b c : string) : ((a ++ b) ++ c = a ++ b ++ c)%string.
Proof. induction a as [|x a IH]; simpl; [reflexivity|now rewrite IH]. Qed.

Lemma append_nil_r (a : string) : (a ++ EmptyString = a)%string.
Proof. induction a as [|x a IH]; simpl; [reflexivity|now rewrite IH]. Qed.

Lemma prefix_spec (x s : string) :
  prefix x s = true <-> exists b, s = (x ++ b)%string.
Proof.
  revert s. induction x as [|c x IH]; intros s.
  - split; [intros _; now exists s|now destruct s].
  - destruct s as [|d s]; [split; [discriminate|intros [b Hb]; discriminate]|].
    simpl. destruct (Ascii.ascii_dec c d) as [->|Hne].
    + rewrite IH. split; intros [b Hb]; exists b; congruence.
    + split; [discriminate|]. intros [b Hb]. congruence.
Qed.

Lemma infixb_spec (x s : string) : infixb x s = true <-> appears_in x s.
Proof.
  unfold appears_in. induction s as [|d s IH].
  - cbn [infixb]. rewrite orb_false_r, prefix_spec. split.
    + intros [b Hb]. now exists EmptyString, b.
    + intros (a & b & Hab). destruct a; [now exists b|discriminate].
  - cbn [infixb]. rewrite orb_true_iff, IH, prefix_spec. split.
    + intros [[b Hb]|(a & b & Hab)].
      * now exists EmptyString, b.
      * exists (String d a), b. simpl. now rewrite Hab.
    + intros (a & b & Hab). destruct a as [|c a].
      * left. now exists b.
      * right. exists a, b. simpl in Hab. congruence.
Qed.

Lemma appears_in_refl (x : string) : appears_in x x.
Proof. exists EmptyString, EmptyString. simpl. now rewrite append_nil_r. Qed.

Lemma appears_in_empty (s : string) : appears_in EmptyString s.
Proof. now exists EmptyString, s. Qed.

Lemma appears_in_here (x b : string) : appears_in x (x ++ b).
Proof. now exists EmptyString, b. Qed.

Lemma appears_in_app_l (x a s : string) :
  appears_in x s -> appears_in x (a ++ s).
Proof.
  intros (u & v & ->). exists (a ++ u)%string, v. now rewrite append_assoc.
Qed.

Lemma appears_in_app_r (x s b : string) :
  appears_in x s -> appears_in x (s ++ b).
Proof.
  intros (u & v & ->). exists u, (v ++ b)%string.
  now rewrite !append_assoc.
Qed.

Lemma appears_in_trans (x y s : string) :
  appears_in x y -> appears_in y s -> appears_in x s.
Proof.
  intros Hxy (u & v & ->). now apply appears_in_app_l, appears_in_app_r.
Qed.

Lemma concat_cons (sep x : string) (l : list string) :
  l <> [] ->
  String.concat sep (x :: l) = (x ++ sep ++ String.concat sep l)%string.
Proof. destruct l; [congruence|reflexivity]. Qed.

Lemma concat_app (sep : string) (l1 l2 : list string) :
  l1 <> [] -> l2 <> [] ->
  String.concat sep (l1 ++ l2)
  = (String.concat sep l1 ++ sep ++ String.concat sep l2)%string.
Proof.
  intros H1 H2. induction l1 as [|x l1 IH]; [congruence|].
  destruct l1 as [|y l1].
  - simpl app. now rewrite concat_cons.
  - change ((x :: y :: l1) ++ l2) with (x :: ((y :: l1) ++ l2)).
    rewrite !concat_cons by discriminate. rewrite IH by discriminate.
    now rewrite !append_assoc.
Qed.

Lemma concat_split (sep : string) (n : nat) (l : list string) :
  0 < n < length l ->
  String.concat sep l
  = (String.concat sep (firstn n l) ++ sep
     ++ String.concat sep (skipn n l))%string.
Proof.
  intros [Hlo Hhi]. rewrite <- (firstn_skipn n l) at 1. apply concat_app.
  - intros Hnil. apply (f_equal (@length _)) in Hnil.
    rewrite length_firstn in Hnil. simpl in Hnil. lia.
  - intros Hnil. apply (f_equal (@length _)) in Hnil.
    rewrite length_skipn in Hnil. simpl in Hnil. lia.
Qed.

Lemma appears_in_concat (sep x y : string) (l : list string) :
  In y l -> appears_in x y -> appears_in x (String.concat sep l).
Proof.
  intros Hin Hxy. induction l as [|z l IH]; [contradiction|].
  destruct l as [|z' l].
  - destruct Hin as [->|[]]. exact Hxy.
  - rewrite concat_cons by discriminate. destruct Hin as [->|Hin].
    + now apply appears_in_app_r.
    + now apply appears_in_app_l, appears_in_app_l, IH.
Qed.

Lemma appears_in_concat_map {A} (sep x : string) (g : A -> string)
    (a : A) (l : list A) :
  In a l -> appears_in x (g a) -> appears_in x (String.concat sep (map g l)).
Proof.
  intros Hin Hx. apply appears_in_concat with (y := g a); [|exact Hx].
  now apply in_map.
Qed.

Lemma has_nonws_app (a b : string) :
  has_nonws (a ++ b) = has_nonws a || has_nonws b.
Proof.
  induction a as [|c a IH]; simpl; [reflexivity|].
  now rewrite IH, orb_assoc.
Qed.

Lemma followed_here (x b : string) :
  has_nonws b = true -> followed x (x ++ b).
Proof. intros Hb. now exists EmptyString, b. Qed.

Lemma followed_app_l (x a s : string) : followed x s -> followed x (a ++ s).
Proof.
  intros (u & v & -> & Hv). exists (a ++ u)%string, v.
  now rewrite append_assoc.
Qed.

Lemma followed_app_r (x s b : string) : followed x s -> followed x (s ++ b).
Proof.
  intros (u & v & -> & Hv). exists u, (v ++ b)%string.
  rewrite !append_assoc, has_nonws_app, Hv. auto.
Qed.

Lemma followed_concat_map {A} (sep x : string) (g : A -> string)
    (a : A) (l : list A) :
  In a l -> followed x (g a) -> followed x (String.concat sep (map g l)).
Proof.
  intros Hin Hx. induction l as [|z l IH]; [contradiction|].
  destruct l as [|z' l].
  - destruct Hin as [->|[]]. exact Hx.
  - change (map g (z :: z' :: l)) with (g z :: map g (z' :: l)).
    rewrite concat_cons by discriminate. destruct Hin as [->|Hin].
    + now apply followed_app_r.
    + now apply followed_app_l, followed_app_l, IH.
Qed.

(** [trim] cuts at the two ends only. *)
Lemma trim_left_app (a t : string) :
  has_nonws a = true -> trim_left (a ++ t) = (trim_left a ++ t)%string.
Proof.
  induction a as [|c a IH]; simpl; [discriminate|].
  destruct (is_ws c); simpl; [exact IH|reflexivity].
Qed.

Lemma trim_right_nonempty (b : string) :
  has_nonws b = true -> trim_right b <> EmptyString.
Proof.
  induction b as [|c b IH]; simpl; [discriminate|].
  destruct (trim_right b) eqn:Hb; [|discriminate].
  destruct (is_ws c); simpl; [|discriminate].
  intros H. now apply IH in H.
Qed.

Lemma trim_right_app (t b : string) :
  has_nonws b = true -> trim_right (t ++ b) = (t ++ trim_right b)%string.
Proof.
  intros Hb. induction t as [|c t IH]; simpl; [reflexivity|].
  rewrite IH. destruct (t ++ trim_right b)%string eqn:Htb; [|reflexivity].
  exfalso. apply (trim_right_nonempty b Hb).
  destruct t; [exact Htb|discriminate].
Qed.

Lemma trim_inside (x s : string) : inside x s -> appears_in x (trim s).
Proof.
  intros (a & b & -> & Ha & Hb). unfold trim.
  rewrite trim_left_app by exact Ha.
  rewrite <- append_assoc, trim_right_app by exact Hb.
  exists (trim_left a), (trim_right b). now rewrite append_assoc.
Qed.

Lemma inside_between (x a s b : string) :
  has_nonws a = true -> has_nonws b = true -> appears_in x s ->
  inside x (a ++ s ++ b).
Proof.
  intros Ha Hb (u & v & ->). exists (a ++ u)%string, (v ++ b)%string.
  rewrite !append_assoc, !has_nonws_app, Ha, Hb, orb_true_r. auto.
Qed.

Lemma inside_followed (x a s w : string) :
  has_nonws a = true -> followed x s -> inside x (a ++ s ++ w).
Proof.
  intros Ha (u & v & -> & Hv). exists (a ++ u)%string, (v ++ w)%string.
  rewrite !append_assoc, !has_nonws_app, Ha, Hv. auto.
Qed.

End StringFacts.

(** ** The merge *)

Section MergeFacts.

Context {platform : Platform}.

Lemma fileName_defined (files : list File.t) :
  files <> [] -> exists label, fileName files = Some label.
Proof.
  intros Hne. unfold fileName.
  destruct (1 <? length files)%nat; [eauto|].
  destruct files as [|f rest]; [congruence|eauto].
Qed.

(** The handler on a non-empty batch whose analysis succeeded, when the
    active id names a profile of the store. *)
Lemma handleAnalysis_own (m : Machine) files type result current label :
  fileName files = Some label ->
  Js.get (Js.key_of (activeProfileId m)) (profiles m) = Js.Own current ->
  handleAnalysis files type (Some result) m =
  (Returned tt,
   mkMachine (localStorage m)
     (Js.set (Js.key_of (activeProfileId m))
        (merge_on m type result current label) (profiles m))
     (activeProfileId m) (S (uuids_drawn m)) (S (S (clock_reads m)))).
Proof.
  intros Hlabel Hown. unfold handleAnalysis.
  assert (Hlen : (length files =? 0)%nat = false).
  { destruct files; [discriminate Hlabel|reflexivity]. }
  rewrite Hlen.
  unfold handleAnalysis_update, bind, readActiveProfileId, readProfiles.
  simpl. rewrite Hown. simpl. rewrite Hlabel. reflexivity.
Qed.

Lemma handleAnalysis_merged (m : Machine) files type result current :
  files <> [] ->
  Js.get (Js.key_of (activeProfileId m)) (profiles m) = Js.Own current ->
  exists m' label,
    fileName files = Some label
    /\ merged_into m files type result m' (merge_on m type result current label)
    /\ profiles m' =
       Js.set (Js.key_of (activeProfileId m))
         (merge_on m type result current label) (profiles m)
    /\ activeProfileId m' = activeProfileId m
    /\ localStorage m' = localStorage m.
Proof.
  intros Hne Hown. destruct (fileName_defined files Hne) as [label Hlabel].
  eexists _, label. split; [exact Hlabel|].
  unfold merged_into. rewrite (handleAnalysis_own _ _ _ _ _ _ Hlabel Hown).
  simpl. repeat split. apply JsFacts.get_set_same.
Qed.

(** The three guarded fields, one merge. *)
Lemma override_cases cand guard old :
  (truthy cand = true /\ guard = true
   /\ override cand guard old = string_value cand)
  \/ ((truthy cand = false \/ guard = false) /\ override cand guard old = old).
Proof.
  unfold override. destruct (truthy cand), guard; simpl; auto.
Qed.

Lemma sentinel_guard (cur a b : string) :
  ((cur =? a) || (cur =? b) || negb (truthy (Some cur)))%string = true
  <-> In cur [EmptyString; a; b].
Proof.
  simpl. unfold truthy. rewrite negb_involutive, !orb_true_iff.
  rewrite !String.eqb_eq. intuition auto.
Qed.

Lemma empty_guard (cur : string) :
  negb (truthy (Some cur)) = true <-> cur = EmptyString.
Proof. unfold truthy. rewrite negb_involutive. apply String.eqb_eq. Qed.

End MergeFacts.

Section MergeProperties.

Context {platform : Platform}.

(** A guarded identity field after one merge: either the analysis offers a
    non-empty candidate and the guard holds, and the candidate is taken, or
    the field keeps its value. *)
Lemma guarded_field (field : CandidateProfile.t -> option string)
    (result : AnalysisResponse.t) (guard : bool) (cur : string) :
  let new :=
    match AnalysisResponse.candidateProfile result with
    | Some cp => override (field cp) guard cur
    | None => cur
    end in
  (exists c, candidate field result = Some c /\ c <> EmptyString
             /\ guard = true /\ new = c)
  \/ ((forall c, candidate field result = Some c -> c <> EmptyString ->
       guard = false)
      /\ new = cur).
Proof.
  unfold candidate. destruct (AnalysisResponse.candidateProfile result) as [cp|];
    simpl.
  - destruct (override_cases (field cp) guard cur) as [(Ht & Hg & ->)|([Ht|Hg] & ->)].
    + left. destruct (truthy_string_value _ Ht) as [Hc Hne]. eauto.
    + right. split; [|reflexivity]. intros c Hc Hne. rewrite Hc in Ht.
      apply truthy_Some in Hne. congruence.
    + right. split; [|reflexivity]. auto.
  - right. split; [|reflexivity]. discriminate.
Qed.

Lemma newFirstName_cases (result : AnalysisResponse.t) (current : Profile) :
  (exists c, candidate CandidateProfile.firstName result = Some c
             /\ c <> EmptyString
             /\ In (PsychologicalProfile.firstName current)
                  [EmptyString; "New"; "Subject"]
             /\ newFirstName result current = c)
  \/ ((forall c, candidate CandidateProfile.firstName result = Some c ->
        c <> EmptyString ->
        ~ In (PsychologicalProfile.firstName current)
            [EmptyString; "New"; "Subject"])
      /\ newFirstName result current = PsychologicalProfile.firstName current).
Proof.
  unfold newFirstName. cbv zeta.
  match goal with |- context [override _ ?g _] => set (guard := g) end.
  destruct (guarded_field CandidateProfile.firstName result guard
              (PsychologicalProfile.firstName current))
    as [(c & Hc & Hne & Hg & Hnew)|(Hno & Hsame)]; cbv zeta in *.
  - left. exists c. apply sentinel_guard in Hg. auto.
  - right. split; [|exact Hsame]. intros c Hc Hne Hin.
    apply sentinel_guard in Hin. fold guard in Hin.
    specialize (Hno c Hc Hne). congruence.
Qed.

Lemma newLastName_cases (result : AnalysisResponse.t) (current : Profile) :
  (exists c, candidate CandidateProfile.lastName result = Some c
             /\ c <> EmptyString
             /\ In (PsychologicalProfile.lastName current)
                  [EmptyString; "Subject"; "001"]
             /\ newLastName result current = c)
  \/ ((forall c, candidate CandidateProfile.lastName result = Some c ->
        c <> EmptyString ->
        ~ In (PsychologicalProfile.lastName current)
            [EmptyString; "Subject"; "001"])
      /\ newLastName result current = PsychologicalProfile.lastName current).
Proof.
  unfold newLastName. cbv zeta.
  match goal with |- context [override _ ?g _] => set (guard := g) end.
  destruct (guarded_field CandidateProfile.lastName result guard
              (PsychologicalProfile.lastName current))
    as [(c & Hc & Hne & Hg & Hnew)|(Hno & Hsame)]; cbv zeta in *.
  - left. exists c. apply sentinel_guard in Hg. auto.
  - right. split; [|exact Hsame]. intros c Hc Hne Hin.
    apply sentinel_guard in Hin. fold guard in Hin.
    specialize (Hno c Hc Hne). congruence.
Qed.

Lemma newDOB_cases (result : AnalysisResponse.t) (current : Profile) :
  (exists c, candidate CandidateProfile.dateOfBirth result = Some c
             /\ c <> EmptyString
             /\ PsychologicalProfile.dateOfBirth current = EmptyString
             /\ newDOB result current = c)
  \/ ((forall c, candidate CandidateProfile.dateOfBirth result = Some c ->
        c <> EmptyString ->
        PsychologicalProfile.dateOfBirth current <> EmptyString)
      /\ newDOB result current = PsychologicalProfile.dateOfBirth current).
Proof.
  unfold newDOB. cbv zeta.
  match goal with |- context [override _ ?g _] => set (guard := g) end.
  destruct (guarded_field CandidateProfile.dateOfBirth result guard
              (PsychologicalProfile.dateOfBirth current))
    as [(c & Hc & Hne & Hg & Hnew)|(Hno & Hsame)]; cbv zeta in *.
  - left. exists c. apply empty_guard in Hg. auto.
  - right. split; [|exact Hsame]. intros c Hc Hne Hin.
    apply empty_guard in Hin. fold guard in Hin.
    specialize (Hno c Hc Hne). congruence.
Qed.

Ltac run_merge m files type result current Hne Hown :=
  destruct (handleAnalysis_merged m files type result current Hne Hown)
    as (m' & label & Hlabel & Hmerged & Hprofiles & Hactive & Hstorage).

(** C1, as the code has it: a successful merge takes the candidate first
    name exactly when the candidate is non-empty and the first name before
    the merge is empty, "New" or "Subject", and the candidate last name
    exactly when the candidate is non-empty and the last name before the
    merge is empty, "Subject" or "001"; a name that changed was overwritten
    under that condition, so in every other case it is unchanged. *)
Theorem merge_overwrites_names_only_over_defaults
    (m : Machine) (files : list File.t) (type : MediaType)
    (result : AnalysisResponse.t) (current : Profile) :
  files <> [] ->
  Js.get (Js.key_of (activeProfileId m)) (profiles m) = Js.Own current ->
  exists m' updated,
    merged_into m files type result m' updated
    /\ (forall c,
          candidate CandidateProfile.firstName result = Some c ->
          c <> EmptyString ->
          In (PsychologicalProfile.firstName current)
            [EmptyString; "New"; "Subject"] ->
          PsychologicalProfile.firstName updated = c)
    /\ (PsychologicalProfile.firstName updated
          <> PsychologicalProfile.firstName current ->
        exists c,
          candidate CandidateProfile.firstName result = Some c
          /\ c <> EmptyString
          /\ In (PsychologicalProfile.firstName current)
               [EmptyString; "New"; "Subject"]
          /\ PsychologicalProfile.firstName updated = c)
    /\ (forall c,
          candidate CandidateProfile.lastName result = Some c ->
          c <> EmptyString ->
          In (PsychologicalProfile.lastName current)
            [EmptyString; "Subject"; "001"] ->
          PsychologicalProfile.lastName updated = c)
    /\ (PsychologicalProfile.lastName updated
          <> PsychologicalProfile.lastName current ->
        exists c,
          candidate CandidateProfile.lastName result = Some c
          /\ c <> EmptyString
          /\ In (PsychologicalProfile.lastName current)
               [EmptyString; "Subject"; "001"]
          /\ PsychologicalProfile.lastName updated = c).
Proof.
  intros Hne Hown. run_merge m files type result current Hne Hown.
  exists m', (merge_on m type result current label).
  split; [exact Hmerged|]. unfold merge_on. simpl.
  split; [|split; [|split]].
  - intros c Hc Hc' Hin.
    destruct (newFirstName_cases result current)
      as [(c' & Hc2 & _ & _ & Hnew)|(Hno & _)].
    + congruence.
    + now specialize (Hno c Hc Hc').
  - intros Hchanged.
    destruct (newFirstName_cases result current)
      as [(c' & Hc2 & Hc3 & Hin & Hnew)|(_ & Hsame)]; [eauto|congruence].
  - intros c Hc Hc' Hin.
    destruct (newLastName_cases result current)
      as [(c' & Hc2 & _ & _ & Hnew)|(Hno & _)].
    + congruence.
    + now specialize (Hno c Hc Hc').
  - intros Hchanged.
    destruct (newLastName_cases result current)
      as [(c' & Hc2 & Hc3 & Hin & Hnew)|(_ & Hsame)]; [eauto|congruence].
Qed.

(** C3: a successful merge extends the history by exactly one entry, and
    leaves each of the two lists of notes as it was or with one note, the
    one of the analysis, appended; none of the three gets shorter. *)
Theorem merge_appends_history_and_notes
    (m : Machine) (files : list File.t) (type : MediaType)
    (result : AnalysisResponse.t) (current : Profile) :
  files <> [] ->
  Js.get (Js.key_of (activeProfileId m)) (profiles m) = Js.Own current ->
  exists m' updated entry,
    merged_into m files type result m' updated
    /\ PsychologicalProfile.history updated
       = PsychologicalProfile.history current ++ [entry]
    /\ (PsychologicalProfile.bodyLanguageNotes updated
        = PsychologicalProfile.bodyLanguageNotes current
        \/ exists note,
             AnalysisResponse.bodyLanguageAnalysis result = Some note
             /\ PsychologicalProfile.bodyLanguageNotes updated
                = PsychologicalProfile.bodyLanguageNotes current ++ [note])
    /\ (PsychologicalProfile.toneVoiceNotes updated
        = PsychologicalProfile.toneVoiceNotes current
        \/ exists note,
             AnalysisResponse.toneAnalysis result = Some note
             /\ PsychologicalProfile.toneVoiceNotes updated
                = PsychologicalProfile.toneVoiceNotes current ++ [note])
    /\ length (PsychologicalProfile.history updated)
       = S (length (PsychologicalProfile.history current))
    /\ length (PsychologicalProfile.bodyLanguageNotes current)
       <= length (PsychologicalProfile.bodyLanguageNotes updated)
    /\ length (PsychologicalProfile.toneVoiceNotes current)
       <= length (PsychologicalProfile.toneVoiceNotes updated).
Proof.
  intros Hne Hown. run_merge m files type result current Hne Hown.
  eexists m', (merge_on m type result current label), _.
  split; [exact Hmerged|]. unfold merge_on. simpl.
  split; [reflexivity|].
  unfold newBodyLanguage, newToneNotes.
  destruct (truthy (AnalysisResponse.bodyLanguageAnalysis result)) eqn:Hbody,
           (truthy (AnalysisResponse.toneAnalysis result)) eqn:Htone;
    try (apply truthy_string_value in Hbody; destruct Hbody as [Hbody _]);
    try (apply truthy_string_value in Htone; destruct Htone as [Htone _]);
    rewrite ?length_app; simpl; repeat split; eauto; lia.
Qed.

(** C8: the entry a successful analysis of N files appends is labelled
    "N files uploaded" when N > 1 and with the name of the file when
    N = 1. *)
Theorem history_entry_file_label
    (m : Machine) (files : list File.t) (type : MediaType)
    (result : AnalysisResponse.t) (current : Profile) :
  files <> [] ->
  Js.get (Js.key_of (activeProfileId m)) (profiles m) = Js.Own current ->
  exists m' updated entry,
    merged_into m files type result m' updated
    /\ PsychologicalProfile.history updated
       = PsychologicalProfile.history current ++ [entry]
    /\ (1 < length files ->
        AnalysisHistoryItem.fileName entry
        = Some (string_of_nat (length files) ++ " files uploaded")%string)
    /\ (forall f, files = [f] ->
        AnalysisHistoryItem.fileName entry = Some (File.name f)).
Proof.
  intros Hne Hown. run_merge m files type result current Hne Hown.
  eexists m', (merge_on m type result current label), _.
  split; [exact Hmerged|]. unfold merge_on. simpl.
  split; [reflexivity|]. simpl. unfold fileName in Hlabel. split.
  - intros Hmany. apply Nat.ltb_lt in Hmany. rewrite Hmany in Hlabel.
    now rewrite <- Hlabel.
  - intros f ->. simpl in Hlabel. now rewrite <- Hlabel.
Qed.

(** C9: a successful merge changes the store at the active id only: every
    other id reads as before, the ids of the store and their order are
    the same, and the merged profile keeps its [id] field. *)
Theorem merge_touches_only_the_active_entry
    (m : Machine) (files : list File.t) (type : MediaType)
    (result : AnalysisResponse.t) (current : Profile) :
  files <> [] ->
  Js.get (Js.key_of (activeProfileId m)) (profiles m) = Js.Own current ->
  exists m' updated,
    merged_into m files type result m' updated
    /\ (forall k, k <> Js.key_of (activeProfileId m) ->
        Js.get k (profiles m') = Js.get k (profiles m))
    /\ Js.keys (profiles m') = Js.keys (profiles m)
    /\ PsychologicalProfile.id updated = PsychologicalProfile.id current
    /\ activeProfileId m' = activeProfileId m
    /\ localStorage m' = localStorage m.
Proof.
  intros Hne Hown. run_merge m files type result current Hne Hown.
  exists m', (merge_on m type result current label).
  split; [exact Hmerged|]. rewrite Hprofiles.
  split; [|split; [|split; [|split]]]; trivial.
  - intros k Hk. now apply JsFacts.get_set_other.
  - apply JsFacts.get_Own in Hown. eapply JsFacts.keys_set_own. exact Hown.
Qed.

(** A run of analyses on a store whose active id names a profile always
    returns, and leaves a profile under that id. *)
Lemma handleAnalysis_total (m : Machine) files type reply current :
  Js.get (Js.key_of (activeProfileId m)) (profiles m) = Js.Own current ->
  exists m' updated,
    handleAnalysis files type reply m = (Returned tt, m')
    /\ activeProfileId m' = activeProfileId m
    /\ Js.get (Js.key_of (activeProfileId m)) (profiles m') = Js.Own updated
    /\ (updated = current
        \/ exists result label,
             reply = Some result
             /\ updated = merge_on m type result current label).
Proof.
  intros Hown. destruct files as [|f rest].
  - exists m, current. simpl. auto.
  - destruct reply as [result|].
    + assert (Hne : f :: rest <> []) by discriminate.
      run_merge m (f :: rest) type result current Hne Hown.
      destruct Hmerged as [Hrun Hget].
      exists m', (merge_on m type result current label). eauto 8.
    + exists m, current. simpl. auto.
Qed.

(** C4: over any run of analyses the date of birth of the profile under
    the active id changes only if it was empty before the run, and then
    to a non-empty candidate of one of the analyses; a date of birth that
    is set is never changed. *)
Theorem dateOfBirth_is_filled_once
    (batches : list (list File.t * MediaType * option AnalysisResponse.t))
    (m : Machine) (current : Profile) :
  Js.get (Js.key_of (activeProfileId m)) (profiles m) = Js.Own current ->
  exists m' updated,
    handleAnalyses batches m = (Returned tt, m')
    /\ activeProfileId m' = activeProfileId m
    /\ Js.get (Js.key_of (activeProfileId m)) (profiles m') = Js.Own updated
    /\ (PsychologicalProfile.dateOfBirth current <> EmptyString ->
        PsychologicalProfile.dateOfBirth updated
        = PsychologicalProfile.dateOfBirth current)
    /\ (PsychologicalProfile.dateOfBirth updated
          <> PsychologicalProfile.dateOfBirth current ->
        PsychologicalProfile.dateOfBirth current = EmptyString
        /\ PsychologicalProfile.dateOfBirth updated <> EmptyString
        /\ exists files type result,
             In (files, type, Some result) batches
             /\ candidate CandidateProfile.dateOfBirth result
                = Some (PsychologicalProfile.dateOfBirth updated)).
Proof.
  revert m current.
  induction batches as [|[[files type] reply] rest IH]; intros m current Hown.
  - exists m, current. simpl. repeat split; congruence.
  - destruct (handleAnalysis_total m files type reply current Hown)
      as (m1 & u1 & Hrun1 & Hactive1 & Hget1 & Hu1).
    rewrite <- Hactive1 in Hget1.
    destruct (IH m1 u1 Hget1) as (m' & updated & Hrun & Hactive & Hget & Hkeep & Hset).
    exists m', updated. simpl. unfold bind. rewrite Hrun1, Hrun.
    rewrite Hactive1 in Hactive, Hget.
    split; [reflexivity|]. split; [exact Hactive|]. split; [exact Hget|].
    assert (Hstep :
      PsychologicalProfile.dateOfBirth u1
      = PsychologicalProfile.dateOfBirth current
      \/ (PsychologicalProfile.dateOfBirth current = EmptyString
          /\ PsychologicalProfile.dateOfBirth u1 <> EmptyString
          /\ exists result,
               reply = Some result
               /\ candidate CandidateProfile.dateOfBirth result
                  = Some (PsychologicalProfile.dateOfBirth u1))).
    { destruct Hu1 as [->|(result & label & -> & ->)]; [now left|].
      unfold merge_on. simpl.
      destruct (newDOB_cases result current)
        as [(c & Hc & Hne & Hempty & ->)|(_ & ->)]; [right|now left].
      eauto 6. }
    split.
    + intros Hset0. destruct Hstep as [Heq|(Hempty & _)]; [|congruence].
      rewrite <- Heq. apply Hkeep. congruence.
    + intros Hchanged.
      destruct (String.eqb_spec (PsychologicalProfile.dateOfBirth updated)
                  (PsychologicalProfile.dateOfBirth u1)) as [Hsame|Hlater].
      * destruct Hstep as [Heq|(Hempty & Hne1 & result & -> & Hcand)];
          [congruence|].
        rewrite Hsame. split; [exact Hempty|]. split; [exact Hne1|].
        exists files, type, result. split; [now left|exact Hcand].
      * destruct (Hset Hlater) as (Hempty1 & Hne & files' & type' & result' & Hin & Hcand).
        destruct Hstep as [Heq|(_ & Hne1 & _)]; [|congruence].
        split; [congruence|]. split; [exact Hne|].
        exists files', type', result'. split; [now right|exact Hcand].
Qed.

End MergeProperties.

(** The first name "Subject" is not empty and is not "New", and a merge
    with a candidate overwrites it. *)
Lemma firstName_Subject_is_overwritten :
  Js.own "subject-b" (profiles Demo.on_blank)
  = Some (Demo.migrated_blank "subject-b")
  /\ PsychologicalProfile.firstName (Demo.migrated_blank "subject-b")
     = "Subject"
  /\ fst (handleAnalysis (platform := Demo.browser) [Demo.photo "a.png"] IMAGE
            (Some Demo.names_jordan) Demo.on_blank)
     = Returned tt
  /\ option_map PsychologicalProfile.firstName
       (Js.own "subject-b"
          (profiles
             (snd (handleAnalysis (platform := Demo.browser)
                     [Demo.photo "a.png"] IMAGE (Some Demo.names_jordan)
                     Demo.on_blank))))
     = Some "Jordan".
Proof. vm_compute. repeat split. Qed.

Lemma merge_overwrites_names_only_over_defaults_witness :
  [Demo.photo "a.png"] <> []
  /\ Js.get (Js.key_of (activeProfileId Demo.on_blank)) (profiles Demo.on_blank)
     = Js.Own (Demo.migrated_blank "subject-b")
  /\ exists m' updated,
       merged_into (platform := Demo.browser) Demo.on_blank
         [Demo.photo "a.png"] IMAGE Demo.names_jordan m' updated
       /\ PsychologicalProfile.firstName updated = "Jordan"
       /\ PsychologicalProfile.lastName updated = "Reyes".
Proof.
  assert (Hne : [Demo.photo "a.png"] <> []) by discriminate.
  assert (Hown :
    Js.get (Js.key_of (activeProfileId Demo.on_blank)) (profiles Demo.on_blank)
    = Js.Own (Demo.migrated_blank "subject-b")) by reflexivity.
  split; [exact Hne|]. split; [exact Hown|].
  destruct (merge_overwrites_names_only_over_defaults (platform := Demo.browser)
              Demo.on_blank [Demo.photo "a.png"] IMAGE Demo.names_jordan
              (Demo.migrated_blank "subject-b") Hne Hown)
    as (m' & updated & Hmerged & Hfirst & _ & Hlast & _).
  exists m', updated. split; [exact Hmerged|]. split.
  - apply Hfirst; [reflexivity|discriminate|simpl; auto].
  - apply Hlast; [reflexivity|discriminate|simpl; auto].
Defined.

Lemma merge_appends_history_and_notes_witness :
  [Demo.photo "a.png"] <> []
  /\ Js.get (Js.key_of (activeProfileId Demo.on_alex)) (profiles Demo.on_alex)
     = Js.Own (Demo.alex "subject-a")
  /\ exists m' updated,
       merged_into (platform := Demo.browser) Demo.on_alex
         [Demo.photo "a.png"] IMAGE Demo.names_jordan m' updated
       /\ length (PsychologicalProfile.history updated) = 2.
Proof.
  assert (Hne : [Demo.photo "a.png"] <> []) by discriminate.
  assert (Hown :
    Js.get (Js.key_of (activeProfileId Demo.on_alex)) (profiles Demo.on_alex)
    = Js.Own (Demo.alex "subject-a")) by reflexivity.
  split; [exact Hne|]. split; [exact Hown|].
  destruct (merge_appends_history_and_notes (platform := Demo.browser)
              Demo.on_alex [Demo.photo "a.png"] IMAGE Demo.names_jordan
              (Demo.alex "subject-a") Hne Hown)
    as (m' & updated & entry & Hmerged & _ & _ & _ & Hlen & _).
  exists m', updated. split; [exact Hmerged|exact Hlen].
Defined.

Lemma history_entry_file_label_witness :
  [Demo.photo "a.png"; Demo.photo "b.png"; Demo.photo "c.png"] <> []
  /\ Js.get (Js.key_of (activeProfileId Demo.on_alex)) (profiles Demo.on_alex)
     = Js.Own (Demo.alex "subject-a")
  /\ exists m' updated entry,
       merged_into (platform := Demo.browser) Demo.on_alex
         [Demo.photo "a.png"; Demo.photo "b.png"; Demo.photo "c.png"] IMAGE
         Demo.names_jordan m' updated
       /\ PsychologicalProfile.history updated = [Demo.visit; entry]
       /\ AnalysisHistoryItem.fileName entry = Some "3 files uploaded".
Proof.
  assert (Hne : [Demo.photo "a.png"; Demo.photo "b.png"; Demo.photo "c.png"]
                <> []) by discriminate.
  assert (Hown :
    Js.get (Js.key_of (activeProfileId Demo.on_alex)) (profiles Demo.on_alex)
    = Js.Own (Demo.alex "subject-a")) by reflexivity.
  split; [exact Hne|]. split; [exact Hown|].
  destruct (history_entry_file_label (platform := Demo.browser)
              Demo.on_alex _ IMAGE Demo.names_jordan
              (Demo.alex "subject-a") Hne Hown)
    as (m' & updated & entry & Hmerged & Hhistory & Hmany & _).
  exists m', updated, entry. split; [exact Hmerged|].
  split; [exact Hhistory|]. apply Hmany. simpl. lia.
Defined.

Lemma merge_touches_only_the_active_entry_witness :
  [Demo.photo "a.png"] <> []
  /\ Js.get (Js.key_of (activeProfileId Demo.on_blank)) (profiles Demo.on_blank)
     = Js.Own (Demo.migrated_blank "subject-b")
  /\ exists m' updated,
       merged_into (platform := Demo.browser) Demo.on_blank
         [Demo.photo "a.png"] IMAGE Demo.names_jordan m' updated
       /\ Js.get "subject-a" (profiles m') = Js.Own (Demo.alex "subject-a")
       /\ Js.keys (profiles m') = ["subject-a"; "subject-b"]
       /\ PsychologicalProfile.id updated = "subject-b".
Proof.
  assert (Hne : [Demo.photo "a.png"] <> []) by discriminate.
  assert (Hown :
    Js.get (Js.key_of (activeProfileId Demo.on_blank)) (profiles Demo.on_blank)
    = Js.Own (Demo.migrated_blank "subject-b")) by reflexivity.
  split; [exact Hne|]. split; [exact Hown|].
  destruct (merge_touches_only_the_active_entry (platform := Demo.browser)
              Demo.on_blank [Demo.photo "a.png"] IMAGE Demo.names_jordan
              (Demo.migrated_blank "subject-b") Hne Hown)
    as (m' & updated & Hmerged & Hframe & Hkeys & Hid & _).
  exists m', updated. split; [exact Hmerged|]. split; [|split].
  - rewrite Hframe; [reflexivity|discriminate].
  - rewrite Hkeys. reflexivity.
  - rewrite Hid. reflexivity.
Defined.

Lemma dateOfBirth_is_filled_once_witness :
  Js.get (Js.key_of (activeProfileId Demo.on_alex)) (profiles Demo.on_alex)
  = Js.Own (Demo.alex "subject-a")
  /\ exists m' updated,
       handleAnalyses (platform := Demo.browser)
         [ ([Demo.photo "a.png"], IMAGE, Some Demo.names_jordan);
           ([Demo.photo "b.png"; Demo.photo "c.png"], IMAGE, None);
           ([Demo.photo "d.png"], IMAGE, Some Demo.names_jordan) ]
         Demo.on_alex
       = (Returned tt, m')
       /\ Js.get "subject-a" (profiles m') = Js.Own updated
       /\ PsychologicalProfile.dateOfBirth updated = "1990-04-12".
Proof.
  assert (Hown :
    Js.get (Js.key_of (activeProfileId Demo.on_alex)) (profiles Demo.on_alex)
    = Js.Own (Demo.alex "subject-a")) by reflexivity.
  split; [exact Hown|].
  destruct (dateOfBirth_is_filled_once (platform := Demo.browser)
              [ ([Demo.photo "a.png"], IMAGE, Some Demo.names_jordan);
                ([Demo.photo "b.png"; Demo.photo "c.png"], IMAGE, None);
                ([Demo.photo "d.png"], IMAGE, Some Demo.names_jordan) ]
              Demo.on_alex (Demo.alex "subject-a") Hown)
    as (m' & updated & Hrun & _ & Hget & Hkeep & _).
  exists m', updated. split; [exact Hrun|]. split; [exact Hget|].
  rewrite Hkeep; [reflexivity|discriminate].
Defined.

(** ** The store: loading and deleting *)

Section StoreFacts.

Context {platform : Platform}.

Lemma randomUUID_truthy (n : nat) : truthy (Some (randomUUID_nth n)) = true.
Proof.
  apply truthy_Some. intros Hempty.
  pose proof (randomUUID_length n) as Hlen. rewrite Hempty in Hlen.
  discriminate Hlen.
Qed.

(** The profile and the machine [startFresh] leaves. *)
Lemma startFresh_run (m : Machine) :
  startFresh m =
  (Returned tt,
   mkMachine (localStorage m)
     [(randomUUID_nth (uuids_drawn m),
       defaultProfile (randomUUID_nth (uuids_drawn m))
         (Date_now_nth (clock_reads m)))]
     (Some (randomUUID_nth (uuids_drawn m)))
     (S (uuids_drawn m)) (S (clock_reads m))).
Proof.
  unfold startFresh, generateNewProfile, bind, randomUUID, Date_now, ret,
    setProfiles, setActiveProfileId. simpl.
  now rewrite JsFacts.set_empty.
Qed.

(** A text [JSON.parse] accepts is not empty, so it is truthy. *)
Lemma parsed_profiles_truthy (text : string) (parsed : Profiles) :
  JSON_parse_profiles text = Some parsed -> truthy (Some text) = true.
Proof.
  intros Hparse. apply truthy_Some. intros ->.
  rewrite JSON_parse_profiles_empty in Hparse. discriminate.
Qed.

Lemma parsed_legacy_truthy (text : string) (parsed : LegacyProfile.t) :
  JSON_parse_legacy text = Some parsed -> truthy (Some text) = true.
Proof.
  intros Hparse. apply truthy_Some. intros ->.
  rewrite JSON_parse_legacy_empty in Hparse. discriminate.
Qed.

Lemma delete_only_key {A} (k : string) (o : Js.Obj A) :
  Js.keys o = [k] -> Js.delete k o = [].
Proof.
  destruct o as [|[k0 v0] [|kv o]]; try discriminate.
  simpl. intros [= ->]. now rewrite String.eqb_refl.
Qed.

Lemma get_first_key {A} (k : string) (rest : list string) (o : Js.Obj A) :
  Js.keys o = k :: rest -> exists v, Js.get k o = Js.Own v.
Proof.
  destruct o as [|[k0 v0] o]; [discriminate|]. simpl. intros [= -> _].
  exists v0. apply JsFacts.get_Own. apply JsFacts.own_head.
Qed.

Lemma handleDeleteProfile_confirmed (m : Machine) (k : string) :
  activeProfileId m = Some k ->
  k <> EmptyString ->
  handleDeleteProfile true m =
  match Js.keys (Js.delete k (profiles m)) with
  | [] => startFresh m
  | first :: _ =>
      (Returned tt,
       mkMachine (localStorage m) (Js.delete k (profiles m)) (Some first)
         (uuids_drawn m) (clock_reads m))
  end.
Proof.
  intros Hactive Hk. apply truthy_Some in Hk.
  unfold handleDeleteProfile, bind, readActiveProfileId, readProfiles.
  rewrite Hactive, Hk. cbn [negb string_value].
  destruct (Js.keys (Js.delete k (profiles m))); reflexivity.
Qed.

Lemma handleDeleteProfile_unconfirmed (m : Machine) :
  handleDeleteProfile false m = (Returned tt, m).
Proof.
  unfold handleDeleteProfile, bind, readActiveProfileId.
  now destruct (negb (truthy (activeProfileId m))).
Qed.

(** C5: when the active id is set and the user confirms, deleting the only
    profile of the store leaves exactly one profile, a new default one, and
    the active id names it; when profiles remain, the store is the old one
    without the deleted id and the active id is the first remaining id in
    enumeration order.  Without confirmation nothing changes. *)
Theorem delete_leaves_an_active_profile (m : Machine) (k : string) :
  activeProfileId m = Some k ->
  k <> EmptyString ->
  exists m',
    handleDeleteProfile true m = (Returned tt, m')
    /\ (Js.keys (profiles m) = [k] ->
        let fresh :=
          defaultProfile (randomUUID_nth (uuids_drawn m))
            (Date_now_nth (clock_reads m)) in
        profiles m' = [(PsychologicalProfile.id fresh, fresh)]
        /\ activeProfileId m' = Some (PsychologicalProfile.id fresh)
        /\ truthy (activeProfileId m') = true
        /\ Js.get (PsychologicalProfile.id fresh) (profiles m') = Js.Own fresh)
    /\ (forall first rest,
          Js.keys (Js.delete k (profiles m)) = first :: rest ->
          profiles m' = Js.delete k (profiles m)
          /\ activeProfileId m' = Some first
          /\ Js.own k (profiles m') = None
          /\ exists p, Js.get first (profiles m') = Js.Own p)
    /\ handleDeleteProfile false m = (Returned tt, m).
Proof.
  intros Hactive Hk.
  rewrite (handleDeleteProfile_confirmed m k Hactive Hk).
  destruct (Js.keys (Js.delete k (profiles m))) as [|first rest] eqn:Hkeys.
  - rewrite startFresh_run. eexists. split; [reflexivity|]. simpl.
    split; [|split; [discriminate|]].
    + intros _. repeat split.
      * apply randomUUID_truthy.
      * apply JsFacts.get_Own, JsFacts.own_head.
    + apply handleDeleteProfile_unconfirmed.
  - eexists. split; [reflexivity|]. simpl.
    split; [|split; [|apply handleDeleteProfile_unconfirmed]].
    + intros Honly. apply delete_only_key in Honly. rewrite Honly in Hkeys.
      discriminate.
    + intros first' rest' [= <- <-]. repeat split.
      * apply JsFacts.own_delete_same.
      * eapply get_first_key. exact Hkeys.
Qed.

(** C6, as the code has it: when the text stored under the profile-map key
    is not empty and [JSON.parse] rejects it, [loadData] returns and leaves
    a store of exactly one profile, a new default one, with the active id
    naming it. *)
Theorem load_resets_a_malformed_store (m : Machine) (payload : string) :
  Js.own "psycho_profiles_db" (localStorage m) = Some payload ->
  payload <> EmptyString ->
  JSON_parse_profiles payload = None ->
  exists m',
    loadData m = (Returned tt, m')
    /\ let fresh :=
         defaultProfile (randomUUID_nth (uuids_drawn m))
           (Date_now_nth (clock_reads m)) in
       profiles m' = [(PsychologicalProfile.id fresh, fresh)]
       /\ activeProfileId m' = Some (PsychologicalProfile.id fresh)
       /\ truthy (activeProfileId m') = true
       /\ Js.get (PsychologicalProfile.id fresh) (profiles m') = Js.Own fresh
       /\ localStorage m' = localStorage m.
Proof.
  intros Hstored Hne Hbad. apply truthy_Some in Hne.
  unfold loadData, bind, getItem. simpl. rewrite Hstored, Hne.
  unfold happyPath, try_catch, bind, JSON_parse. simpl. rewrite Hbad.
  unfold throw. rewrite startFresh_run. eexists. split; [reflexivity|].
  simpl. repeat split.
  - apply randomUUID_truthy.
  - apply JsFacts.get_Own, JsFacts.own_head.
Qed.

(** Splitting at the spaces and joining with spaces is the identity, so the
    first piece of a name is what stands before its first space and the
    joined rest what stands after it. *)
Lemma split_space_nonempty (s : string) : split_space s <> [].
Proof.
  induction s as [|c s IH]; simpl; [discriminate|].
  destruct (Ascii.eqb c " "%char); [discriminate|].
  destruct (split_space s); discriminate.
Qed.

Lemma concat_cons_char (sep : string) (c : ascii) (piece : string)
    (pieces : list string) :
  String.concat sep (String c piece :: pieces)
  = String c (String.concat sep (piece :: pieces)).
Proof. destruct pieces; reflexivity. Qed.

Lemma join_split_space (s : string) : join " " (split_space s) = s.
Proof.
  unfold join. induction s as [|c s IH]; [reflexivity|].
  pose proof (split_space_nonempty s) as Hne.
  cbn [split_space]. destruct (Ascii.eqb_spec c " "%char) as [->|Hc].
  - rewrite StringFacts.concat_cons by exact Hne. now rewrite IH.
  - destruct (split_space s) as [|piece pieces]; [congruence|].
    rewrite concat_cons_char. now rewrite IH.
Qed.

Lemma split_space_at_first_space (a b : string) :
  no_space a = true ->
  split_space (a ++ " " ++ b) = a :: split_space b.
Proof.
  induction a as [|c a IH]; intros Ha; [reflexivity|].
  cbn [no_space] in Ha. apply andb_true_iff in Ha. destruct Ha as [Hc Ha].
  apply negb_true_iff in Hc. simpl. rewrite Hc.
  change (String " " b) with (" " ++ b)%string. now rewrite IH.
Qed.

Lemma name_before_and_after_first_space (a b : string) :
  no_space a = true ->
  hd_error (split_space (a ++ " " ++ b)) = Some a
  /\ join " " (tl (split_space (a ++ " " ++ b))) = b.
Proof.
  intros Ha. rewrite split_space_at_first_space by exact Ha.
  split; [reflexivity|]. apply join_split_space.
Qed.

(** The migration of a legacy record that parses. *)
Lemma migrationPath_run
    (m : Machine) (legacyText : string) (parsedLegacy : LegacyProfile.t) :
  Js.own "psycho_profile_v3" (localStorage m) = Some legacyText ->
  JSON_parse_legacy legacyText = Some parsedLegacy ->
  migrationPath m =
  (Returned tt,
   mkMachine (Js.delete "psycho_profile_v3" (localStorage m))
     [(randomUUID_nth (uuids_drawn m),
       migratedProfile
         (defaultProfile (randomUUID_nth (S (uuids_drawn m)))
            (Date_now_nth (clock_reads m)))
         parsedLegacy (randomUUID_nth (uuids_drawn m)))]
     (Some (randomUUID_nth (uuids_drawn m)))
     (S (S (uuids_drawn m))) (S (clock_reads m))).
Proof.
  intros Hstored Hparse.
  pose proof (parsed_legacy_truthy _ _ Hparse) as Htext.
  unfold migrationPath, bind, getItem. simpl. rewrite Hstored, Htext.
  unfold try_catch, bind, JSON_parse. simpl. rewrite Hparse. simpl.
  now rewrite JsFacts.set_empty.
Qed.

(** C7: with no text under the profile-map key and, under the legacy key,
    a record with the name "Jane Doe" and neither first nor last name,
    [loadData] returns and leaves a store of exactly one profile, under a
    newly drawn identifier that is also the active id: its first name is
    "Jane", its last name "Doe", its identifier that new one, each other
    field the legacy value where the record has one and the default
    otherwise; the legacy key is gone from the storage and the other keys
    are untouched. *)
Theorem load_migrates_a_legacy_record
    (m : Machine) (legacyText : string) (parsedLegacy : LegacyProfile.t) :
  Js.own "psycho_profiles_db" (localStorage m) = None ->
  Js.own "psycho_profile_v3" (localStorage m) = Some legacyText ->
  JSON_parse_legacy legacyText = Some parsedLegacy ->
  LegacyProfile.name parsedLegacy = Some "Jane Doe" ->
  LegacyProfile.firstName parsedLegacy = None ->
  LegacyProfile.lastName parsedLegacy = None ->
  exists m' migrated,
    loadData m = (Returned tt, m')
    /\ profiles m' = [(PsychologicalProfile.id migrated, migrated)]
    /\ activeProfileId m' = Some (PsychologicalProfile.id migrated)
    /\ PsychologicalProfile.id migrated = randomUUID_nth (uuids_drawn m)
    /\ uuids_drawn m < uuids_drawn m'
    /\ PsychologicalProfile.firstName migrated = "Jane"
    /\ PsychologicalProfile.lastName migrated = "Doe"
    /\ (let defaults :=
          defaultProfile (randomUUID_nth (S (uuids_drawn m)))
            (Date_now_nth (clock_reads m)) in
        PsychologicalProfile.dateOfBirth migrated
        = from_legacy (LegacyProfile.dateOfBirth parsedLegacy)
            (PsychologicalProfile.dateOfBirth defaults)
        /\ PsychologicalProfile.lastUpdated migrated
           = from_legacy (LegacyProfile.lastUpdated parsedLegacy)
               (PsychologicalProfile.lastUpdated defaults)
        /\ PsychologicalProfile.bigFive migrated
           = from_legacy (LegacyProfile.bigFive parsedLegacy)
               (PsychologicalProfile.bigFive defaults)
        /\ PsychologicalProfile.mbti migrated
           = from_legacy (LegacyProfile.mbti parsedLegacy)
               (PsychologicalProfile.mbti defaults)
        /\ PsychologicalProfile.enneagram migrated
           = from_legacy (LegacyProfile.enneagram parsedLegacy)
               (PsychologicalProfile.enneagram defaults)
        /\ PsychologicalProfile.attachmentStyle migrated
           = from_legacy (LegacyProfile.attachmentStyle parsedLegacy)
               (PsychologicalProfile.attachmentStyle defaults)
        /\ PsychologicalProfile.summary migrated
           = from_legacy (LegacyProfile.summary parsedLegacy)
               (PsychologicalProfile.summary defaults)
        /\ PsychologicalProfile.keyTraits migrated
           = from_legacy (LegacyProfile.keyTraits parsedLegacy)
               (PsychologicalProfile.keyTraits defaults)
        /\ PsychologicalProfile.bodyLanguageNotes migrated
           = from_legacy (LegacyProfile.bodyLanguageNotes parsedLegacy)
               (PsychologicalProfile.bodyLanguageNotes defaults)
        /\ PsychologicalProfile.toneVoiceNotes migrated
           = from_legacy (LegacyProfile.toneVoiceNotes parsedLegacy)
               (PsychologicalProfile.toneVoiceNotes defaults)
        /\ PsychologicalProfile.history migrated
           = from_legacy (LegacyProfile.history parsedLegacy)
               (PsychologicalProfile.history defaults))
    /\ Js.own "psycho_profile_v3" (localStorage m') = None
    /\ (forall k, k <> "psycho_profile_v3" ->
        Js.own k (localStorage m') = Js.own k (localStorage m)).
Proof.
  intros Hnone Hstored Hparse Hname Hfirst Hlast.
  unfold loadData, bind, getItem. simpl. rewrite Hnone. simpl.
  rewrite (migrationPath_run m legacyText parsedLegacy Hstored Hparse).
  eexists _,
    (migratedProfile
       (defaultProfile (randomUUID_nth (S (uuids_drawn m)))
          (Date_now_nth (clock_reads m)))
       parsedLegacy (randomUUID_nth (uuids_drawn m))).
  split; [reflexivity|]. simpl.
  rewrite Hname, Hfirst, Hlast.
  repeat split.
  - lia.
  - apply JsFacts.own_delete_same.
  - intros k Hk. now apply JsFacts.own_delete_other.
Qed.

(** C10, as the code has it: when the stored profile map parses to a
    non-empty map whose first id is not the empty string, and the stored
    active id is absent, empty, or reads as undefined in the map (it is
    neither an id of the map nor a name every object inherits), [loadData]
    returns with the parsed map as the store and its first id, in
    enumeration order, as the active id, which names a profile. *)
Theorem load_defaults_to_the_first_profile
    (m : Machine) (text : string) (parsed : Profiles)
    (firstId : string) (rest : list string) :
  Js.own "psycho_profiles_db" (localStorage m) = Some text ->
  JSON_parse_profiles text = Some parsed ->
  Js.keys parsed = firstId :: rest ->
  firstId <> EmptyString ->
  (forall saved,
     Js.own "psycho_active_id" (localStorage m) = Some saved ->
     saved <> EmptyString ->
     Js.get saved parsed = Js.Undefined) ->
  exists m' p,
    loadData m = (Returned tt, m')
    /\ profiles m' = parsed
    /\ activeProfileId m' = Some firstId
    /\ Js.get firstId (profiles m') = Js.Own p.
Proof.
  intros Hstored Hparse Hkeys Hfirst Hsaved.
  pose proof (parsed_profiles_truthy _ _ Hparse) as Htext.
  destruct (get_first_key _ _ _ Hkeys) as [p Hp].
  apply truthy_Some in Hfirst.
  assert (Hrestore :
    restoreActive (Js.own "psycho_active_id" (localStorage m)) parsed
    = setActiveProfileId firstId).
  { unfold restoreActive. rewrite Hkeys. cbn [hd_error]. rewrite Hfirst.
    destruct (Js.own "psycho_active_id" (localStorage m)) as [saved|] eqn:Hs;
      [|reflexivity].
    destruct (truthy (Some saved)) eqn:Ht; [|reflexivity].
    apply truthy_Some in Ht. cbn [string_value].
    rewrite (Hsaved saved eq_refl Ht). reflexivity. }
  unfold loadData, bind, getItem. simpl. rewrite Hstored, Htext.
  unfold happyPath, try_catch, bind, JSON_parse. simpl. rewrite Hparse.
  simpl. rewrite Hrestore. simpl. eexists _, p.
  split; [reflexivity|]. simpl. repeat split. exact Hp.
Qed.

End StoreFacts.

Lemma delete_leaves_an_active_profile_witness :
  activeProfileId Demo.on_only = Some "subject-a"
  /\ "subject-a" <> EmptyString
  /\ activeProfileId Demo.on_alex = Some "subject-a"
  /\ (exists m',
        handleDeleteProfile (platform := Demo.browser) true Demo.on_only
        = (Returned tt, m')
        /\ Js.keys (profiles m') = [Demo.uuid 0]
        /\ activeProfileId m' = Some (Demo.uuid 0))
  /\ (exists m',
        handleDeleteProfile (platform := Demo.browser) true Demo.on_alex
        = (Returned tt, m')
        /\ Js.keys (profiles m') = ["subject-b"]
        /\ activeProfileId m' = Some "subject-b").
Proof.
  assert (Hne : "subject-a" <> EmptyString) by discriminate.
  split; [reflexivity|]. split; [exact Hne|]. split; [reflexivity|]. split.
  - destruct (delete_leaves_an_active_profile (platform := Demo.browser)
                Demo.on_only "subject-a" eq_refl Hne)
      as (m' & Hrun & Hlast & _).
    destruct (Hlast eq_refl) as (Hprofiles & Hactive & _).
    exists m'. split; [exact Hrun|]. rewrite Hprofiles, Hactive.
    split; reflexivity.
  - destruct (delete_leaves_an_active_profile (platform := Demo.browser)
                Demo.on_alex "subject-a" eq_refl Hne)
      as (m' & Hrun & _ & Hremain & _).
    destruct (Hremain "subject-b" [] eq_refl) as (Hprofiles & Hactive & _).
    exists m'. split; [exact Hrun|]. rewrite Hprofiles, Hactive.
    split; reflexivity.
Defined.

(** The empty text under the profile-map key is rejected by [JSON.parse],
    yet [loadData] does not parse it: it takes the key as absent and
    migrates the legacy record, so the one profile of the store is not a
    default one. *)
Lemma load_of_an_empty_text_migrates :
  Js.own "psycho_profiles_db" Demo.blank_db_storage = Some EmptyString
  /\ @JSON_parse_profiles Demo.browser EmptyString = None
  /\ fst (loadData (platform := Demo.browser)
            (mounted Demo.blank_db_storage 0 0))
     = Returned tt
  /\ map (fun kv => (PsychologicalProfile.firstName (snd kv),
                     PsychologicalProfile.lastName (snd kv),
                     PsychologicalProfile.mbti (snd kv)))
       (profiles (snd (loadData (platform := Demo.browser)
                         (mounted Demo.blank_db_storage 0 0))))
     = [("Jane", "Doe", "INFJ")]
  /\ map (fun kv => (PsychologicalProfile.firstName (snd kv),
                     PsychologicalProfile.lastName (snd kv),
                     PsychologicalProfile.mbti (snd kv)))
       [(Demo.uuid 0, defaultProfile (Demo.uuid 0) (Demo.clock 0))]
     = [("New", "Subject", "Unknown")].
Proof. vm_compute. repeat split. Qed.

Lemma load_resets_a_malformed_store_witness :
  Js.own "psycho_profiles_db" (localStorage (mounted Demo.malformed_storage 0 0))
  = Some "{not json"
  /\ "{not json" <> EmptyString
  /\ @JSON_parse_profiles Demo.browser "{not json" = None
  /\ exists m',
       loadData (platform := Demo.browser) (mounted Demo.malformed_storage 0 0)
       = (Returned tt, m')
       /\ profiles m'
          = [(Demo.uuid 0, defaultProfile (Demo.uuid 0) (Demo.clock 0))]
       /\ activeProfileId m' = Some (Demo.uuid 0).
Proof.
  assert (Hne : "{not json" <> EmptyString) by discriminate.
  split; [reflexivity|]. split; [exact Hne|]. split; [reflexivity|].
  destruct (load_resets_a_malformed_store (platform := Demo.browser)
              (mounted Demo.malformed_storage 0 0) "{not json"
              eq_refl Hne eq_refl)
    as (m' & Hrun & Hprofiles & Hactive & _).
  exists m'. split; [exact Hrun|]. split; [exact Hprofiles|exact Hactive].
Defined.

Lemma load_migrates_a_legacy_record_witness :
  Js.own "psycho_profiles_db" (localStorage (mounted Demo.legacy_storage 0 0))
  = None
  /\ Js.own "psycho_profile_v3" (localStorage (mounted Demo.legacy_storage 0 0))
     = Some (Demo.persisted_legacy Demo.jane)
  /\ @JSON_parse_legacy Demo.browser (Demo.persisted_legacy Demo.jane)
     = Some Demo.jane
  /\ LegacyProfile.name Demo.jane = Some "Jane Doe"
  /\ LegacyProfile.firstName Demo.jane = None
  /\ LegacyProfile.lastName Demo.jane = None
  /\ exists m' migrated,
       loadData (platform := Demo.browser) (mounted Demo.legacy_storage 0 0)
       = (Returned tt, m')
       /\ profiles m' = [(Demo.uuid 0, migrated)]
       /\ PsychologicalProfile.firstName migrated = "Jane"
       /\ PsychologicalProfile.lastName migrated = "Doe"
       /\ PsychologicalProfile.mbti migrated = "INFJ"
       /\ PsychologicalProfile.enneagram migrated = "Unknown"
       /\ localStorage m' = [].
Proof.
  assert (Hparse :
    @JSON_parse_legacy Demo.browser (Demo.persisted_legacy Demo.jane)
    = Some Demo.jane) by (vm_compute; reflexivity).
  repeat (split; [first [reflexivity | exact Hparse]|]).
  destruct (load_migrates_a_legacy_record (platform := Demo.browser)
              (mounted Demo.legacy_storage 0 0)
              (Demo.persisted_legacy Demo.jane) Demo.jane
              eq_refl eq_refl Hparse eq_refl eq_refl eq_refl)
    as (m' & migrated & Hrun & Hprofiles & _ & Hid & _ & Hfirst & Hlast
        & (_ & _ & _ & Hmbti & Henneagram & _) & _).
  exists m', migrated. split; [exact Hrun|].
  split; [now rewrite Hprofiles, Hid|].
  split; [exact Hfirst|]. split; [exact Hlast|].
  split; [exact Hmbti|]. split; [exact Henneagram|].
  assert (Hm : m' = snd (loadData (platform := Demo.browser)
                           (mounted Demo.legacy_storage 0 0)))
    by now rewrite Hrun.
  rewrite Hm. vm_compute. reflexivity.
Defined.

(** Two loads of a stored map that parses and is not empty.  With no
    stored active id and a first id that is the empty string, [loadData]
    sets no active id.  With a stored active id that is no id of the map
    but a name every object inherits, [loadData] keeps that name as the
    active id. *)
Lemma load_does_not_always_default_to_the_first_id :
  (Js.own "psycho_profiles_db" Demo.blank_key_storage
   = Some (Demo.persisted Demo.blank_key_first)
   /\ @JSON_parse_profiles Demo.browser (Demo.persisted Demo.blank_key_first)
      = Some Demo.blank_key_first
   /\ Js.keys Demo.blank_key_first = [EmptyString; "subject-b"]
   /\ Js.own "psycho_active_id" Demo.blank_key_storage = None
   /\ loadData (platform := Demo.browser) (mounted Demo.blank_key_storage 0 0)
      = (Returned tt,
         mkMachine Demo.blank_key_storage Demo.blank_key_first None 0 0))
  /\ (Js.own "psycho_profiles_db" Demo.inherited_name_storage
      = Some (Demo.persisted Demo.two_subjects)
      /\ @JSON_parse_profiles Demo.browser (Demo.persisted Demo.two_subjects)
         = Some Demo.two_subjects
      /\ Js.keys Demo.two_subjects = ["subject-a"; "subject-b"]
      /\ Js.own "psycho_active_id" Demo.inherited_name_storage
         = Some "constructor"
      /\ Js.own "constructor" Demo.two_subjects = None
      /\ loadData (platform := Demo.browser)
           (mounted Demo.inherited_name_storage 0 0)
         = (Returned tt,
            mkMachine Demo.inherited_name_storage Demo.two_subjects
              (Some "constructor") 0 0)).
Proof. vm_compute. repeat split. Qed.

Lemma load_defaults_to_the_first_profile_witness :
  Js.own "psycho_profiles_db" (localStorage (mounted Demo.stale_id_storage 0 0))
  = Some (Demo.persisted Demo.two_subjects)
  /\ @JSON_parse_profiles Demo.browser (Demo.persisted Demo.two_subjects)
     = Some Demo.two_subjects
  /\ Js.keys Demo.two_subjects = ["subject-a"; "subject-b"]
  /\ "subject-a" <> EmptyString
  /\ Js.own "psycho_active_id" (localStorage (mounted Demo.stale_id_storage 0 0))
     = Some "subject-z"
  /\ Js.get "subject-z" Demo.two_subjects = Js.Undefined
  /\ exists m' p,
       loadData (platform := Demo.browser) (mounted Demo.stale_id_storage 0 0)
       = (Returned tt, m')
       /\ activeProfileId m' = Some "subject-a"
       /\ Js.get "subject-a" (profiles m') = Js.Own p.
Proof.
  assert (Hparse :
    @JSON_parse_profiles Demo.browser (Demo.persisted Demo.two_subjects)
    = Some Demo.two_subjects) by (vm_compute; reflexivity).
  assert (Hne : "subject-a" <> EmptyString) by discriminate.
  repeat (split; [first [reflexivity | exact Hparse | exact Hne]|]).
  destruct (load_defaults_to_the_first_profile (platform := Demo.browser)
              (mounted Demo.stale_id_storage 0 0)
              (Demo.persisted Demo.two_subjects) Demo.two_subjects
              "subject-a" ["subject-b"] eq_refl Hparse eq_refl Hne)
    as (m' & p & Hrun & _ & Hactive & Hget).
  - intros saved [= <-] _. reflexivity.
  - exists m', p. split; [exact Hrun|]. split; [exact Hactive|exact Hget].
Defined.

(** ** Export *)

Section ExportFacts.

Context {platform : Platform}.

Lemma appears_in_line (sep x : string) (l : list string) (n : nat) :
  n < length l ->
  appears_in x (nth n l EmptyString) ->
  appears_in x (String.concat sep l).
Proof.
  intros Hn Hx. apply StringFacts.appears_in_concat with (y := nth n l EmptyString);
    [now apply nth_In|exact Hx].
Qed.

Lemma appears_in_or_unknown (dob : string) : appears_in dob (or_unknown dob).
Proof.
  unfold or_unknown. destruct (truthy (Some dob)) eqn:Ht.
  - apply StringFacts.appears_in_refl.
  - unfold truthy in Ht. apply negb_false_iff, String.eqb_eq in Ht.
    rewrite Ht. apply StringFacts.appears_in_empty.
Qed.

Lemma textReportLines_length (p : Profile) : length (textReportLines p) = 41.
Proof. reflexivity. Qed.

Lemma htmlReportLines_length (now : Z) (p : Profile) :
  length (htmlReportLines now p) = 63.
Proof. reflexivity. Qed.

(** The JSON export: the members of the top-level object, one per field. *)
Lemma json_export_members (p : Profile) :
  Json.stringify "  " (profile_to_json p)
  = ("{" ++ nl ++ "  "
     ++ String.concat ("," ++ nl ++ "  ")
          (map (fun f =>
                  Json.quote (Field.name f) ++ ": "
                  ++ Json.serialize "  " "  " (Field.value f p))
             Field.all)
     ++ nl ++ "}")%string.
Proof. reflexivity. Qed.

(** An occurrence in one of the lines 3 to 35 of the text template, and an
    occurrence in its history line before a character that is not white
    space, survive the [trim]. *)
Lemma text_body_occurrence (p : Profile) (x : string) :
  appears_in x (String.concat nl (firstn 33 (skipn 3 (textReportLines p)))) ->
  appears_in x (generateTextReport p).
Proof.
  intros Hx. unfold generateTextReport, join. apply StringFacts.trim_inside.
  rewrite (StringFacts.concat_split nl 3 (textReportLines p))
    by (rewrite textReportLines_length; lia).
  rewrite (StringFacts.concat_split nl 33 (skipn 3 (textReportLines p)))
    by (rewrite length_skipn, textReportLines_length; lia).
  rewrite <- (StringFacts.append_assoc _ nl).
  apply StringFacts.inside_between; [reflexivity|reflexivity|exact Hx].
Qed.

Lemma text_history_occurrence (p : Profile) (x : string) :
  followed x (nth 39 (textReportLines p) EmptyString) ->
  appears_in x (generateTextReport p).
Proof.
  intros Hx. unfold generateTextReport, join. apply StringFacts.trim_inside.
  rewrite (StringFacts.concat_split nl 39 (textReportLines p))
    by (rewrite textReportLines_length; lia).
  rewrite <- (StringFacts.append_assoc _ nl).
  change (String.concat nl (skipn 39 (textReportLines p)))
    with (nth 39 (textReportLines p) EmptyString ++ nl ++ "    ")%string.
  apply StringFacts.inside_followed; [reflexivity|exact Hx].
Qed.

Lemma handleExport_content (m : Machine) (p : Profile) :
  (exists d m',
     handleExport json p m = (Returned d, m')
     /\ content d = Json.stringify "  " (profile_to_json p))
  /\ (exists d m',
        handleExport txt p m = (Returned d, m')
        /\ content d = generateTextReport p)
  /\ (exists d m',
        handleExport doc p m = (Returned d, m')
        /\ content d
           = generateHTMLReport (Date_now_nth (S (clock_reads m))) p).
Proof.
  unfold handleExport, bind, Date_now, ret. simpl.
  repeat split; eexists _, _; split; reflexivity.
Qed.

(** An occurrence of [x] in a chain of appends, where it stands as one of
    the pieces, as the argument of [or_unknown], or as an element of a
    joined list. *)
Ltac piece :=
  first
    [ apply StringFacts.appears_in_refl
    | apply appears_in_or_unknown
    | eapply StringFacts.appears_in_concat_map;
      [ eassumption
      | unfold bullet, tag, li, htmlHistoryItem;
        repeat first [ apply StringFacts.appears_in_refl
                     | apply StringFacts.appears_in_here
                     | apply StringFacts.appears_in_app_l ] ] ].

Ltac occurs :=
  first
    [ piece
    | apply StringFacts.appears_in_app_r; piece
    | apply StringFacts.appears_in_app_l; occurs ].

Ltac in_line n :=
  apply (appears_in_line _ _ _ n);
  [ apply Nat.ltb_lt; reflexivity
  | cbn [nth firstn skipn textReportLines htmlReportLines]; occurs ].

Ltac find_line n bound :=
  let stop := eval cbv in (Nat.eqb n bound) in
  lazymatch stop with
  | true => fail "no line holds the text"
  | false => first [ solve [in_line n] | find_line constr:(S n) bound ]
  end.

Ltac in_text_body :=
  apply text_body_occurrence; find_line constr:(0) constr:(33).
Ltac in_html :=
  unfold generateHTMLReport, join; find_line constr:(0) constr:(63).

Ltac follows :=
  first
    [ apply StringFacts.followed_here; reflexivity
    | apply StringFacts.followed_app_l; follows ].

Ltac each tac :=
  lazymatch goal with
  | |- Forall _ [] => apply Forall_nil
  | |- Forall _ (_ :: _) => apply Forall_cons; [tac|each tac]
  end.

Lemma text_report_shows (p : Profile) :
  Forall (fun f =>
            appears (shown_to_reader (Some 100) f p) (generateTextReport p))
    [ Field.firstName; Field.lastName; Field.dateOfBirth; Field.lastUpdated;
      Field.bigFive; Field.mbti; Field.enneagram; Field.attachmentStyle;
      Field.summary; Field.keyTraits; Field.bodyLanguageNotes;
      Field.toneVoiceNotes; Field.history ].
Proof.
  apply Forall_forall. intros f Hf. unfold appears.
  cbn [In] in Hf.
  repeat (destruct Hf as [<-|Hf]; [cbn [shown_to_reader scores map]|]);
    [..|contradiction].
  1-9: each in_text_body.
  - apply Forall_forall. intros t Hin. in_text_body.
  - apply Forall_forall. intros t Hin.
    apply text_body_occurrence.
    destruct (PsychologicalProfile.bodyLanguageNotes p) as [|n0 notes] eqn:E;
      [contradiction|].
    apply (appears_in_line _ _ _ 29); [apply Nat.ltb_lt; reflexivity|].
    cbn [nth firstn skipn textReportLines]. rewrite E. piece.
  - apply Forall_forall. intros t Hin.
    apply text_body_occurrence.
    destruct (PsychologicalProfile.toneVoiceNotes p) as [|n0 notes] eqn:E;
      [contradiction|].
    apply (appears_in_line _ _ _ 32); [apply Nat.ltb_lt; reflexivity|].
    cbn [nth firstn skipn textReportLines]. rewrite E. piece.
  - apply Forall_forall. intros x Hx.
    apply in_flat_map in Hx. destruct Hx as (h & Hh & Hx).
    apply in_rev in Hh. apply text_history_occurrence.
    cbn [nth textReportLines]. unfold join.
    eapply StringFacts.followed_concat_map; [exact Hh|].
    unfold textHistoryLine.
    destruct Hx as [<-|[<-|[<-|[]]]]; follows.
Qed.

Lemma html_report_shows (now : Z) (p : Profile) :
  Forall (fun f => appears (shown doc f p) (generateHTMLReport now p))
    [ Field.firstName; Field.lastName; Field.dateOfBirth; Field.bigFive;
      Field.mbti; Field.enneagram; Field.attachmentStyle; Field.summary;
      Field.keyTraits; Field.bodyLanguageNotes; Field.toneVoiceNotes;
      Field.history ].
Proof.
  apply Forall_forall. intros f Hf. unfold appears.
  cbn [In] in Hf.
  repeat (destruct Hf as [<-|Hf]; [cbn [shown shown_to_reader scores map]|]);
    [..|contradiction].
  1-8: each in_html.
  - apply Forall_forall. intros t Hin. in_html.
  - apply Forall_forall. intros t Hin.
    unfold generateHTMLReport, join.
    destruct (PsychologicalProfile.bodyLanguageNotes p) as [|n0 notes] eqn:E;
      [contradiction|].
    apply (appears_in_line _ _ _ 51); [apply Nat.ltb_lt; reflexivity|].
    cbn [nth htmlReportLines]. rewrite E. occurs.
  - apply Forall_forall. intros t Hin.
    unfold generateHTMLReport, join.
    destruct (PsychologicalProfile.toneVoiceNotes p) as [|n0 notes] eqn:E;
      [contradiction|].
    apply (appears_in_line _ _ _ 54); [apply Nat.ltb_lt; reflexivity|].
    cbn [nth htmlReportLines]. rewrite E. occurs.
  - apply Forall_forall. intros x Hx.
    apply in_flat_map in Hx. destruct Hx as (h & Hh & Hx).
    apply in_rev in Hh.
    unfold generateHTMLReport, join.
    apply (appears_in_line _ _ _ 58); [apply Nat.ltb_lt; reflexivity|].
    cbn [nth htmlReportLines]. unfold join.
    apply StringFacts.appears_in_app_l.
    eapply StringFacts.appears_in_concat_map; [exact Hh|].
    unfold htmlHistoryItem.
    destruct Hx as [<-|[<-|[<-|[]]]];
      repeat first [ apply StringFacts.appears_in_refl
                   | apply StringFacts.appears_in_here
                   | apply StringFacts.appears_in_app_l ].
Qed.

Lemma json_export_shows (p : Profile) :
  Forall (fun f =>
            appears (shown json f p) (Json.stringify "  " (profile_to_json p)))
    Field.all.
Proof.
  apply Forall_forall. intros f Hf. unfold appears, shown.
  apply Forall_cons; [|apply Forall_nil].
  rewrite json_export_members.
  do 3 apply StringFacts.appears_in_app_l. apply StringFacts.appears_in_app_r.
  apply (StringFacts.appears_in_concat_map _ _
           (fun f => Json.quote (Field.name f) ++ ": "
                     ++ Json.serialize "  " "  " (Field.value f p))%string
           f Field.all Hf).
  apply StringFacts.appears_in_refl.
Qed.

Lemma appearsb_spec (texts : list string) (report : string) :
  appearsb texts report = true <-> appears texts report.
Proof.
  unfold appearsb, appears. rewrite forallb_forall, Forall_forall.
  split; intros H x Hx; apply StringFacts.infixb_spec; auto.
Qed.

(** C2, as the code has it: the JSON export has a member for each of the
    fourteen fields of the profile; the plain-text report prints every
    field but [id], with the summary of a history entry cut to its first
    100 code units; the HTML report prints every field but [id] and
    [lastUpdated], with the history summaries whole.  Of a history entry
    the two reports print the day, the media type and the summary. *)
Theorem exports_show_the_fields_they_print (p : Profile) (m : Machine) :
  (exists d m',
     handleExport json p m = (Returned d, m')
     /\ Forall (fun f => appears (shown json f p) (content d)) Field.all)
  /\ (exists d m',
        handleExport txt p m = (Returned d, m')
        /\ Forall (fun f =>
                     appears (shown_to_reader (Some 100) f p) (content d))
             [ Field.firstName; Field.lastName; Field.dateOfBirth;
               Field.lastUpdated; Field.bigFive; Field.mbti; Field.enneagram;
               Field.attachmentStyle; Field.summary; Field.keyTraits;
               Field.bodyLanguageNotes; Field.toneVoiceNotes; Field.history ])
  /\ (exists d m',
        handleExport doc p m = (Returned d, m')
        /\ Forall (fun f => appears (shown doc f p) (content d))
             [ Field.firstName; Field.lastName; Field.dateOfBirth;
               Field.bigFive; Field.mbti; Field.enneagram;
               Field.attachmentStyle; Field.summary; Field.keyTraits;
               Field.bodyLanguageNotes; Field.toneVoiceNotes; Field.history ]).
Proof.
  destruct (handleExport_content m p)
    as ((dj & mj & Hj & Hcj) & (dt & mt & Ht & Hct) & (dd & md & Hd & Hcd)).
  split; [|split].
  - exists dj, mj. split; [exact Hj|]. rewrite Hcj. apply json_export_shows.
  - exists dt, mt. split; [exact Ht|]. rewrite Hct. apply text_report_shows.
  - exists dd, md. split; [exact Hd|]. rewrite Hcd. apply html_report_shows.
Qed.

End ExportFacts.

(** The identifier of a profile is in neither report, the time of its last
    update is not in the HTML report, and a history summary of more than
    100 code units is not whole in the text report. *)
Lemma reports_leave_fields_out :
  ~ appears (shown (platform := Demo.browser) txt Field.id Demo.filed)
      (generateTextReport (platform := Demo.browser) Demo.filed)
  /\ ~ appears (shown (platform := Demo.browser) txt Field.history Demo.filed)
        (generateTextReport (platform := Demo.browser) Demo.filed)
  /\ ~ appears (shown (platform := Demo.browser) doc Field.id Demo.filed)
        (generateHTMLReport (platform := Demo.browser) (Demo.clock 1)
           Demo.filed)
  /\ ~ appears
        (shown (platform := Demo.browser) doc Field.lastUpdated Demo.filed)
        (generateHTMLReport (platform := Demo.browser) (Demo.clock 1)
           Demo.filed).
Proof.
  repeat split; intros H; apply appearsb_spec in H; vm_compute in H;
    discriminate H.
Qed.

(** * More properties *)

(** ** Loading *)

Section LoadFacts.

Context {platform : Platform}.

Lemma loadData_dispatch (m : Machine) :
  loadData m =
  if truthy (Js.own "psycho_profiles_db" (localStorage m))
  then happyPath (string_value (Js.own "psycho_profiles_db" (localStorage m)))
         (Js.own "psycho_active_id" (localStorage m)) m
  else migrationPath m.
Proof.
  unfold loadData, bind, getItem.
  now destruct (truthy (Js.own "psycho_profiles_db" (localStorage m))).
Qed.

Lemma happyPath_parsed (text : string) (saved : option string)
    (parsed : Profiles) (m : Machine) :
  JSON_parse_profiles text = Some parsed ->
  happyPath text saved m =
  restoreActive saved parsed
    (mkMachine (localStorage m) parsed (activeProfileId m) (uuids_drawn m)
       (clock_reads m)).
Proof.
  intros Hparse. unfold happyPath, try_catch, bind, JSON_parse.
  rewrite Hparse. simpl.
  destruct (restoreActive saved parsed _) as [[u|e] m'] eqn:Hr; [reflexivity|].
  exfalso. unfold restoreActive in Hr.
  destruct (truthy saved && _); [discriminate Hr|].
  destruct (hd_error (Js.keys parsed)) as [firstId|]; [|discriminate Hr].
  destruct (truthy (Some firstId)); discriminate Hr.
Qed.

Lemma happyPath_malformed (text : string) (saved : option string) (m : Machine) :
  JSON_parse_profiles text = None -> happyPath text saved m = startFresh m.
Proof.
  intros Hparse. unfold happyPath, try_catch, bind, JSON_parse.
  now rewrite Hparse.
Qed.

(** [restoreActive] writes the active id at most. *)
Lemma restoreActive_run (saved : option string) (parsed : Profiles) (m : Machine) :
  exists a,
    restoreActive saved parsed m
    = (Returned tt,
       mkMachine (localStorage m) (profiles m) a (uuids_drawn m) (clock_reads m)).
Proof.
  unfold restoreActive.
  destruct (truthy saved && _); [eexists; reflexivity|].
  destruct (hd_error (Js.keys parsed)) as [firstId|].
  - destruct (truthy (Some firstId)); [eexists; reflexivity|].
    exists (activeProfileId m). now destruct m.
  - exists (activeProfileId m). now destruct m.
Qed.

Lemma migrationPath_fresh (m : Machine) :
  (forall text,
     Js.own "psycho_profile_v3" (localStorage m) = Some text ->
     JSON_parse_legacy text = None) ->
  migrationPath m = startFresh m.
Proof.
  intros Hbad. unfold migrationPath, bind, getItem. simpl.
  destruct (Js.own "psycho_profile_v3" (localStorage m)) as [text|] eqn:Hs;
    [|reflexivity].
  destruct (truthy (Some text)); [|reflexivity].
  unfold try_catch, bind, JSON_parse. simpl. now rewrite (Hbad text eq_refl).
Qed.

Lemma migrationPath_returns (m : Machine) :
  exists m',
    migrationPath m = (Returned tt, m')
    /\ profiles m' <> []
    /\ (localStorage m' = localStorage m
        \/ localStorage m' = Js.delete "psycho_profile_v3" (localStorage m)).
Proof.
  destruct (Js.own "psycho_profile_v3" (localStorage m)) as [text|] eqn:Hs.
  - destruct (JSON_parse_legacy text) as [parsedLegacy|] eqn:Hparse.
    + rewrite (migrationPath_run m text parsedLegacy Hs Hparse).
      eexists. split; [reflexivity|]. simpl. split; [discriminate|now right].
    + rewrite migrationPath_fresh, startFresh_run.
      * eexists. split; [reflexivity|]. simpl. split; [discriminate|now left].
      * intros text' Ht. congruence.
  - rewrite migrationPath_fresh, startFresh_run.
    + eexists. split; [reflexivity|]. simpl. split; [discriminate|now left].
    + intros text' Ht. congruence.
Qed.

(** X1: [loadData] returns whatever the storage holds; of the storage it
    changes nothing but the legacy key, which it may remove; and the store
    it leaves has no profile only if the stored map parsed to a map
    without profiles. *)
Theorem load_always_returns (m : Machine) :
  exists m',
    loadData m = (Returned tt, m')
    /\ (localStorage m' = localStorage m
        \/ localStorage m' = Js.delete "psycho_profile_v3" (localStorage m))
    /\ (profiles m' = [] ->
        exists text,
          Js.own "psycho_profiles_db" (localStorage m) = Some text
          /\ JSON_parse_profiles text = Some []).
Proof.
  rewrite loadData_dispatch.
  destruct (truthy (Js.own "psycho_profiles_db" (localStorage m))) eqn:Ht.
  - apply truthy_string_value in Ht. destruct Ht as [Hs _].
    set (text := string_value (Js.own "psycho_profiles_db" (localStorage m)))
      in *.
    destruct (JSON_parse_profiles text) as [parsed|] eqn:Hparse.
    + rewrite (happyPath_parsed _ _ _ _ Hparse).
      destruct (restoreActive_run
                  (Js.own "psycho_active_id" (localStorage m)) parsed
                  (mkMachine (localStorage m) parsed (activeProfileId m)
                     (uuids_drawn m) (clock_reads m))) as [a Hr].
      rewrite Hr. eexists. split; [reflexivity|]. simpl.
      split; [now left|]. intros ->. eauto.
    + rewrite (happyPath_malformed _ _ _ Hparse), startFresh_run.
      eexists. split; [reflexivity|]. simpl. split; [now left|discriminate].
  - destruct (migrationPath_returns m) as (m' & Hrun & Hne & Hstorage).
    exists m'. split; [exact Hrun|]. split; [exact Hstorage|].
    intros Hempty. contradiction.
Qed.

(** X2: With no text under the profile-map key (or the empty text) and no
    legacy record that parses (none, the empty text, or a malformed one),
    [loadData] leaves exactly one profile, a new default one, as the
    active one, and leaves the storage as it is: a malformed legacy record
    stays there. *)
Theorem load_starts_fresh_without_a_usable_record (m : Machine) :
  truthy (Js.own "psycho_profiles_db" (localStorage m)) = false ->
  (forall text,
     Js.own "psycho_profile_v3" (localStorage m) = Some text ->
     JSON_parse_legacy text = None) ->
  exists m',
    loadData m = (Returned tt, m')
    /\ (let fresh :=
          defaultProfile (randomUUID_nth (uuids_drawn m))
            (Date_now_nth (clock_reads m)) in
        profiles m' = [(PsychologicalProfile.id fresh, fresh)]
        /\ activeProfileId m' = Some (PsychologicalProfile.id fresh))
    /\ localStorage m' = localStorage m.
Proof.
  intros Hdb Hlegacy. rewrite loadData_dispatch, Hdb.
  rewrite (migrationPath_fresh m Hlegacy), startFresh_run.
  eexists. split; [reflexivity|]. simpl. auto.
Qed.

End LoadFacts.

(** ** Sessions *)

Module JsMore.

Section Facts.

Context {A : Type}.
Implicit Types (o : Js.Obj A) (k : string) (v : A).

Lemma own_In k v o : Js.own k o = Some v -> In (k, v) o.
Proof.
  induction o as [|[k0 v0] o IH]; simpl; [discriminate|].
  destruct (String.eqb_spec k k0) as [->|Hne].
  - intros [= ->]. now left.
  - intros H. right. auto.
Qed.

Lemma In_own k v o : In (k, v) o -> exists v', Js.own k o = Some v'.
Proof.
  induction o as [|[k0 v0] o IH]; simpl; [contradiction|].
  destruct (String.eqb_spec k k0) as [->|Hne]; [eauto|].
  intros [[= -> ->]|Hin]; [congruence|auto].
Qed.

Lemma In_replace k v o kv :
  In kv (Js.replace k v o) -> kv = (k, v) \/ In kv o.
Proof.
  induction o as [|[k0 v0] o IH]; simpl; [tauto|].
  destruct (String.eqb_spec k k0) as [->|Hne]; simpl.
  - intros [<-|Hin]; auto.
  - intros [<-|Hin]; auto. destruct (IH Hin); auto.
Qed.

Lemma In_insert_index n k v o kv :
  In kv (Js.insert_index n k v o) -> kv = (k, v) \/ In kv o.
Proof.
  induction o as [|[k0 v0] o IH]; simpl.
  - intros [<-|[]]. auto.
  - destruct (Js.array_index k0) as [n0|].
    + destruct (n0 <? n)%N; simpl.
      * intros [<-|Hin]; auto. destruct (IH Hin); auto.
      * intros [<-|[<-|Hin]]; auto.
    + simpl. intros [<-|[<-|Hin]]; auto.
Qed.

Lemma In_set k v o kv : In kv (Js.set k v o) -> kv = (k, v) \/ In kv o.
Proof.
  unfold Js.set. destruct (Js.own k o).
  - apply In_replace.
  - destruct (Js.array_index k).
    + apply In_insert_index.
    + intros Hin. apply in_app_or in Hin. destruct Hin as [Hin|[<-|[]]]; auto.
Qed.

Lemma In_delete k o kv : In kv (Js.delete k o) -> In kv o.
Proof. unfold Js.delete. intros Hin. now apply filter_In in Hin. Qed.

Lemma delete_absent k o : Js.own k o = None -> Js.delete k o = o.
Proof.
  induction o as [|[k0 v0] o IH]; simpl; [reflexivity|].
  destruct (String.eqb_spec k k0) as [->|Hne]; [discriminate|].
  intros H. simpl. now rewrite IH.
Qed.

Lemma delete_app k o o' :
  Js.delete k (o ++ o') = Js.delete k o ++ Js.delete k o'.
Proof. unfold Js.delete. apply filter_app. Qed.

Lemma set_same_value k v o : Js.own k o = Some v -> Js.set k v o = o.
Proof.
  intros Hown. unfold Js.set. rewrite Hown.
  induction o as [|[k0 v0] o IH]; simpl in *; [reflexivity|].
  destruct (String.eqb_spec k k0) as [->|Hne].
  - now injection Hown as ->.
  - now rewrite IH.
Qed.

End Facts.

(** An array index has at most ten digits. *)
Lemma digits_value_lower (s : string) (acc n : N) :
  Js.digits_value s acc = Some n -> (acc * 10 ^ N.of_nat (String.length s) <= n)%N.
Proof.
  revert acc. induction s as [|c s IH]; intros acc; cbn [Js.digits_value].
  - intros [= ->]. simpl. lia.
  - destruct (Js.digit c) as [d|]; [|discriminate]. intros H.
    apply IH in H.
    change (String.length (String c s)) with (S (String.length s)).
    rewrite Nat2N.inj_succ, N.pow_succ_r'. nia.
Qed.

Lemma array_index_length (k : string) (n : N) :
  Js.array_index k = Some n -> String.length k <= 10.
Proof.
  unfold Js.array_index. destruct k as [|c rest]; [discriminate|].
  destruct (Ascii.eqb c "0" && negb (rest =? EmptyString)%string) eqn:Hzero;
    [discriminate|].
  destruct (Js.digits_value (String c rest) 0) as [v|] eqn:Hv; [|discriminate].
  destruct (v <? 4294967295)%N eqn:Hlt; [|discriminate]. intros _.
  apply N.ltb_lt in Hlt. simpl in Hv.
  destruct (Js.digit c) as [d|] eqn:Hd; [|discriminate].
  destruct rest as [|c' rest']; [simpl; lia|].
  assert (Hd1 : (1 <= d)%N).
  { simpl in Hzero. rewrite andb_true_r in Hzero. unfold Js.digit in Hd.
    destruct ((48 <=? N_of_ascii c)%N && (N_of_ascii c <=? 57)%N) eqn:Hr;
      [|discriminate].
    injection Hd as <-. apply andb_true_iff in Hr. destruct Hr as [Hlo _].
    apply N.leb_le in Hlo.
    assert (N_of_ascii c <> 48%N).
    { intros H48. apply Ascii.eqb_neq in Hzero. apply Hzero.
      rewrite <- (ascii_N_embedding c), H48. reflexivity. }
    lia. }
  apply digits_value_lower in Hv.
  destruct (Nat.le_gt_cases (String.length (String c (String c' rest'))) 10)
    as [Hle|Hgt]; [exact Hle|exfalso].
  assert (Hpow : (10 ^ 10 <= 10 ^ N.of_nat (String.length (String c' rest')))%N).
  { apply N.pow_le_mono_r; [lia|]. simpl in Hgt |- *. lia. }
  change (10 ^ 10)%N with 10000000000%N in Hpow. nia.
Qed.

End JsMore.

Section SessionFacts.

Context {platform : Platform}.

Lemma randomUUID_nonempty (n : nat) : randomUUID_nth n <> EmptyString.
Proof. apply truthy_Some, randomUUID_truthy. Qed.

Lemma randomUUID_not_index (n : nat) : Js.array_index (randomUUID_nth n) = None.
Proof.
  destruct (Js.array_index (randomUUID_nth n)) as [i|] eqn:Hi; [|reflexivity].
  apply JsMore.array_index_length in Hi. rewrite randomUUID_length in Hi. lia.
Qed.

Lemma handleCreateProfile_run (m : Machine) :
  handleCreateProfile m =
  (Returned tt,
   mkMachine (localStorage m)
     (Js.set (randomUUID_nth (uuids_drawn m))
        (defaultProfile (randomUUID_nth (uuids_drawn m))
           (Date_now_nth (clock_reads m)))
        (profiles m))
     (Some (randomUUID_nth (uuids_drawn m)))
     (S (uuids_drawn m)) (S (clock_reads m))).
Proof. reflexivity. Qed.

(** X3: [handleCreateProfile] puts a new default profile in the store under a
    new identifier and makes it the active one; every other id reads as
    before; when the identifier is not yet an id of the store, the new
    profile is the last one of the store, after the old ones in their
    order; the storage is not touched. *)
Theorem create_adds_a_default_profile (m : Machine) :
  exists m',
    handleCreateProfile m = (Returned tt, m')
    /\ (let id := randomUUID_nth (uuids_drawn m) in
        let fresh := defaultProfile id (Date_now_nth (clock_reads m)) in
        activeProfileId m' = Some id
        /\ id <> EmptyString
        /\ Js.get id (profiles m') = Js.Own fresh
        /\ (forall k, k <> id -> Js.get k (profiles m') = Js.get k (profiles m))
        /\ (Js.own id (profiles m) = None ->
            profiles m' = profiles m ++ [(id, fresh)]))
    /\ localStorage m' = localStorage m.
Proof.
  rewrite handleCreateProfile_run. eexists. split; [reflexivity|]. simpl.
  split; [|reflexivity]. split; [reflexivity|].
  split; [apply randomUUID_nonempty|].
  split; [apply JsFacts.get_set_same|].
  split; [intros k Hk; now apply JsFacts.get_set_other|].
  intros Hnew. unfold Js.set. now rewrite Hnew, randomUUID_not_index.
Qed.

(** *** The store stays keyed by the ids of its profiles *)

Lemma keyed_set (k : string) (p : Profile) (ps : Profiles) :
  keyed ps -> k <> EmptyString -> PsychologicalProfile.id p = k ->
  keyed (Js.set k p ps).
Proof.
  intros Hps Hk Hid k' p' Hin. apply JsMore.In_set in Hin.
  destruct Hin as [[= -> ->]|Hin]; [auto|now apply Hps].
Qed.

Lemma keyed_delete (k : string) (ps : Profiles) :
  keyed ps -> keyed (Js.delete k ps).
Proof. intros Hps k' p' Hin. apply Hps. now apply JsMore.In_delete in Hin. Qed.

Lemma keyed_one (k : string) (p : Profile) :
  k <> EmptyString -> PsychologicalProfile.id p = k -> keyed [(k, p)].
Proof. intros Hk Hid k' p' [[= <- <-]|[]]. auto. Qed.

Lemma keyed_first (ps : Profiles) (first : string) (rest : list string) :
  keyed ps -> Js.keys ps = first :: rest ->
  first <> EmptyString /\ exists p, Js.own first ps = Some p.
Proof.
  intros Hps Hkeys. destruct ps as [|[k p] ps]; [discriminate|].
  injection Hkeys as -> _. split.
  - apply (Hps first p). now left.
  - exists p. apply JsFacts.own_head.
Qed.

Lemma consistent_fresh (storage : list (string * string)) (n c u t : nat) :
  consistent
    (mkMachine storage
       [(randomUUID_nth n, defaultProfile (randomUUID_nth n) (Date_now_nth c))]
       (Some (randomUUID_nth n)) u t).
Proof.
  split.
  - apply keyed_one; [apply randomUUID_nonempty|reflexivity].
  - exists (randomUUID_nth n), (defaultProfile (randomUUID_nth n) (Date_now_nth c)).
    simpl. rewrite String.eqb_refl. split; [reflexivity|].
    split; [apply randomUUID_nonempty|reflexivity].
Qed.

(** The handler on a store whose active id names a profile: nothing
    happens (no file, or no reply), or the profile is merged. *)
Lemma handleAnalysis_cases (m : Machine) files type reply current :
  Js.get (Js.key_of (activeProfileId m)) (profiles m) = Js.Own current ->
  handleAnalysis files type reply m = (Returned tt, m)
  \/ exists result label,
       files <> [] /\ reply = Some result /\ fileName files = Some label
       /\ handleAnalysis files type reply m
          = (Returned tt,
             mkMachine (localStorage m)
               (Js.set (Js.key_of (activeProfileId m))
                  (merge_on m type result current label) (profiles m))
               (activeProfileId m) (S (uuids_drawn m))
               (S (S (clock_reads m)))).
Proof.
  intros Hown. destruct files as [|f rest]; [now left|].
  destruct reply as [result|]; [|now left]. right.
  assert (Hne : f :: rest <> []) by discriminate.
  destruct (fileName_defined _ Hne) as [label Hlabel].
  exists result, label. repeat split; trivial.
  now apply handleAnalysis_own.
Qed.

Lemma consistent_active (m : Machine) :
  consistent m ->
  exists k p,
    activeProfileId m = Some k /\ k <> EmptyString
    /\ Js.own k (profiles m) = Some p
    /\ PsychologicalProfile.id p = k
    /\ Js.get (Js.key_of (activeProfileId m)) (profiles m) = Js.Own p.
Proof.
  intros [Hkeyed (k & p & Ha & Hk & Hown)]. exists k, p.
  repeat split; trivial.
  - apply (Hkeyed k p). now apply JsMore.own_In.
  - rewrite Ha. simpl. now apply JsFacts.get_Own.
Qed.

Lemma consistent_analysis (m : Machine) files type reply :
  consistent m ->
  exists m',
    handleAnalysis files type reply m = (Returned tt, m')
    /\ consistent m' /\ localStorage m' = localStorage m.
Proof.
  intros Hm. destruct (consistent_active m Hm) as (k & p & Ha & Hk & Hown & Hid & Hget).
  destruct (handleAnalysis_cases m files type reply p Hget)
    as [Hrun|(result & label & _ & _ & _ & Hrun)]; rewrite Hrun.
  - exists m. auto.
  - eexists. split; [reflexivity|]. split; [|reflexivity].
    destruct Hm as [Hkeyed _]. rewrite Ha. simpl. split; simpl.
    + apply keyed_set; trivial.
    + exists k, (merge_on m type result p label).
      split; [reflexivity|]. split; [exact Hk|]. apply JsFacts.own_set_same.
Qed.

Lemma consistent_delete (m : Machine) (confirmed : bool) :
  consistent m ->
  exists m',
    handleDeleteProfile confirmed m = (Returned tt, m')
    /\ consistent m' /\ localStorage m' = localStorage m.
Proof.
  intros Hm. destruct confirmed.
  - destruct (consistent_active m Hm) as (k & p & Ha & Hk & _).
    rewrite (handleDeleteProfile_confirmed m k Ha Hk).
    destruct (Js.keys (Js.delete k (profiles m))) as [|first rest] eqn:Hkeys.
    + rewrite startFresh_run. eexists. split; [reflexivity|].
      split; [apply consistent_fresh|reflexivity].
    + eexists. split; [reflexivity|]. split; [|reflexivity].
      destruct Hm as [Hkeyed _].
      destruct (keyed_first _ _ _ (keyed_delete k _ Hkeyed) Hkeys)
        as [Hfirst [q Hq]].
      split; simpl; [now apply keyed_delete|]. exists first, q. auto.
  - rewrite handleDeleteProfile_unconfirmed. exists m. auto.
Qed.

Lemma consistent_create (m : Machine) :
  consistent m ->
  exists m',
    handleCreateProfile m = (Returned tt, m')
    /\ consistent m' /\ localStorage m' = localStorage m.
Proof.
  intros [Hkeyed _]. rewrite handleCreateProfile_run.
  eexists. split; [reflexivity|]. split; [|reflexivity]. split; simpl.
  - apply keyed_set; [exact Hkeyed|apply randomUUID_nonempty|reflexivity].
  - eexists _, _. split; [reflexivity|].
    split; [apply randomUUID_nonempty|apply JsFacts.own_set_same].
Qed.

Lemma consistent_click (m : Machine) (i : nat) :
  consistent m ->
  exists m',
    clickProfile i m = (Returned tt, m')
    /\ consistent m' /\ localStorage m' = localStorage m.
Proof.
  intros [Hkeyed Hactive]. unfold clickProfile, bind, readProfiles. simpl.
  destruct (nth_error (menuIds (profiles m)) i) as [id|] eqn:Hnth.
  - eexists. split; [reflexivity|]. split; [|reflexivity]. split; [exact Hkeyed|].
    apply nth_error_In in Hnth. unfold menuIds in Hnth.
    apply in_map_iff in Hnth. destruct Hnth as ([k p] & Hid & Hin).
    simpl in Hid. destruct (Hkeyed k p Hin) as [Hk Hkp].
    destruct (JsMore.In_own _ _ _ Hin) as [p' Hp'].
    exists id, p'. simpl. rewrite <- Hid, Hkp. auto.
  - exists m. split; [reflexivity|]. split; [split; assumption|reflexivity].
Qed.

Lemma consistent_edit (m : Machine) (updates : ProfileUpdates.t) :
  ProfileUpdates.id updates = None ->
  consistent m ->
  exists m',
    handleUpdateProfile updates m = Some (Returned tt, m')
    /\ consistent m' /\ localStorage m' = localStorage m.
Proof.
  intros Hnoid Hm.
  destruct (consistent_active m Hm) as (k & p & Ha & Hk & Hown & Hid & Hget).
  unfold handleUpdateProfile. rewrite Ha in *. simpl in Hget.
  apply truthy_Some in Hk. rewrite Hk. simpl. rewrite Hget.
  eexists. split; [reflexivity|]. split; [|reflexivity].
  destruct Hm as [Hkeyed _]. apply truthy_Some in Hk. split; simpl.
  - apply keyed_set; trivial. simpl. now rewrite Hnoid.
  - eexists k, _. split; [reflexivity|]. split; [exact Hk|].
    apply JsFacts.own_set_same.
Qed.

Lemma activeProfile_stored (m : Machine) :
  consistent m ->
  exists p, activeProfile m = (Returned (Js.Own p), m).
Proof.
  intros Hm.
  destruct (consistent_active m Hm) as (k & p & Ha & Hk & Hown & Hid & Hget).
  exists p. unfold activeProfile, bind, readActiveProfileId, readProfiles.
  apply truthy_Some in Hk. rewrite Ha in *. cbn [string_value Js.key_of] in *.
  rewrite Hk, Hget. reflexivity.
Qed.

Lemma handleExport_run (format : ExportFormat) (p : Profile) (m : Machine) :
  exists d n,
    handleExport format p m
    = (Returned d,
       mkMachine (localStorage m) (profiles m) (activeProfileId m)
         (uuids_drawn m) (n + clock_reads m)).
Proof.
  destruct format; eexists;
    [exists 1%nat|exists 1%nat|exists 2%nat];
    cbv [handleExport bind Date_now ret clock_reads localStorage profiles
         activeProfileId uuids_drawn Nat.add]; reflexivity.
Qed.

Lemma consistent_perform (a : Action) (m : Machine) :
  consistent m ->
  exists m',
    perform a m = Some (Returned tt, m')
    /\ consistent m' /\ localStorage m' = localStorage m.
Proof.
  intros Hm. destruct a; simpl; unfold lift.
  - destruct (consistent_create m Hm) as (m' & -> & H). eauto.
  - destruct (consistent_click m i Hm) as (m' & -> & H). eauto.
  - destruct (consistent_delete m confirmed Hm) as (m' & -> & H). eauto.
  - unfold upload, handleFileChange. destruct files as [|f rest].
    + exists m. auto.
    + destruct (consistent_analysis m (f :: rest)
                  (dominantType (File.type f)) reply Hm) as (m' & -> & H).
      eauto.
  - unfold record. destruct type; simpl.
    + destruct (consistent_analysis m [File.mk "voice-note.webm" "audio/webm"]
                  AUDIO reply Hm) as (m' & -> & H). eauto.
    + destruct (consistent_analysis m
                  [File.mk "screen-capture.webm" "video/webm"] VIDEO reply Hm)
        as (m' & -> & H). eauto.
  - now apply consistent_edit.
  - now apply consistent_edit.
  - now apply consistent_edit.
  - destruct (activeProfile_stored m Hm) as [p ->].
    destruct (handleExport_run format p m) as (d & n & ->).
    eexists. split; [reflexivity|]. split; [|reflexivity].
    destruct Hm as [Hkeyed Hactive]. split; assumption.
Qed.

(** The two effects on a consistent state. *)
Lemma persist_run (m : Machine) :
  consistent m ->
  persist m =
  (Returned tt,
   mkMachine
     (Js.set "psycho_active_id" (string_value (activeProfileId m))
        (Js.set "psycho_profiles_db"
           (Json.stringify EmptyString (profiles_to_json (profiles m)))
           (localStorage m)))
     (profiles m) (activeProfileId m) (uuids_drawn m) (clock_reads m)).
Proof.
  intros Hm. destruct (consistent_active m Hm) as (k & p & Ha & Hk & Hown & _).
  unfold persist, persistProfiles, persistActiveId, bind, readProfiles,
    readActiveProfileId, setItem.
  assert (Hkeys : (0 <? length (Js.keys (profiles m)))%nat = true).
  { apply Nat.ltb_lt. destruct (profiles m); [discriminate Hown|simpl; lia]. }
  rewrite Hkeys. simpl. rewrite Ha. apply truthy_Some in Hk. rewrite Hk.
  reflexivity.
Qed.

Lemma persist_saves (m : Machine) :
  consistent m ->
  exists m',
    persist m = (Returned tt, m')
    /\ consistent m' /\ saved m'
    /\ profiles m' = profiles m /\ activeProfileId m' = activeProfileId m.
Proof.
  intros Hm. rewrite (persist_run m Hm). eexists. split; [reflexivity|].
  destruct (consistent_active m Hm) as (k & p & Ha & Hk & Hown & _).
  split; [|split; [|split; reflexivity]].
  - destruct Hm as [Hkeyed Hactive]. split; assumption.
  - split; simpl.
    + rewrite JsFacts.own_set_other by discriminate.
      apply JsFacts.own_set_same.
    + rewrite JsFacts.own_set_same, Ha. reflexivity.
Qed.

(** On a saved state the two effects write what the storage holds. *)
Lemma persist_saved (m : Machine) :
  consistent m -> saved m -> persist m = (Returned tt, m).
Proof.
  intros Hm [Hdb Hid]. rewrite (persist_run m Hm).
  destruct (consistent_active m Hm) as (k & p & Ha & _).
  rewrite (JsMore.set_same_value _ _ _ Hdb).
  rewrite Ha in *. simpl. rewrite (JsMore.set_same_value _ _ _ Hid).
  destruct m. simpl in *. now rewrite Ha.
Qed.

End SessionFacts.

Section SessionProperties.

Context {platform : Platform}.




(** X6: What the two effects saved is what the next mount restores: from a
    state whose active id is a non-empty id of the store, when [JSON.parse]
    gives back the store from the text written for it, saving and then
    loading on a newly mounted component return with the same store and
    the same active id, and the load leaves the storage as saved. *)
Theorem reload_restores_the_saved_state (m : Machine) :
  consistent m ->
  JSON_parse_profiles (Json.stringify EmptyString (profiles_to_json (profiles m)))
  = Some (profiles m) ->
  exists m1 m2,
    persist m = (Returned tt, m1)
    /\ loadData (remounted m1) = (Returned tt, m2)
    /\ profiles m2 = profiles m
    /\ activeProfileId m2 = activeProfileId m
    /\ localStorage m2 = localStorage m1.
Proof.
  intros Hm Hparse.
  destruct (consistent_active m Hm) as (k & p & Ha & Hk & Hown & _ & _).
  rewrite (persist_run m Hm). eexists. eexists. split; [reflexivity|].
  rewrite loadData_dispatch. unfold remounted, mounted.
  cbn [localStorage uuids_drawn clock_reads].
  rewrite JsFacts.own_set_other by discriminate.
  rewrite JsFacts.own_set_same, JsFacts.own_set_same.
  rewrite (parsed_profiles_truthy _ _ Hparse). cbn [string_value].
  rewrite (happyPath_parsed _ _ _ _ Hparse). unfold restoreActive.
  rewrite Ha. cbn [string_value].
  apply truthy_Some in Hk. rewrite Hk.
  apply JsFacts.get_Own in Hown. rewrite Hown. simpl.
  split; [reflexivity|]. auto.
Qed.

(** X7: Deleting the profile that was just created undoes the creation, but
    not the change of the active profile: on a store with a profile whose
    ids do not include the new identifier, [handleCreateProfile] followed by
    a confirmed [handleDeleteProfile] returns with the store as it was,
    and with its first id as the active id, whichever id was active. *)
Theorem delete_after_create_restores_the_store
    (m : Machine) (first : string) (rest : list string) :
  Js.own (randomUUID_nth (uuids_drawn m)) (profiles m) = None ->
  Js.keys (profiles m) = first :: rest ->
  exists m1 m2,
    handleCreateProfile m = (Returned tt, m1)
    /\ handleDeleteProfile true m1 = (Returned tt, m2)
    /\ profiles m2 = profiles m
    /\ activeProfileId m2 = Some first
    /\ localStorage m2 = localStorage m.
Proof.
  intros Hnew Hkeys. rewrite handleCreateProfile_run.
  set (id := randomUUID_nth (uuids_drawn m)) in *.
  set (fresh := defaultProfile id (Date_now_nth (clock_reads m))).
  assert (Hdel : Js.delete id (Js.set id fresh (profiles m)) = profiles m).
  { unfold Js.set. rewrite Hnew.
    replace (Js.array_index id) with (@None N)
      by (symmetry; apply randomUUID_not_index).
    rewrite JsMore.delete_app, (JsMore.delete_absent _ _ Hnew).
    simpl. rewrite String.eqb_refl. simpl. apply app_nil_r. }
  eexists. eexists. split; [reflexivity|].
  rewrite (handleDeleteProfile_confirmed _ id)
    by (reflexivity || apply randomUUID_nonempty).
  cbn [profiles]. rewrite Hdel, Hkeys. simpl. auto.
Qed.

(** X8: An edit of the dashboard on a state whose active id is an id of the
    store returns; under the active id it leaves the profile with the
    fields of the edit, the other fields as they were and the time of the
    edit as [lastUpdated]; the other ids, their order, the active id and
    the storage are as before. *)
Theorem edit_changes_the_active_profile_only
    (m : Machine) (k : string) (current : Profile) (updates : ProfileUpdates.t) :
  activeProfileId m = Some k ->
  k <> EmptyString ->
  Js.own k (profiles m) = Some current ->
  exists m',
    handleUpdateProfile updates m = Some (Returned tt, m')
    /\ Js.get k (profiles m')
       = Js.Own (editedProfile current updates (Date_now_nth (clock_reads m)))
    /\ (forall k', k' <> k -> Js.get k' (profiles m') = Js.get k' (profiles m))
    /\ Js.keys (profiles m') = Js.keys (profiles m)
    /\ activeProfileId m' = Some k
    /\ localStorage m' = localStorage m.
Proof.
  intros Ha Hk Hown. unfold handleUpdateProfile. rewrite Ha.
  apply truthy_Some in Hk. rewrite Hk. cbn [negb string_value].
  rewrite (proj2 (JsFacts.get_Own _ _ _) Hown).
  eexists. split; [reflexivity|]. cbn [profiles activeProfileId localStorage].
  split; [apply JsFacts.get_set_same|].
  split; [intros k' Hk'; now apply JsFacts.get_set_other|].
  split; [now apply (JsFacts.keys_set_own _ _ current)|]. auto.
Qed.

(** X9: A button of the profile menu shows the profile it names: in a store
    whose profiles are filed under their own ids, each id once, a click on
    the button of a profile makes it the one the dashboard shows, and
    leaves the store and the storage as they are. *)
Theorem a_menu_button_shows_its_profile
    (m : Machine) (i : nat) (k : string) (p : Profile) :
  keyed (profiles m) ->
  NoDup (Js.keys (profiles m)) ->
  nth_error (profiles m) i = Some (k, p) ->
  exists m',
    clickProfile i m = (Returned tt, m')
    /\ activeProfileId m' = Some k
    /\ activeProfile m' = (Returned (Js.Own p), m')
    /\ profiles m' = profiles m
    /\ localStorage m' = localStorage m.
Proof.
  intros Hkeyed Hnodup Hnth.
  assert (Hin : In (k, p) (profiles m)) by (eapply nth_error_In; eauto).
  destruct (Hkeyed k p Hin) as [Hk Hid].
  assert (Hown : Js.own k (profiles m) = Some p).
  { clear Hnth Hkeyed Hk Hid. induction (profiles m) as [|[k0 p0] ps IH];
      [contradiction|].
    simpl in Hnodup. inversion Hnodup as [|x l Hnotin Hrest]. subst x l.
    simpl. destruct Hin as [Heq|Hin].
    - injection Heq as Hk0 Hp0. subst k0 p0. now rewrite String.eqb_refl.
    - destruct (String.eqb_spec k k0) as [->|Hne]; [|now apply IH].
      exfalso. apply Hnotin. apply in_map_iff. now exists (k0, p). }
  unfold clickProfile, bind, readProfiles. unfold menuIds.
  rewrite (map_nth_error _ _ _ Hnth). cbn [snd]. rewrite Hid.
  unfold handleSwitchProfile, setActiveProfileId.
  eexists. split; [reflexivity|]. cbn [activeProfileId profiles localStorage].
  split; [reflexivity|]. split; [|auto].
  unfold activeProfile, bind, readActiveProfileId, readProfiles.
  cbn [activeProfileId profiles string_value].
  apply truthy_Some in Hk. rewrite Hk.
  rewrite (proj2 (JsFacts.get_Own _ _ _) Hown). reflexivity.
Qed.

(** X10: From a saved state whose active id is a non-empty id of the store,
    any session (creating, switching, deleting, uploading, recording,
    editing, exporting, in any order and with any answers of the analysis
    service) returns without a throw, and ends in such a state again: the
    store is never empty, every profile is filed under its own id, the
    active id names a profile of the store, which is the one the
    dashboard shows, and the storage holds the store and the active id. *)
Theorem session_keeps_an_active_profile (actions : list Action) (m : Machine) :
  consistent m -> saved m ->
  exists m',
    session actions m = Some (Returned tt, m')
    /\ consistent m' /\ saved m'
    /\ profiles m' <> []
    /\ exists p, activeProfile m' = (Returned (Js.Own p), m').
Proof.
  revert m. induction actions as [|a rest IH]; intros m Hm Hs.
  - exists m. split; [reflexivity|]. split; [exact Hm|]. split; [exact Hs|].
    split; [|now apply activeProfile_stored].
    destruct (consistent_active m Hm) as (k & p & _ & _ & Hown & _).
    intros Hempty. rewrite Hempty in Hown. discriminate.
  - destruct (consistent_perform a m Hm) as (m1 & Hp & Hm1 & _).
    destruct (persist_saves m1 Hm1) as (m2 & Hpersist & Hm2 & Hs2 & _).
    destruct (IH m2 Hm2 Hs2) as (m' & Hrun & H).
    exists m'. simpl. rewrite Hp, Hpersist. auto.
Qed.

(** X11: In a session the saving effects change nothing when the state did not
    change: on a saved state they write what the storage holds. *)
Theorem saving_a_saved_state_changes_nothing (m : Machine) :
  consistent m -> saved m -> persist m = (Returned tt, m).
Proof. intros Hm Hs. now apply persist_saved. Qed.

End SessionProperties.

(** ** Runs of analyses *)

Section RunFacts.

Context {platform : Platform}.

Lemma merged_replies_cons
    (b : list File.t * MediaType * option AnalysisResponse.t)
    (rest : list (list File.t * MediaType * option AnalysisResponse.t)) :
  merged_replies (b :: rest) = merged_replies [b] ++ merged_replies rest.
Proof. destruct b as [[[|f files] type] [result|]]; reflexivity. Qed.

(** One analysis of a run: nothing happens, or the reply is merged. *)
Lemma handleAnalysis_step (m : Machine) files type reply current :
  Js.get (Js.key_of (activeProfileId m)) (profiles m) = Js.Own current ->
  exists m' updated,
    handleAnalysis files type reply m = (Returned tt, m')
    /\ activeProfileId m' = activeProfileId m
    /\ Js.get (Js.key_of (activeProfileId m)) (profiles m') = Js.Own updated
    /\ match merged_replies [(files, type, reply)] with
       | [] => updated = current /\ m' = m
       | (t, r) :: _ =>
           exists label, updated = merge_on m t r current label
       end.
Proof.
  intros Hown. destruct files as [|f rest].
  - exists m, current. simpl. auto.
  - destruct reply as [result|].
    + assert (Hne : f :: rest <> []) by discriminate.
      destruct (fileName_defined _ Hne) as [label Hlabel].
      rewrite (handleAnalysis_own m _ type result current label Hlabel Hown).
      eexists _, _. split; [reflexivity|]. simpl.
      split; [reflexivity|]. split; [apply JsFacts.get_set_same|]. eauto.
    + exists m, current. simpl. auto.
Qed.

(** What every merge keeps, a run keeps. *)
Lemma handleAnalyses_preserves (P : Profile -> Prop) :
  (forall m type result current label,
     P current -> P (merge_on m type result current label)) ->
  forall batches m current,
    Js.get (Js.key_of (activeProfileId m)) (profiles m) = Js.Own current ->
    P current ->
    exists m' updated,
      handleAnalyses batches m = (Returned tt, m')
      /\ activeProfileId m' = activeProfileId m
      /\ Js.get (Js.key_of (activeProfileId m)) (profiles m') = Js.Own updated
      /\ P updated.
Proof.
  intros Hmerge batches.
  induction batches as [|[[files type] reply] rest IH]; intros m current Hown HP.
  - exists m, current. simpl. auto.
  - destruct (handleAnalysis_step m files type reply current Hown)
      as (m1 & u1 & Hrun1 & Hactive1 & Hget1 & Hu1).
    assert (HP1 : P u1).
    { destruct (merged_replies [(files, type, reply)]) as [|[t r] l].
      - now destruct Hu1 as [-> _].
      - destruct Hu1 as [label ->]. now apply Hmerge. }
    rewrite <- Hactive1 in Hget1.
    destruct (IH m1 u1 Hget1 HP1) as (m' & updated & Hrun & Hactive & Hget & HPu).
    exists m', updated. simpl. unfold bind. rewrite Hrun1, Hrun.
    rewrite Hactive1 in Hactive, Hget. auto.
Qed.

(** X12: Over any run of analyses a first name that is not empty, "New" or
    "Subject" and a last name that is not empty, "Subject" or "001" are
    never changed, whatever names the analyses offer, and the profile
    keeps its [id]. *)
Theorem names_are_kept_over_a_run
    (batches : list (list File.t * MediaType * option AnalysisResponse.t))
    (m : Machine) (current : Profile) :
  Js.get (Js.key_of (activeProfileId m)) (profiles m) = Js.Own current ->
  exists m' updated,
    handleAnalyses batches m = (Returned tt, m')
    /\ Js.get (Js.key_of (activeProfileId m)) (profiles m') = Js.Own updated
    /\ PsychologicalProfile.id updated = PsychologicalProfile.id current
    /\ (~ In (PsychologicalProfile.firstName current)
          [EmptyString; "New"; "Subject"] ->
        PsychologicalProfile.firstName updated
        = PsychologicalProfile.firstName current)
    /\ (~ In (PsychologicalProfile.lastName current)
          [EmptyString; "Subject"; "001"] ->
        PsychologicalProfile.lastName updated
        = PsychologicalProfile.lastName current).
Proof.
  intros Hown.
  destruct (handleAnalyses_preserves
              (fun p =>
                 PsychologicalProfile.id p = PsychologicalProfile.id current
                 /\ (~ In (PsychologicalProfile.firstName current)
                       [EmptyString; "New"; "Subject"] ->
                     PsychologicalProfile.firstName p
                     = PsychologicalProfile.firstName current)
                 /\ (~ In (PsychologicalProfile.lastName current)
                       [EmptyString; "Subject"; "001"] ->
                     PsychologicalProfile.lastName p
                     = PsychologicalProfile.lastName current)))
    with (batches := batches) (m := m) (current := current)
    as (m' & updated & Hrun & _ & Hget & HP); auto.
  - intros m0 type result cur label (Hid & Hfirst & Hlast).
    unfold merge_on. simpl. split; [exact Hid|]. split.
    + intros Hset. specialize (Hfirst Hset).
      destruct (newFirstName_cases result cur)
        as [(c & _ & _ & Hdef & _)|(_ & ->)]; [|exact Hfirst].
      rewrite Hfirst in Hdef. contradiction.
    + intros Hset. specialize (Hlast Hset).
      destruct (newLastName_cases result cur)
        as [(c & _ & _ & Hdef & _)|(_ & ->)]; [|exact Hlast].
      rewrite Hlast in Hdef. contradiction.
  - exists m', updated. tauto.
Qed.

(** X13: What the user types is not overwritten by what the analyses find: after
    an edit of the dashboard that sets a first name other than "New" and
    "Subject", a last name other than "Subject" and "001", or a date of
    birth, none of them empty, any run of analyses returns and leaves that
    value in the active profile. *)
Theorem a_typed_identity_survives_analyses
    (batches : list (list File.t * MediaType * option AnalysisResponse.t))
    (m : Machine) (k : string) (current : Profile)
    (updates : ProfileUpdates.t) :
  activeProfileId m = Some k ->
  k <> EmptyString ->
  Js.own k (profiles m) = Some current ->
  exists m1 m2 updated,
    handleUpdateProfile updates m = Some (Returned tt, m1)
    /\ handleAnalyses batches m1 = (Returned tt, m2)
    /\ Js.get k (profiles m2) = Js.Own updated
    /\ (forall v, ProfileUpdates.firstName updates = Some v ->
                  ~ In v [EmptyString; "New"; "Subject"] ->
                  PsychologicalProfile.firstName updated = v)
    /\ (forall v, ProfileUpdates.lastName updates = Some v ->
                  ~ In v [EmptyString; "Subject"; "001"] ->
                  PsychologicalProfile.lastName updated = v)
    /\ (forall v, ProfileUpdates.dateOfBirth updates = Some v ->
                  v <> EmptyString ->
                  PsychologicalProfile.dateOfBirth updated = v).
Proof.
  intros Ha Hk Hown.
  set (P := fun p : Profile =>
    (forall v, ProfileUpdates.firstName updates = Some v ->
               ~ In v [EmptyString; "New"; "Subject"] ->
               PsychologicalProfile.firstName p = v)
    /\ (forall v, ProfileUpdates.lastName updates = Some v ->
                  ~ In v [EmptyString; "Subject"; "001"] ->
                  PsychologicalProfile.lastName p = v)
    /\ (forall v, ProfileUpdates.dateOfBirth updates = Some v ->
                  v <> EmptyString ->
                  PsychologicalProfile.dateOfBirth p = v)).
  assert (Hmerge : forall m0 type result cur label,
            P cur -> P (merge_on m0 type result cur label)).
  { intros m0 type result cur label (Hfirst & Hlast & Hdob).
    unfold merge_on. split; [|split]; simpl; intros v Hv Hset.
    - specialize (Hfirst v Hv Hset).
      destruct (newFirstName_cases result cur)
        as [(c & _ & _ & Hdef & _)|(_ & ->)]; [|exact Hfirst].
      rewrite Hfirst in Hdef. contradiction.
    - specialize (Hlast v Hv Hset).
      destruct (newLastName_cases result cur)
        as [(c & _ & _ & Hdef & _)|(_ & ->)]; [|exact Hlast].
      rewrite Hlast in Hdef. contradiction.
    - specialize (Hdob v Hv Hset).
      destruct (newDOB_cases result cur)
        as [(c & _ & _ & Hdef & _)|(_ & ->)]; [|exact Hdob].
      rewrite Hdob in Hdef. contradiction. }
  unfold handleUpdateProfile. rewrite Ha.
  pose proof (proj2 (truthy_Some k) Hk) as Hkt. rewrite Hkt.
  cbn [negb string_value].
  rewrite (proj2 (JsFacts.get_Own _ _ _) Hown).
  set (edited := editedProfile current updates (Date_now_nth (clock_reads m))).
  set (m1 := mkMachine (localStorage m) (Js.set k edited (profiles m)) (Some k)
               (uuids_drawn m) (S (clock_reads m))).
  destruct (handleAnalyses_preserves P Hmerge batches m1 edited)
    as (m2 & updated & Hrun & _ & Hget & HP).
  - apply JsFacts.get_set_same.
  - unfold P, edited. simpl. repeat split; intros v -> _; reflexivity.
  - exists m1, m2, updated. split; [reflexivity|]. split; [exact Hrun|].
    split; [exact Hget|]. exact HP.
Qed.

(** X14: A run of analyses logs the analyses that were answered, and only
    those, in their order after the entries the history had, each under
    its media type and with the observations of its reply as summary; the
    scores, the types, the summary and the traits of the profile are
    those of the last answered analysis; with none answered the profile
    is unchanged. *)
Theorem a_run_logs_the_answered_analyses
    (batches : list (list File.t * MediaType * option AnalysisResponse.t))
    (m : Machine) (current : Profile) :
  Js.get (Js.key_of (activeProfileId m)) (profiles m) = Js.Own current ->
  exists m' updated entries,
    handleAnalyses batches m = (Returned tt, m')
    /\ Js.get (Js.key_of (activeProfileId m)) (profiles m') = Js.Own updated
    /\ PsychologicalProfile.history updated
       = PsychologicalProfile.history current ++ entries
    /\ map (fun h => (AnalysisHistoryItem.type h, AnalysisHistoryItem.summary h))
         entries
       = map (fun tr => (fst tr, AnalysisResponse.newObservations (snd tr)))
           (merged_replies batches)
    /\ (forall earlier t r,
          merged_replies batches = earlier ++ [(t, r)] ->
          PsychologicalProfile.bigFive updated = AnalysisResponse.bigFive r
          /\ PsychologicalProfile.mbti updated = AnalysisResponse.mbti r
          /\ PsychologicalProfile.enneagram updated
             = AnalysisResponse.enneagram r
          /\ PsychologicalProfile.attachmentStyle updated
             = AnalysisResponse.attachmentStyle r
          /\ PsychologicalProfile.summary updated = AnalysisResponse.summary r
          /\ PsychologicalProfile.keyTraits updated
             = AnalysisResponse.keyTraits r)
    /\ (merged_replies batches = [] -> updated = current /\ m' = m).
Proof.
  revert m current.
  induction batches as [|[[files type] reply] rest IH]; intros m current Hown.
  - exists m, current, []. simpl. rewrite app_nil_r.
    split; [reflexivity|]. split; [exact Hown|]. split; [reflexivity|].
    split; [reflexivity|]. split; [|auto].
    intros [|x earlier] t r H; discriminate H.
  - destruct (handleAnalysis_step m files type reply current Hown)
      as (m1 & u1 & Hrun1 & Hactive1 & Hget1 & Hu1).
    rewrite <- Hactive1 in Hget1.
    destruct (IH m1 u1 Hget1)
      as (m' & updated & entries & Hrun & Hget & Hhist & Hlog & Hlast & Hnone).
    rewrite Hactive1 in Hget.
    rewrite merged_replies_cons.
    destruct (merged_replies [(files, type, reply)]) as [|[t1 r1] l1] eqn:Hb.
    + destruct Hu1 as [-> ->].
      exists m', updated, entries. simpl. unfold bind. rewrite Hrun1, Hrun.
      auto 8.
    + assert (Hl1 : l1 = []).
      { destruct files as [|f fs]; [discriminate Hb|].
        destruct reply; [|discriminate Hb]. now injection Hb. }
      subst l1. destruct Hu1 as [label ->].
      exists m', updated,
        (newHistoryItem t1 r1 (randomUUID_nth (uuids_drawn m))
           (Date_now_nth (clock_reads m)) label :: entries).
      simpl. unfold bind. rewrite Hrun1, Hrun.
      split; [reflexivity|]. split; [exact Hget|]. split.
      { rewrite Hhist. unfold merge_on. simpl. now rewrite <- app_assoc. }
      split; [simpl; now rewrite Hlog|]. split; [|discriminate].
      intros earlier t r Hsplit.
      destruct (merged_replies rest) as [|x l] eqn:Hrest.
      * destruct (Hnone eq_refl) as [-> _].
        destruct earlier as [|y [|z earlier]]; try discriminate Hsplit.
        injection Hsplit as <- <-. unfold merge_on. simpl. auto 8.
      * destruct (@exists_last _ (x :: l)) as (e' & [t' r'] & He');
          [discriminate|].
        rewrite He' in Hsplit.
        change ((t1, r1) :: e' ++ [(t', r')])
          with (((t1, r1) :: e') ++ [(t', r')]) in Hsplit.
        apply app_inj_tail in Hsplit. destruct Hsplit as [_ Heq].
        injection Heq as Ht Hr. subst t r.
        now apply (Hlast e' t' r').
Qed.

(** X15: The reply of an analysis goes to the profile that was active when the
    analysis was started: when the user has switched to another profile
    before the reply arrives, the merge is made under the id the handler
    closed over, every other id, the one now active among them, reads as
    before, and the active id stays where the user put it. *)
Theorem a_late_reply_goes_to_the_profile_it_was_started_on
    (m : Machine) (k other : string) (current : Profile)
    (files : list File.t) (type : MediaType) (result : AnalysisResponse.t) :
  Js.own k (profiles m) = Some current ->
  files <> [] ->
  exists m' label,
    (handleSwitchProfile other ;;
     handleAnalysis_update files type result (Some k)) m
    = (Returned tt, m')
    /\ fileName files = Some label
    /\ activeProfileId m' = Some other
    /\ Js.get k (profiles m')
       = Js.Own (merge_on m type result current label)
    /\ (forall k', k' <> k -> Js.get k' (profiles m') = Js.get k' (profiles m)).
Proof.
  intros Hown Hfiles. destruct (fileName_defined _ Hfiles) as [label Hlabel].
  apply JsFacts.get_Own in Hown.
  unfold handleSwitchProfile, setActiveProfileId, handleAnalysis_update, bind,
    readProfiles. cbn [profiles Js.key_of]. rewrite Hown.
  unfold randomUUID, Date_now, setProfiles. simpl. rewrite Hlabel. simpl.
  eexists _, label. split; [reflexivity|]. simpl. split; [reflexivity|].
  split; [reflexivity|]. split; [apply JsFacts.get_set_same|].
  intros k' Hk'. now apply JsFacts.get_set_other.
Qed.

(** X16: The reply of an analysis whose profile was deleted in the meantime is
    dropped: when the user deletes the active profile before the reply
    arrives, the state is the one the deletion left, provided the id is not
    a name every object inherits and is not drawn again for the profile
    that replaces the last one. *)
Theorem a_reply_for_a_deleted_profile_is_dropped
    (m : Machine) (k : string)
    (files : list File.t) (type : MediaType) (result : AnalysisResponse.t) :
  activeProfileId m = Some k ->
  k <> EmptyString ->
  Js.inherited k = false ->
  randomUUID_nth (uuids_drawn m) <> k ->
  (handleDeleteProfile true ;;
   handleAnalysis_update files type result (Some k)) m
  = handleDeleteProfile true m.
Proof.
  intros Ha Hk Hinh Hfresh. unfold bind at 1.
  rewrite (handleDeleteProfile_confirmed m k Ha Hk).
  destruct (Js.keys (Js.delete k (profiles m))) as [|first rest] eqn:Hkeys.
  - rewrite startFresh_run.
    unfold handleAnalysis_update, bind, readProfiles. cbn [profiles Js.key_of].
    unfold Js.get. simpl. apply String.eqb_neq in Hfresh.
    rewrite String.eqb_sym, Hfresh, Hinh. reflexivity.
  - unfold handleAnalysis_update, bind, readProfiles. cbn [profiles Js.key_of].
    unfold Js.get. now rewrite JsFacts.own_delete_same, Hinh.
Qed.

(** X17: A stored profile map without profiles leaves the user with nothing to
    work on: on a component mounted on such a storage, with a saved id, if
    any, that no object inherits, [loadData] returns with an empty store
    and no active id, and in any session without a click on the button
    that creates a profile the store stays empty, without an active id,
    and the storage is never written: the analyses and the edits are
    dropped, and what is exported is a default profile. *)
Theorem an_empty_stored_map_drops_the_work
    (storage : list (string * string)) (uuids clock : nat) (text : string)
    (actions : list Action) :
  Js.own "psycho_profiles_db" storage = Some text ->
  JSON_parse_profiles text = Some [] ->
  (forall k, Js.own "psycho_active_id" storage = Some k ->
             Js.inherited k = false) ->
  ~ In Create actions ->
  loadData (mounted storage uuids clock)
  = (Returned tt, mounted storage uuids clock)
  /\ exists m',
       session actions (mounted storage uuids clock) = Some (Returned tt, m')
       /\ profiles m' = []
       /\ activeProfileId m' = None
       /\ localStorage m' = storage.
Proof.
  intros Hdb Hparse Hsaved Hcreate. split.
  - rewrite loadData_dispatch. cbn [localStorage mounted]. rewrite Hdb.
    rewrite (parsed_profiles_truthy _ _ Hparse). cbn [string_value].
    rewrite (happyPath_parsed _ _ _ _ Hparse). unfold restoreActive.
    destruct (Js.own "psycho_active_id" storage) as [k|] eqn:Hk.
    + unfold Js.get. cbn [string_value Js.own]. rewrite (Hsaved k eq_refl).
      cbn [read_truthy]. rewrite andb_false_r. reflexivity.
    + reflexivity.
  - assert (Hrun : forall u c,
              exists m',
                session actions (mkMachine storage [] None u c)
                = Some (Returned tt, m')
                /\ profiles m' = [] /\ activeProfileId m' = None
                /\ localStorage m' = storage).
    { induction actions as [|a rest IH]; intros u c.
      - eexists. split; [reflexivity|]. auto.
      - assert (Hrest : ~ In Create rest) by (intros H; apply Hcreate; now right).
        assert (Ha : a <> Create) by (intros ->; apply Hcreate; now left).
        specialize (IH Hrest).
        assert (Hstep : exists u1 c1,
                  perform a (mkMachine storage [] None u c)
                  = Some (Returned tt, mkMachine storage [] None u1 c1)).
        { destruct a as [|i|confirmed|files description reply
                         |type description reply|v|v|v|format].
          - congruence.
          - exists u, c. cbn [perform]. unfold lift, clickProfile, bind,
              readProfiles. cbn [profiles menuIds map]. now destruct i.
          - exists u, c. cbn [perform]. unfold lift, handleDeleteProfile, bind,
              readActiveProfileId. now destruct confirmed.
          - exists u, c. cbn [perform]. unfold lift, upload, handleFileChange.
            destruct files as [|f fs]; [reflexivity|].
            destruct reply; reflexivity.
          - exists u, c. cbn [perform]. unfold lift, record.
            destruct type; destruct reply; reflexivity.
          - exists u, c. reflexivity.
          - exists u, c. reflexivity.
          - exists u, c. reflexivity.
          - destruct format; [exists (S u), (S (S c))|exists (S u), (S (S c))
                              |exists (S u), (S (S (S c)))]; reflexivity. }
        destruct Hstep as (u1 & c1 & Hstep).
        destruct (IH u1 c1) as (m' & Hsession & H).
        exists m'. cbn [session]. rewrite Hstep.
        change (persist (mkMachine storage [] None u1 c1))
          with (Returned tt, mkMachine storage [] None u1 c1).
        auto. }
    apply Hrun.
Qed.

(** X18: A profile that was just created takes the identity the first answered
    analysis offers: its default names and its empty date of birth give
    way to every non-empty candidate, a field without a candidate keeps
    its default, and the analysis is its only history entry. *)
Theorem a_new_profile_takes_the_identity_offered
    (m : Machine) (files : list File.t) (type : MediaType)
    (result : AnalysisResponse.t) :
  files <> [] ->
  exists m1 m2 updated entry,
    handleCreateProfile m = (Returned tt, m1)
    /\ handleAnalysis files type (Some result) m1 = (Returned tt, m2)
    /\ activeProfileId m2 = Some (randomUUID_nth (uuids_drawn m))
    /\ Js.get (randomUUID_nth (uuids_drawn m)) (profiles m2) = Js.Own updated
    /\ (forall c, candidate CandidateProfile.firstName result = Some c ->
                  c <> EmptyString ->
                  PsychologicalProfile.firstName updated = c)
    /\ (forall c, candidate CandidateProfile.lastName result = Some c ->
                  c <> EmptyString ->
                  PsychologicalProfile.lastName updated = c)
    /\ (forall c, candidate CandidateProfile.dateOfBirth result = Some c ->
                  c <> EmptyString ->
                  PsychologicalProfile.dateOfBirth updated = c)
    /\ (candidate CandidateProfile.firstName result = None ->
        PsychologicalProfile.firstName updated = "New")
    /\ (candidate CandidateProfile.lastName result = None ->
        PsychologicalProfile.lastName updated = "Subject")
    /\ (candidate CandidateProfile.dateOfBirth result = None ->
        PsychologicalProfile.dateOfBirth updated = EmptyString)
    /\ PsychologicalProfile.history updated = [entry]
    /\ AnalysisHistoryItem.summary entry
       = AnalysisResponse.newObservations result.
Proof.
  intros Hfiles. destruct (fileName_defined _ Hfiles) as [label Hlabel].
  rewrite handleCreateProfile_run.
  set (id := randomUUID_nth (uuids_drawn m)).
  set (fresh := defaultProfile id (Date_now_nth (clock_reads m))).
  set (m1 := mkMachine (localStorage m) (Js.set id fresh (profiles m))
               (Some id) (S (uuids_drawn m)) (S (clock_reads m))).
  assert (Hown : Js.get (Js.key_of (activeProfileId m1)) (profiles m1)
                 = Js.Own fresh) by apply JsFacts.get_set_same.
  pose proof (handleAnalysis_own m1 files type result fresh label Hlabel Hown)
    as Hrun.
  eexists m1, _, _, _. split; [reflexivity|]. split; [exact Hrun|].
  cbn [activeProfileId profiles m1 Js.key_of].
  split; [reflexivity|]. split; [apply JsFacts.get_set_same|].
  unfold merge_on, updatedProfile.
  cbn [PsychologicalProfile.firstName PsychologicalProfile.lastName
       PsychologicalProfile.dateOfBirth PsychologicalProfile.history].
  pose proof (newFirstName_cases result fresh) as Hfirst.
  pose proof (newLastName_cases result fresh) as Hlast.
  pose proof (newDOB_cases result fresh) as Hdob.
  split; [|split; [|split; [|split; [|split; [|split]]]]].
  - intros c Hc Hne.
    destruct Hfirst as [(c' & Hc' & _ & _ & ->)|(Hno & _)]; [congruence|].
    exfalso. apply (Hno c Hc Hne). simpl. auto.
  - intros c Hc Hne.
    destruct Hlast as [(c' & Hc' & _ & _ & ->)|(Hno & _)]; [congruence|].
    exfalso. apply (Hno c Hc Hne). simpl. auto.
  - intros c Hc Hne.
    destruct Hdob as [(c' & Hc' & _ & _ & ->)|(Hno & _)]; [congruence|].
    exfalso. now apply (Hno c Hc Hne).
  - intros Hnone.
    destruct Hfirst as [(c' & Hc' & _)|(_ & ->)]; [congruence|reflexivity].
  - intros Hnone.
    destruct Hlast as [(c' & Hc' & _)|(_ & ->)]; [congruence|reflexivity].
  - intros Hnone.
    destruct Hdob as [(c' & Hc' & _)|(_ & ->)]; [congruence|reflexivity].
  - split; reflexivity.
Qed.

End RunFacts.

(** ** The input console *)

Section ConsoleFacts.

Context {platform : Platform}.

Lemma includes_spec (needle s : string) :
  includes needle s = true <-> appears_in needle s.
Proof. apply StringFacts.infixb_spec. Qed.

(** X19: [handleFileChange] logs a selection as a text file exactly when the
    MIME type of its first file mentions none of "image", "pdf", "audio",
    "video", "html" and "text": a file of a text type ("text/plain",
    "text/csv") is logged as HTML; and as an image whenever the type
    mentions "image", whatever else it mentions. *)
Theorem a_text_file_is_one_of_no_known_type (firstType : string) :
  (dominantType firstType = TEXT_FILE <->
   forall w, In w ["image"; "pdf"; "audio"; "video"; "html"; "text"] ->
             ~ appears_in w firstType)
  /\ (appears_in "image" firstType -> dominantType firstType = IMAGE)
  /\ (appears_in "text" firstType ->
      (forall w, In w ["image"; "pdf"; "audio"; "video"] ->
                 ~ appears_in w firstType) ->
      dominantType firstType = HTML).
Proof.
  unfold dominantType.
  destruct (includes "image" firstType) eqn:Himage;
  destruct (includes "pdf" firstType) eqn:Hpdf;
  destruct (includes "audio" firstType) eqn:Haudio;
  destruct (includes "video" firstType) eqn:Hvideo;
  destruct (includes "html" firstType) eqn:Hhtml;
  destruct (includes "text" firstType) eqn:Htext;
  cbn [orb];
  repeat match goal with
         | H : includes _ _ = true |- _ => apply includes_spec in H
         | H : includes ?w ?s = false |- _ =>
             assert (~ appears_in w s)
               by (intros Hin; apply includes_spec in Hin; congruence);
             clear H
         end;
  (split; [split; [try discriminate; intros _ w Hw; cbn [In] in Hw;
                   intuition (subst; auto)
                  |intros Hnone;
                   try reflexivity;
                   exfalso;
                   first [ apply (Hnone "image"); [cbn [In]; tauto|assumption]
                         | apply (Hnone "pdf"); [cbn [In]; tauto|assumption]
                         | apply (Hnone "audio"); [cbn [In]; tauto|assumption]
                         | apply (Hnone "video"); [cbn [In]; tauto|assumption]
                         | apply (Hnone "html"); [cbn [In]; tauto|assumption]
                         | apply (Hnone "text"); [cbn [In]; tauto|assumption] ]]
         |split; [intros Hi; first [reflexivity|contradiction]
                 |intros Ht Hnone;
                  first [ reflexivity
                        | contradiction
                        | exfalso; apply (Hnone "image");
                          [cbn [In]; tauto|assumption]
                        | exfalso; apply (Hnone "pdf");
                          [cbn [In]; tauto|assumption]
                        | exfalso; apply (Hnone "audio");
                          [cbn [In]; tauto|assumption]
                        | exfalso; apply (Hnone "video");
                          [cbn [In]; tauto|assumption] ]]]).
Qed.

(** X20: A selection of files that is analysed is logged once, as the last
    entry of the history of the active profile: under the media type of
    its first file, whatever the other files are, with the observations
    of the reply as summary and, as file label, the name of the file or,
    of several, their number; the description the user typed is not
    logged. *)
Theorem an_upload_is_logged_under_the_type_of_its_first_file
    (m : Machine) (first : File.t) (others : list File.t)
    (description : string) (result : AnalysisResponse.t) (current : Profile) :
  Js.get (Js.key_of (activeProfileId m)) (profiles m) = Js.Own current ->
  exists m' updated entry,
    upload (first :: others) description (Some result) m = (Returned tt, m')
    /\ Js.get (Js.key_of (activeProfileId m)) (profiles m') = Js.Own updated
    /\ PsychologicalProfile.history updated
       = PsychologicalProfile.history current ++ [entry]
    /\ AnalysisHistoryItem.type entry = dominantType (File.type first)
    /\ AnalysisHistoryItem.summary entry
       = AnalysisResponse.newObservations result
    /\ AnalysisHistoryItem.fileName entry
       = Some (match others with
               | [] => File.name first
               | _ :: _ =>
                   (string_of_nat (S (length others)) ++ " files uploaded")%string
               end).
Proof.
  intros Hown. unfold upload, handleFileChange.
  assert (Hlabel : fileName (first :: others)
                   = Some (match others with
                           | [] => File.name first
                           | _ :: _ =>
                               (string_of_nat (S (length others))
                                ++ " files uploaded")%string
                           end)).
  { unfold fileName. destruct others; reflexivity. }
  rewrite (handleAnalysis_own m _ _ result current _ Hlabel Hown).
  eexists _, _, _. split; [reflexivity|]. cbn [profiles].
  split; [apply JsFacts.get_set_same|].
  unfold merge_on, updatedProfile, newHistoryItem. simpl.
  split; [reflexivity|]. auto.
Qed.

(** X21: A recording that is analysed is logged once, as the last entry of the
    history of the active profile: a screen capture as a video with the
    file label "screen-capture.webm", a voice note as audio with the label
    "voice-note.webm", which are the media types a selection of the
    recorded file would be logged under. *)
Theorem a_recording_is_logged_as_video_or_audio
    (m : Machine) (type : Recording) (description : string)
    (result : AnalysisResponse.t) (current : Profile) :
  Js.get (Js.key_of (activeProfileId m)) (profiles m) = Js.Own current ->
  exists m' updated entry,
    record type description (Some result) m = (Returned tt, m')
    /\ Js.get (Js.key_of (activeProfileId m)) (profiles m') = Js.Own updated
    /\ PsychologicalProfile.history updated
       = PsychologicalProfile.history current ++ [entry]
    /\ AnalysisHistoryItem.summary entry
       = AnalysisResponse.newObservations result
    /\ (AnalysisHistoryItem.type entry, AnalysisHistoryItem.fileName entry)
       = match type with
         | screen => (VIDEO, Some "screen-capture.webm")
         | audio => (AUDIO, Some "voice-note.webm")
         end
    /\ upload (fst (fst (recorder_onstop type description))) description
         (Some result) m
       = (Returned tt, m').
Proof.
  intros Hown. unfold record, upload.
  destruct type; cbn [recorder_onstop fst handleFileChange].
  - rewrite (handleAnalysis_own m [File.mk "voice-note.webm" "audio/webm"]
               AUDIO result current "voice-note.webm" eq_refl Hown).
    eexists _, _, _. split; [reflexivity|]. cbn [profiles].
    split; [apply JsFacts.get_set_same|].
    unfold merge_on, updatedProfile, newHistoryItem. simpl.
    split; [reflexivity|]. split; [reflexivity|]. split; [reflexivity|].
    change (dominantType "audio/webm") with AUDIO.
    now rewrite (handleAnalysis_own m [File.mk "voice-note.webm" "audio/webm"]
                   AUDIO result current "voice-note.webm" eq_refl Hown).
  - rewrite (handleAnalysis_own m
               [File.mk "screen-capture.webm" "video/webm"] VIDEO result
               current "screen-capture.webm" eq_refl Hown).
    eexists _, _, _. split; [reflexivity|]. cbn [profiles].
    split; [apply JsFacts.get_set_same|].
    unfold merge_on, updatedProfile, newHistoryItem. simpl.
    split; [reflexivity|]. split; [reflexivity|]. split; [reflexivity|].
    change (dominantType "video/webm") with VIDEO.
    now rewrite (handleAnalysis_own m
                   [File.mk "screen-capture.webm" "video/webm"] VIDEO result
                   current "screen-capture.webm" eq_refl Hown).
Qed.

End ConsoleFacts.

(** ** The data of a file *)

Lemma split_comma_no_comma (s : string) :
  no_comma s = true -> split_comma s = [s].
Proof.
  induction s as [|c s IH]; simpl; [reflexivity|].
  destruct (Ascii.eqb c ","); simpl; [discriminate|].
  intros Hs. now rewrite (IH Hs).
Qed.

Lemma split_comma_app (a b : string) :
  no_comma a = true ->
  split_comma (a ++ String ","%char b) = a :: split_comma b.
Proof.
  induction a as [|c a IH]; cbn [append split_comma no_comma];
    [reflexivity|].
  destruct (Ascii.eqb c ","); cbn [negb andb]; [discriminate|].
  intros Ha. now rewrite (IH Ha).
Qed.

(** X22: [convertFileToBase64] resolves with the payload of a data URL: of a
    text made of a header, a comma and a payload, neither with a comma in
    it, it gives the payload; of a text without a comma it gives nothing
    ([undefined]). *)
Theorem convertFileToBase64_gives_the_payload (header payload : string) :
  no_comma header = true ->
  no_comma payload = true ->
  convertFileToBase64 (header ++ "," ++ payload) = Some payload
  /\ convertFileToBase64 header = None.
Proof.
  intros Hheader Hpayload. unfold convertFileToBase64. split.
  - change (header ++ "," ++ payload)%string
      with (header ++ String ","%char payload)%string.
    rewrite (split_comma_app _ _ Hheader), (split_comma_no_comma _ Hpayload).
    reflexivity.
  - now rewrite (split_comma_no_comma _ Hheader).
Qed.

(** ** The dashboard *)

Lemma shownNotes_newest (notes : list string) (note : string) :
  shownNotes (notes ++ [note]) = note :: firstn 5 (shownNotes notes).
Proof.
  unfold shownNotes. rewrite rev_unit.
  change (firstn 6 (note :: rev notes)) with (note :: firstn 5 (rev notes)).
  now rewrite firstn_firstn.
Qed.

Section DashboardFacts.

Context {platform : Platform}.

(** X23: After a merge the dashboard shows the new entry first in its log,
    above the entries it showed before; a note of the analysis is the
    first of the notes shown, above the five newest of the notes shown
    before; an analysis without a note leaves the notes as they were; and
    at most six notes are shown. *)
Theorem the_dashboard_shows_the_newest_first
    (m : Machine) (type : MediaType) (result : AnalysisResponse.t)
    (current : Profile) (label : string) :
  let updated := merge_on m type result current label in
  shownHistory (PsychologicalProfile.history updated)
  = newHistoryItem type result (randomUUID_nth (uuids_drawn m))
      (Date_now_nth (clock_reads m)) label
    :: shownHistory (PsychologicalProfile.history current)
  /\ (forall note,
        AnalysisResponse.bodyLanguageAnalysis result = Some note ->
        note <> EmptyString ->
        shownNotes (PsychologicalProfile.bodyLanguageNotes updated)
        = note
          :: firstn 5 (shownNotes (PsychologicalProfile.bodyLanguageNotes current)))
  /\ (truthy (AnalysisResponse.bodyLanguageAnalysis result) = false ->
      shownNotes (PsychologicalProfile.bodyLanguageNotes updated)
      = shownNotes (PsychologicalProfile.bodyLanguageNotes current))
  /\ (forall note,
        AnalysisResponse.toneAnalysis result = Some note ->
        note <> EmptyString ->
        shownNotes (PsychologicalProfile.toneVoiceNotes updated)
        = note
          :: firstn 5 (shownNotes (PsychologicalProfile.toneVoiceNotes current)))
  /\ (truthy (AnalysisResponse.toneAnalysis result) = false ->
      shownNotes (PsychologicalProfile.toneVoiceNotes updated)
      = shownNotes (PsychologicalProfile.toneVoiceNotes current))
  /\ length (shownNotes (PsychologicalProfile.bodyLanguageNotes updated)) <= 6
  /\ length (shownNotes (PsychologicalProfile.toneVoiceNotes updated)) <= 6.
Proof.
  cbv zeta. unfold merge_on, updatedProfile. simpl.
  split; [unfold shownHistory; apply rev_unit|].
  unfold newBodyLanguage, newToneNotes.
  split; [|split; [|split; [|split; [|split]]]].
  - intros note -> Hne. apply truthy_Some in Hne. rewrite Hne.
    apply shownNotes_newest.
  - now intros ->.
  - intros note -> Hne. apply truthy_Some in Hne. rewrite Hne.
    apply shownNotes_newest.
  - now intros ->.
  - unfold shownNotes. apply firstn_le_length.
  - unfold shownNotes. apply firstn_le_length.
Qed.

End DashboardFacts.

(** ** More on the exports *)

Lemma no_ws_app (a b : string) : no_ws (a ++ b) = no_ws a && no_ws b.
Proof.
  induction a as [|c a IH]; simpl; [reflexivity|].
  now rewrite IH, andb_assoc.
Qed.

Lemma no_ws_remove_ws (s : string) : no_ws (remove_ws s) = true.
Proof.
  induction s as [|c s IH]; simpl; [reflexivity|].
  destruct (is_ws c) eqn:Hc; simpl; [exact IH|]. now rewrite Hc, IH.
Qed.

(** [trim] keeps an occurrence that ends in a character that is not white
    space and comes after one. *)
Lemma trim_keeps (a x b : string) (c : ascii) :
  has_nonws a = true -> is_ws c = false ->
  appears_in (x ++ String c EmptyString)
    (trim (a ++ (x ++ String c EmptyString) ++ b)).
Proof.
  intros Ha Hc. unfold trim. rewrite StringFacts.trim_left_app by exact Ha.
  rewrite (StringFacts.append_assoc x).
  change (String c EmptyString ++ b)%string with (String c b).
  rewrite <- (StringFacts.append_assoc (trim_left a) x).
  rewrite StringFacts.trim_right_app by (simpl; now rewrite Hc).
  assert (Hlast : trim_right (String c b) = String c (trim_right b)).
  { simpl. rewrite Hc. now destruct (trim_right b). }
  rewrite Hlast. exists (trim_left a), (trim_right b).
  rewrite !StringFacts.append_assoc. reflexivity.
Qed.

Section ExportMore.

Context {platform : Platform}.

(** X24: The name of the exported file has no white space in it, whatever the
    names of the subject are, when the day the browser prints has none;
    it carries the names without their white space, that day, and the
    extension of the format, and the file has the MIME type of the
    format. *)
Theorem the_export_file_name_has_no_white_space
    (format : ExportFormat) (p : Profile) (m : Machine) :
  no_ws (substring 0 10 (toISOString (Date_now_nth (clock_reads m)))) = true ->
  exists d m',
    handleExport format p m = (Returned d, m')
    /\ no_ws (download d) = true
    /\ download d
       = ("PsychProfile_" ++ remove_ws (PsychologicalProfile.firstName p)
          ++ "_" ++ remove_ws (PsychologicalProfile.lastName p)
          ++ "_" ++ substring 0 10 (toISOString (Date_now_nth (clock_reads m)))
          ++ match format with
             | json => ".json"
             | txt => ".txt"
             | doc => ".doc"
             end)%string
    /\ mimeType d
       = match format with
         | json => "application/json"
         | txt => "text/plain"
         | doc => "application/msword"
         end.
Proof.
  intros Hday.
  assert (Hname : forall ext,
            no_ws ext = true ->
            no_ws ("PsychProfile_"
                   ++ remove_ws (PsychologicalProfile.firstName p) ++ "_"
                   ++ remove_ws (PsychologicalProfile.lastName p) ++ "_"
                   ++ substring 0 10
                        (toISOString (Date_now_nth (clock_reads m)))
                   ++ ext) = true).
  { intros ext Hext.
    rewrite !no_ws_app, !no_ws_remove_ws, Hday, Hext. reflexivity. }
  destruct format; eexists _, _;
    (split; [unfold handleExport, bind, Date_now, ret; reflexivity|]);
    cbn [download mimeType];
    rewrite !StringFacts.append_assoc;
    (split; [apply Hname; reflexivity|split; reflexivity]).
Qed.

(** X25: Both reports list the analyses newest first: the last entry of the
    history is the first line under the heading of the history in the
    text report and the first item of the evidence log in the HTML
    report. *)
Theorem the_reports_list_the_newest_analysis_first
    (now : Z) (p : Profile) (older : list AnalysisHistoryItem.t)
    (newest : AnalysisHistoryItem.t) :
  PsychologicalProfile.history p = older ++ [newest] ->
  appears_in
    ("ANALYSIS HISTORY" ++ nl ++ "----------------" ++ nl
     ++ textHistoryLine newest)
    (generateTextReport p)
  /\ appears_in
       ("      <h2>EVIDENCE LOG</h2>" ++ nl ++ "      <ul>" ++ nl
        ++ "        " ++ htmlHistoryItem newest)
       (generateHTMLReport now p).
Proof.
  intros Hhistory. split.
  - unfold generateTextReport, join.
    rewrite (StringFacts.concat_split nl 37 (textReportLines p))
      by (rewrite textReportLines_length; lia).
    cbn [skipn textReportLines]. rewrite Hhistory, rev_unit. cbn [map].
    set (a := String.concat nl (firstn 37 (textReportLines p))).
    set (lines := map textHistoryLine (rev older)).
    assert (Hlog : exists rest,
              join nl (textHistoryLine newest :: lines)
              = (textHistoryLine newest ++ rest)%string).
    { unfold join. destruct lines as [|l ls].
      - exists EmptyString. simpl. now rewrite StringFacts.append_nil_r.
      - exists (nl ++ String.concat nl (l :: ls))%string. reflexivity. }
    destruct Hlog as [rest Hlog]. rewrite Hlog. cbn [String.concat].
    unfold textHistoryLine at 1 2.
    set (line := ("[" ++ toLocaleDateString (AnalysisHistoryItem.timestamp newest)
                  ++ "] "
                  ++ MediaType_to_string (AnalysisHistoryItem.type newest)
                  ++ ": "
                  ++ substring 0 100 (AnalysisHistoryItem.summary newest)
                  ++ "..")%string).
    assert (Hline :
      ("[" ++ toLocaleDateString (AnalysisHistoryItem.timestamp newest)
       ++ "] " ++ MediaType_to_string (AnalysisHistoryItem.type newest)
       ++ ": " ++ substring 0 100 (AnalysisHistoryItem.summary newest)
       ++ "...")%string
      = (line ++ ".")%string).
    { unfold line. now rewrite !StringFacts.append_assoc. }
    rewrite Hline.
    replace ("ANALYSIS HISTORY" ++ nl ++ "----------------" ++ nl
             ++ line ++ ".")%string
      with (("ANALYSIS HISTORY" ++ nl ++ "----------------" ++ nl ++ line)
            ++ ".")%string
      by now rewrite !StringFacts.append_assoc.
    replace (a ++ nl
             ++ "ANALYSIS HISTORY" ++ nl
             ++ "----------------" ++ nl
             ++ ((line ++ ".") ++ rest) ++ nl ++ "    ")%string
      with ((a ++ nl)
            ++ (("ANALYSIS HISTORY" ++ nl ++ "----------------" ++ nl ++ line)
                ++ ".")
            ++ (rest ++ nl ++ "    "))%string
      by now rewrite !StringFacts.append_assoc.
    apply trim_keeps; reflexivity.
  - unfold generateHTMLReport, join.
    rewrite (StringFacts.concat_split nl 56 (htmlReportLines now p))
      by (rewrite htmlReportLines_length; lia).
    apply StringFacts.appears_in_app_l, StringFacts.appears_in_app_l.
    cbn [skipn htmlReportLines]. rewrite Hhistory, rev_unit. cbn [map].
    assert (Hlog : exists rest,
              join EmptyString
                (htmlHistoryItem newest :: map htmlHistoryItem (rev older))
              = (htmlHistoryItem newest ++ rest)%string).
    { unfold join. destruct (map htmlHistoryItem (rev older)) as [|l ls].
      - exists EmptyString. simpl. now rewrite StringFacts.append_nil_r.
      - exists (String.concat EmptyString (l :: ls)). reflexivity. }
    destruct Hlog as [rest Hlog]. rewrite Hlog. cbn [String.concat].
    exists EmptyString,
      (rest ++ nl ++ "      </ul>" ++ nl ++ "    </body>" ++ nl
       ++ "    </html>" ++ nl ++ "  ")%string.
    rewrite !StringFacts.append_assoc. reflexivity.
Qed.

(** X26: What the reports print for what is not known: "Unknown" for an empty
    date of birth, and a sentence of their own where the profile has no
    note on body language or on the voice. *)
Theorem the_reports_name_what_is_missing (now : Z) (p : Profile) :
  (PsychologicalProfile.dateOfBirth p = EmptyString ->
   appears_in "DOB: Unknown" (generateTextReport p)
   /\ appears_in "<strong>Date of Birth:</strong> Unknown</p>"
        (generateHTMLReport now p))
  /\ (PsychologicalProfile.bodyLanguageNotes p = [] ->
      appears_in
        ("[Body Language & Kinesics]" ++ nl
         ++ "No specific body language data.")
        (generateTextReport p)
      /\ appears_in
           "<ul><li>No specific body language data analyzed yet.</li></ul>"
           (generateHTMLReport now p))
  /\ (PsychologicalProfile.toneVoiceNotes p = [] ->
      appears_in ("[Voice & Tone]" ++ nl ++ "No specific voice data.")
        (generateTextReport p)
      /\ appears_in
           "<ul><li>No specific vocal data analyzed yet.</li></ul>"
           (generateHTMLReport now p)).
Proof.
  split; [|split]; intros Hmissing; split.
  - apply text_body_occurrence.
    apply (appears_in_line _ _ _ 1); [apply Nat.ltb_lt; reflexivity|].
    cbn [nth firstn skipn textReportLines]. rewrite Hmissing.
    apply StringFacts.appears_in_refl.
  - unfold generateHTMLReport, join.
    apply (appears_in_line _ _ _ 24); [apply Nat.ltb_lt; reflexivity|].
    cbn [nth htmlReportLines]. rewrite Hmissing.
    now exists "        <p>", EmptyString.
  - apply text_body_occurrence.
    rewrite (StringFacts.concat_split nl 28
               (firstn 33 (skipn 3 (textReportLines p))))
      by (cbn [length firstn skipn textReportLines]; lia).
    apply StringFacts.appears_in_app_l, StringFacts.appears_in_app_l.
    cbn [firstn skipn textReportLines]. rewrite Hmissing.
    cbn [String.concat]. eexists EmptyString, _.
    rewrite !StringFacts.append_assoc. cbn [append]. reflexivity.
  - unfold generateHTMLReport, join.
    apply (appears_in_line _ _ _ 51); [apply Nat.ltb_lt; reflexivity|].
    cbn [nth htmlReportLines]. rewrite Hmissing.
    now exists "      ", EmptyString.
  - apply text_body_occurrence.
    rewrite (StringFacts.concat_split nl 31
               (firstn 33 (skipn 3 (textReportLines p))))
      by (cbn [length firstn skipn textReportLines]; lia).
    apply StringFacts.appears_in_app_l, StringFacts.appears_in_app_l.
    cbn [firstn skipn textReportLines]. rewrite Hmissing.
    cbn [String.concat]. rewrite ?StringFacts.append_assoc.
    apply StringFacts.appears_in_refl.
  - unfold generateHTMLReport, join.
    apply (appears_in_line _ _ _ 54); [apply Nat.ltb_lt; reflexivity|].
    cbn [nth htmlReportLines]. rewrite Hmissing.
    now exists "      ", EmptyString.
Qed.

End ExportMore.

(** ** The properties on the sample states *)

Lemma keyed_two_subjects : keyed Demo.two_subjects.
Proof.
  intros k p [[= <- <-]|[[= <- <-]|[]]]; split; (discriminate || reflexivity).
Qed.

Lemma consistent_two_subjects (storage : list (string * string))
    (k : string) (p : Profile) (u c : nat) :
  k <> EmptyString -> Js.own k Demo.two_subjects = Some p ->
  consistent (mkMachine storage Demo.two_subjects (Some k) u c).
Proof.
  intros Hk Hown. split; [exact keyed_two_subjects|]. now exists k, p.
Qed.

Lemma load_starts_fresh_without_a_usable_record_witness :
  truthy (Js.own "psycho_profiles_db" Sample.broken_legacy_storage) = false
  /\ @JSON_parse_legacy Demo.browser "{name: Jane" = None
  /\ exists m',
       loadData (platform := Demo.browser)
         (mounted Sample.broken_legacy_storage 0 0)
       = (Returned tt, m')
       /\ Js.keys (profiles m') = [Demo.uuid 0]
       /\ activeProfileId m' = Some (Demo.uuid 0)
       /\ localStorage m' = Sample.broken_legacy_storage.
Proof.
  split; [reflexivity|]. split; [reflexivity|].
  assert (Hlegacy : forall text,
            Js.own "psycho_profile_v3"
              (localStorage (mounted Sample.broken_legacy_storage 0 0))
            = Some text ->
            @JSON_parse_legacy Demo.browser text = None).
  { intros text [= <-]. reflexivity. }
  destruct (load_starts_fresh_without_a_usable_record (platform := Demo.browser)
              (mounted Sample.broken_legacy_storage 0 0) eq_refl Hlegacy)
    as (m' & Hrun & [Hps Ha] & Hst).
  exists m'. rewrite Hps, Ha. auto.
Defined.



Lemma reload_restores_the_saved_state_witness :
  @JSON_parse_profiles Demo.browser
    (Json.stringify EmptyString (profiles_to_json (profiles Demo.on_alex)))
  = Some (profiles Demo.on_alex)
  /\ exists m1 m2,
       persist Demo.on_alex = (Returned tt, m1)
       /\ loadData (platform := Demo.browser) (remounted m1) = (Returned tt, m2)
       /\ profiles m2 = Demo.two_subjects
       /\ activeProfileId m2 = Some "subject-a".
Proof.
  assert (Hparse :
    @JSON_parse_profiles Demo.browser
      (Json.stringify EmptyString (profiles_to_json (profiles Demo.on_alex)))
    = Some (profiles Demo.on_alex)) by (vm_compute; reflexivity).
  split; [exact Hparse|].
  assert (Hm : consistent Demo.on_alex).
  { apply (consistent_two_subjects _ _ (Demo.alex "subject-a"));
      [discriminate|reflexivity]. }
  destruct (reload_restores_the_saved_state (platform := Demo.browser)
              Demo.on_alex Hm Hparse)
    as (m1 & m2 & Hsave & Hload & Hps & Ha & _).
  exists m1, m2. auto.
Defined.

Lemma delete_after_create_restores_the_store_witness :
  Js.own (Demo.uuid 0) (profiles Demo.on_blank) = None
  /\ Js.keys (profiles Demo.on_blank) = ["subject-a"; "subject-b"]
  /\ exists m1 m2,
       handleCreateProfile (platform := Demo.browser) Demo.on_blank
       = (Returned tt, m1)
       /\ handleDeleteProfile (platform := Demo.browser) true m1
          = (Returned tt, m2)
       /\ profiles m2 = Demo.two_subjects
       /\ activeProfileId m2 = Some "subject-a".
Proof.
  split; [reflexivity|]. split; [reflexivity|].
  destruct (delete_after_create_restores_the_store (platform := Demo.browser)
              Demo.on_blank "subject-a" ["subject-b"] eq_refl eq_refl)
    as (m1 & m2 & Hcreate & Hdelete & Hps & Ha & _).
  exists m1, m2. auto.
Defined.

Lemma edit_changes_the_active_profile_only_witness :
  exists m',
    handleUpdateProfile (platform := Demo.browser) (editFirstName "Robin")
      Demo.on_alex
    = Some (Returned tt, m')
    /\ Js.get "subject-a" (profiles m')
       = Js.Own (editedProfile (Demo.alex "subject-a") (editFirstName "Robin")
                   (Demo.clock 0))
    /\ Js.get "subject-b" (profiles m')
       = Js.Own (Demo.migrated_blank "subject-b")
    /\ Js.keys (profiles m') = ["subject-a"; "subject-b"].
Proof.
  assert (Hne : "subject-a" <> EmptyString) by discriminate.
  destruct (edit_changes_the_active_profile_only (platform := Demo.browser)
              Demo.on_alex "subject-a" (Demo.alex "subject-a")
              (editFirstName "Robin") eq_refl Hne eq_refl)
    as (m' & Hrun & Hget & Hframe & Hkeys & _).
  exists m'. split; [exact Hrun|]. split; [exact Hget|].
  split; [|exact Hkeys]. rewrite Hframe by discriminate. reflexivity.
Defined.

Lemma consistent_saved_on_alex : consistent Sample.saved_on_alex.
Proof.
  apply (consistent_two_subjects _ _ (Demo.alex "subject-a"));
    [discriminate|reflexivity].
Qed.

Lemma saved_saved_on_alex : saved Sample.saved_on_alex.
Proof. split; reflexivity. Qed.

Lemma session_keeps_an_active_profile_witness :
  exists m',
    session (platform := Demo.browser) Sample.actions Sample.saved_on_alex
    = Some (Returned tt, m')
    /\ consistent m' /\ saved m' /\ profiles m' <> [].
Proof.
  destruct (session_keeps_an_active_profile (platform := Demo.browser)
              Sample.actions Sample.saved_on_alex
              consistent_saved_on_alex saved_saved_on_alex)
    as (m' & Hrun & Hm' & Hs' & Hne & _).
  exists m'. auto.
Defined.

Lemma saving_a_saved_state_changes_nothing_witness :
  persist Sample.saved_on_alex = (Returned tt, Sample.saved_on_alex).
Proof.
  exact (saving_a_saved_state_changes_nothing Sample.saved_on_alex
           consistent_saved_on_alex saved_saved_on_alex).
Defined.

Lemma names_are_kept_over_a_run_witness :
  exists m' updated,
    handleAnalyses (platform := Demo.browser) Sample.run Demo.on_alex
    = (Returned tt, m')
    /\ Js.get "subject-a" (profiles m') = Js.Own updated
    /\ PsychologicalProfile.firstName updated = "Alex"
    /\ PsychologicalProfile.lastName updated = "Moreau".
Proof.
  destruct (names_are_kept_over_a_run (platform := Demo.browser)
              Sample.run Demo.on_alex (Demo.alex "subject-a") eq_refl)
    as (m' & updated & Hrun & Hget & _ & Hfirst & Hlast).
  exists m', updated. split; [exact Hrun|]. split; [exact Hget|]. split.
  - apply Hfirst. simpl. intros [H|[H|[H|[]]]]; discriminate H.
  - apply Hlast. simpl. intros [H|[H|[H|[]]]]; discriminate H.
Defined.

Lemma a_typed_identity_survives_analyses_witness :
  exists m1 m2 updated,
    handleUpdateProfile (platform := Demo.browser) (editFirstName "Robin")
      Demo.on_blank
    = Some (Returned tt, m1)
    /\ handleAnalyses (platform := Demo.browser) Sample.run m1
       = (Returned tt, m2)
    /\ Js.get "subject-b" (profiles m2) = Js.Own updated
    /\ PsychologicalProfile.firstName updated = "Robin".
Proof.
  assert (Hne : "subject-b" <> EmptyString) by discriminate.
  destruct (a_typed_identity_survives_analyses (platform := Demo.browser)
              Sample.run Demo.on_blank "subject-b"
              (Demo.migrated_blank "subject-b") (editFirstName "Robin")
              eq_refl Hne eq_refl)
    as (m1 & m2 & updated & Hedit & Hrun & Hget & Hfirst & _).
  exists m1, m2, updated. split; [exact Hedit|]. split; [exact Hrun|].
  split; [exact Hget|]. apply Hfirst; [reflexivity|].
  simpl. intros [H|[H|[H|[]]]]; discriminate H.
Defined.

Lemma a_run_logs_the_answered_analyses_witness :
  exists m' updated,
    handleAnalyses (platform := Demo.browser) Sample.run Demo.on_blank
    = (Returned tt, m')
    /\ Js.get "subject-b" (profiles m') = Js.Own updated
    /\ map (fun h => (AnalysisHistoryItem.type h, AnalysisHistoryItem.summary h))
         (PsychologicalProfile.history updated)
       = [ (IMAGE, "Signs every message with a full name.");
           (PDF, "Laughs before answering.") ]
    /\ PsychologicalProfile.mbti updated = "ESFJ".
Proof.
  destruct (a_run_logs_the_answered_analyses (platform := Demo.browser)
              Sample.run Demo.on_blank (Demo.migrated_blank "subject-b")
              eq_refl)
    as (m' & updated & entries & Hrun & Hget & Hhist & Hlog & Hlast & _).
  exists m', updated. split; [exact Hrun|]. split; [exact Hget|]. split.
  - rewrite Hhist. simpl. exact Hlog.
  - apply (Hlast [(IMAGE, Demo.names_jordan)] PDF Sample.anonymous eq_refl).
Defined.

Lemma a_late_reply_goes_to_the_profile_it_was_started_on_witness :
  exists m' updated,
    (handleSwitchProfile "subject-b" ;;
     handleAnalysis_update (platform := Demo.browser) [Demo.photo "a.png"]
       IMAGE Demo.names_jordan (Some "subject-a")) Demo.on_alex
    = (Returned tt, m')
    /\ activeProfileId m' = Some "subject-b"
    /\ Js.get "subject-a" (profiles m') = Js.Own updated
    /\ PsychologicalProfile.mbti updated = "ISTJ"
    /\ Js.get "subject-b" (profiles m')
       = Js.Own (Demo.migrated_blank "subject-b").
Proof.
  assert (Hfiles : [Demo.photo "a.png"] <> []) by discriminate.
  destruct (a_late_reply_goes_to_the_profile_it_was_started_on
              (platform := Demo.browser) Demo.on_alex "subject-a" "subject-b"
              (Demo.alex "subject-a") [Demo.photo "a.png"] IMAGE
              Demo.names_jordan eq_refl Hfiles)
    as (m' & label & Hrun & _ & Ha & Hget & Hframe).
  exists m', (merge_on (platform := Demo.browser) Demo.on_alex IMAGE
                Demo.names_jordan (Demo.alex "subject-a") label).
  split; [exact Hrun|]. split; [exact Ha|]. split; [exact Hget|].
  split; [reflexivity|]. rewrite Hframe by discriminate. reflexivity.
Defined.

Lemma a_reply_for_a_deleted_profile_is_dropped_witness :
  (handleDeleteProfile (platform := Demo.browser) true ;;
   handleAnalysis_update (platform := Demo.browser) [Demo.photo "a.png"]
     IMAGE Demo.names_jordan (Some "subject-a")) Demo.on_alex
  = handleDeleteProfile (platform := Demo.browser) true Demo.on_alex.
Proof.
  assert (Hne : "subject-a" <> EmptyString) by discriminate.
  assert (Hfresh : Demo.uuid 0 <> "subject-a") by discriminate.
  exact (a_reply_for_a_deleted_profile_is_dropped (platform := Demo.browser)
           Demo.on_alex "subject-a" [Demo.photo "a.png"] IMAGE
           Demo.names_jordan eq_refl Hne eq_refl Hfresh).
Defined.

Lemma an_empty_stored_map_drops_the_work_witness :
  @JSON_parse_profiles Sample.browser "{}" = Some []
  /\ loadData (platform := Sample.browser) (mounted Sample.empty_map_storage 0 0)
     = (Returned tt, mounted Sample.empty_map_storage 0 0)
  /\ exists m',
       session (platform := Sample.browser) Sample.quiet_actions
         (mounted Sample.empty_map_storage 0 0)
       = Some (Returned tt, m')
       /\ profiles m' = []
       /\ localStorage m' = Sample.empty_map_storage.
Proof.
  split; [reflexivity|].
  assert (Hsaved : forall k,
            Js.own "psycho_active_id" Sample.empty_map_storage = Some k ->
            Js.inherited k = false).
  { intros k [= <-]. reflexivity. }
  assert (Hquiet : ~ In Create Sample.quiet_actions).
  { simpl. intros [H|[H|[H|[H|[H|[H|[]]]]]]]; discriminate H. }
  destruct (an_empty_stored_map_drops_the_work (platform := Sample.browser)
              Sample.empty_map_storage 0 0 "{}" Sample.quiet_actions
              eq_refl eq_refl Hsaved Hquiet)
    as (Hload & m' & Hrun & Hps & _ & Hst).
  split; [exact Hload|]. exists m'. auto.
Defined.

Lemma a_menu_button_shows_its_profile_witness :
  exists m',
    clickProfile 1 Demo.on_alex = (Returned tt, m')
    /\ activeProfileId m' = Some "subject-b"
    /\ activeProfile (platform := Demo.browser) m'
       = (Returned (Js.Own (Demo.migrated_blank "subject-b")), m').
Proof.
  assert (Hnodup : NoDup (Js.keys (profiles Demo.on_alex))).
  { simpl. repeat constructor; simpl; intuition discriminate. }
  destruct (a_menu_button_shows_its_profile (platform := Demo.browser)
              Demo.on_alex 1 "subject-b" (Demo.migrated_blank "subject-b")
              keyed_two_subjects Hnodup eq_refl)
    as (m' & Hrun & Ha & Hshown & _).
  exists m'. auto.
Defined.

Lemma a_new_profile_takes_the_identity_offered_witness :
  exists m1 m2 updated,
    handleCreateProfile (platform := Demo.browser) Demo.on_alex
    = (Returned tt, m1)
    /\ handleAnalysis (platform := Demo.browser) [Demo.photo "a.png"] IMAGE
         (Some Demo.names_jordan) m1
       = (Returned tt, m2)
    /\ Js.get (Demo.uuid 0) (profiles m2) = Js.Own updated
    /\ PsychologicalProfile.firstName updated = "Jordan"
    /\ PsychologicalProfile.lastName updated = "Reyes"
    /\ PsychologicalProfile.dateOfBirth updated = "1985-01-30".
Proof.
  assert (Hfiles : [Demo.photo "a.png"] <> []) by discriminate.
  destruct (a_new_profile_takes_the_identity_offered (platform := Demo.browser)
              Demo.on_alex [Demo.photo "a.png"] IMAGE Demo.names_jordan Hfiles)
    as (m1 & m2 & updated & entry & Hcreate & Hrun & _ & Hget & Hfirst & Hlast
        & Hdob & _).
  exists m1, m2, updated. split; [exact Hcreate|]. split; [exact Hrun|].
  split; [exact Hget|].
  split; [apply Hfirst; [reflexivity|discriminate]|].
  split; [apply Hlast; [reflexivity|discriminate]|].
  apply Hdob; [reflexivity|discriminate].
Defined.

Lemma an_upload_is_logged_under_the_type_of_its_first_file_witness :
  exists m' updated entry,
    upload (platform := Demo.browser) [Sample.memo; Demo.photo "b.png"]
      "two files" (Some Sample.anonymous) Demo.on_alex
    = (Returned tt, m')
    /\ Js.get "subject-a" (profiles m') = Js.Own updated
    /\ PsychologicalProfile.history updated = [Demo.visit; entry]
    /\ AnalysisHistoryItem.type entry = PDF
    /\ AnalysisHistoryItem.fileName entry = Some "2 files uploaded".
Proof.
  destruct (an_upload_is_logged_under_the_type_of_its_first_file
              (platform := Demo.browser) Demo.on_alex Sample.memo
              [Demo.photo "b.png"] "two files" Sample.anonymous
              (Demo.alex "subject-a") eq_refl)
    as (m' & updated & entry & Hrun & Hget & Hhist & Htype & _ & Hlabel).
  exists m', updated, entry. auto.
Defined.

Lemma a_recording_is_logged_as_video_or_audio_witness :
  exists m' updated entry,
    record (platform := Demo.browser) screen "chat" (Some Sample.anonymous)
      Demo.on_alex
    = (Returned tt, m')
    /\ Js.get "subject-a" (profiles m') = Js.Own updated
    /\ PsychologicalProfile.history updated = [Demo.visit; entry]
    /\ AnalysisHistoryItem.type entry = VIDEO
    /\ AnalysisHistoryItem.fileName entry = Some "screen-capture.webm".
Proof.
  destruct (a_recording_is_logged_as_video_or_audio
              (platform := Demo.browser) Demo.on_alex screen "chat"
              Sample.anonymous (Demo.alex "subject-a") eq_refl)
    as (m' & updated & entry & Hrun & Hget & Hhist & _ & Hlogged & _).
  exists m', updated, entry. injection Hlogged as Htype Hlabel. auto.
Defined.

Lemma convertFileToBase64_gives_the_payload_witness :
  convertFileToBase64 "data:image/png;base64,iVBORw0KGgo=" = Some "iVBORw0KGgo="
  /\ convertFileToBase64 "data:image/png;base64" = None.
Proof.
  exact (convertFileToBase64_gives_the_payload "data:image/png;base64"
           "iVBORw0KGgo=" eq_refl eq_refl).
Defined.

Lemma the_export_file_name_has_no_white_space_witness :
  exists d m',
    handleExport (platform := Demo.browser) doc
      (editedProfile (Demo.alex "subject-a") (editFirstName "Alex  Jr") 0)
      Demo.on_alex
    = (Returned d, m')
    /\ no_ws (download d) = true
    /\ download d = "PsychProfile_AlexJr_Moreau_2023-11-14.doc".
Proof.
  destruct (the_export_file_name_has_no_white_space (platform := Demo.browser)
              doc
              (editedProfile (Demo.alex "subject-a") (editFirstName "Alex  Jr") 0)
              Demo.on_alex eq_refl)
    as (d & m' & Hrun & Hws & Hname & _).
  exists d, m'. split; [exact Hrun|]. split; [exact Hws|].
  rewrite Hname. reflexivity.
Defined.

Lemma the_reports_list_the_newest_analysis_first_witness :
  appears_in
    ("ANALYSIS HISTORY" ++ nl ++ "----------------" ++ nl
     ++ textHistoryLine (platform := Demo.browser) Demo.visit)
    (generateTextReport (platform := Demo.browser) (Demo.alex "subject-a"))
  /\ appears_in
       ("      <h2>EVIDENCE LOG</h2>" ++ nl ++ "      <ul>" ++ nl
        ++ "        " ++ htmlHistoryItem (platform := Demo.browser) Demo.visit)
       (generateHTMLReport (platform := Demo.browser) 0 (Demo.alex "subject-a")).
Proof.
  exact (the_reports_list_the_newest_analysis_first (platform := Demo.browser)
           0 (Demo.alex "subject-a") [] Demo.visit eq_refl).
Defined.
